(** * Lead-finder backend: scoring, quota ledger, result cache and search route

    A shallow embedding of the Python sources under [app/] and the
    properties of the written specification checked against them.

    Conventions of the embedding.
    - A Python [str] is a [string] whose characters are code points below
      256 (Latin-1); on that range [\d] is exactly [0-9], and [str.lower],
      [str.isspace], [str.isdigit], [\w] are the tables written out in [PyStr].
    - A Python [int] is a [Z].
    - A Python [float] is the rational it denotes; every arithmetic operation
      is the exact operation followed by rounding to binary64
      (round-to-nearest, ties-to-even), written out in [PyFloat].
    - A [dict] whose iteration order matters is an association list in
      insertion order; the process-wide stores (result cache, user table)
      are [gmap]s.
    - Code that raises returns an error value; [try]/[except] is a match. *)

From Stdlib Require Import ZArith QArith Qround Qpower Qminmax Lia Lqa List Bool Ascii String.
From Stdlib Require Import Sorted Permutation.
From stdpp Require Import base strings gmap.
Import ListNotations.

Local Open Scope string_scope.
Local Open Scope list_scope.
Local Open Scope Z_scope.

(* ------------------------------------------------------------------ *)
(** ** Python [str] operations *)

Module PyStr.

Definition code (c : ascii) : N := N_of_ascii c.

Definition in_range (lo hi : N) (c : ascii) : bool :=
  ((lo <=? code c) && (code c <=? hi))%N.

(** [c.isspace()] *)
Definition isspace (c : ascii) : bool :=
  in_range 9 13 c || in_range 28 32 c || (code c =? 133)%N || (code c =? 160)%N.

(** [\d] of [re] on [str], and [c.isdecimal()] *)
Definition isdecimal (c : ascii) : bool := in_range 48 57 c.

(** [c.isdigit()]: the decimal digits and the superscripts 1, 2, 3 *)
Definition isdigit (c : ascii) : bool :=
  isdecimal c || (code c =? 178)%N || (code c =? 179)%N || (code c =? 185)%N.

Definition isupper (c : ascii) : bool :=
  in_range 65 90 c || in_range 192 214 c || in_range 216 222 c.

(** [\w] of [re] on [str]: alphanumeric or underscore *)
Definition isword (c : ascii) : bool :=
  in_range 48 57 c || in_range 65 90 c || (code c =? 95)%N || in_range 97 122 c
  || (code c =? 170)%N || (code c =? 178)%N || (code c =? 179)%N || (code c =? 181)%N
  || (code c =? 185)%N || (code c =? 186)%N || in_range 188 190 c
  || in_range 192 214 c || in_range 216 246 c || in_range 248 255 c.

Definition lower_char (c : ascii) : ascii :=
  if isupper c then ascii_of_N (code c + 32) else c.

(** [s.lower()] *)
Fixpoint lower (s : string) : string :=
  match s with
  | EmptyString => EmptyString
  | String c s' => String (lower_char c) (lower s')
  end.

(** [s.startswith(p)] *)
Fixpoint startswith (p s : string) : bool :=
  match p, s with
  | EmptyString, _ => true
  | String _ _, EmptyString => false
  | String a p', String b s' => Ascii.eqb a b && startswith p' s'
  end.

(** [p in s] *)
Fixpoint str_in (p s : string) : bool :=
  startswith p s ||
  match s with
  | EmptyString => false
  | String _ s' => str_in p s'
  end.

Fixpoint lstrip (s : string) : string :=
  match s with
  | EmptyString => EmptyString
  | String c s' => if isspace c then lstrip s' else s
  end.

Fixpoint rstrip (s : string) : string :=
  match s with
  | EmptyString => EmptyString
  | String c s' =>
      match rstrip s' with
      | EmptyString => if isspace c then EmptyString else String c EmptyString
      | r => String c r
      end
  end.

(** [s.strip()] *)
Definition strip (s : string) : string := rstrip (lstrip s).

(** Truthiness of a [str]: non-empty. *)
Definition truthy (s : string) : bool :=
  match s with EmptyString => false | _ => true end.

(** Truthiness of an [Optional[str]]: neither [None] nor empty. *)
Definition otruthy (o : option string) : bool :=
  match o with Some s => truthy s | None => false end.

(** [a or b] on two [Optional[str]] values. *)
Definition por (a b : option string) : option string :=
  if otruthy a then a else b.

(** The content of an [Optional[str]] known to be truthy. *)
Definition oget (o : option string) : string :=
  match o with Some s => s | None => EmptyString end.

(** [len(s)] *)
Definition len (s : string) : Z := Z.of_nat (String.length s).

(** [s[:n]] for [n >= 0] *)
Fixpoint take (n : nat) (s : string) : string :=
  match n, s with
  | O, _ => EmptyString
  | _, EmptyString => EmptyString
  | S n', String c s' => String c (take n' s')
  end.

(** Runs of characters satisfying [keep], separated by the others:
    [s.split()] with [keep] = not [isspace], and
    [re.findall(r'\b\w+\b', s)] with [keep] = [isword]. *)
Fixpoint runs_aux (keep : ascii -> bool) (cur : string) (s : string) : list string :=
  match s with
  | EmptyString => match cur with EmptyString => [] | _ => [cur] end
  | String c s' =>
      if keep c then runs_aux keep (cur +:+ String c EmptyString) s'
      else match cur with
           | EmptyString => runs_aux keep EmptyString s'
           | _ => cur :: runs_aux keep EmptyString s'
           end
  end.

Definition split (s : string) : list string :=
  runs_aux (fun c => negb (isspace c)) EmptyString s.

Definition findall_words (s : string) : list string :=
  runs_aux isword EmptyString s.

(** [str(n)] for a non-negative [int], most significant digit first. *)
Fixpoint digits_aux (fuel : nat) (n : Z) (acc : string) : string :=
  match fuel with
  | O => acc
  | S fuel' =>
      let acc' := String (ascii_of_N (48 + Z.to_N (n mod 10))) acc in
      if n <? 10 then acc' else digits_aux fuel' (n / 10) acc'
  end.

(** [str(n)] *)
Definition str_of_int (n : Z) : string :=
  if n <? 0 then String "-" (digits_aux (S (Z.to_nat (Z.log2 (- n)))) (- n) EmptyString)
  else digits_aux (S (Z.to_nat (Z.log2 n))) n EmptyString.

(** The whitespace that [int] skips around a literal: the ASCII blanks
    and, of the characters above 127, the two that are spaces.  The
    separators 28 to 31 are whitespace for [str.isspace] and [str.strip]
    but not for [int], which rejects them. *)
Definition int_space (c : ascii) : bool :=
  in_range 9 13 c || (code c =? 32)%N || (code c =? 133)%N || (code c =? 160)%N.

Fixpoint int_lstrip (s : string) : string :=
  match s with
  | EmptyString => EmptyString
  | String c s' => if int_space c then int_lstrip s' else s
  end.

Fixpoint int_rstrip (s : string) : string :=
  match s with
  | EmptyString => EmptyString
  | String c s' =>
      match int_rstrip s' with
      | EmptyString => if int_space c then EmptyString else String c EmptyString
      | r => String c r
      end
  end.

(** The digits of a literal with single underscores between them. *)
Fixpoint int_digits (s : string) (acc : Z) (after_digit : bool) : option Z :=
  match s with
  | EmptyString => if after_digit then Some acc else None
  | String c s' =>
      if isdecimal c then int_digits s' (10 * acc + Z.of_N (code c - 48)) true
      else if (code c =? 95)%N && after_digit then
        match s' with
        | String d _ => if isdecimal d then int_digits s' acc false else None
        | EmptyString => None
        end
      else None
  end.

Fixpoint count_decimal (s : string) : Z :=
  match s with
  | EmptyString => 0
  | String c s' => if isdecimal c then 1 + count_decimal s' else count_decimal s'
  end.

(** The interpreter's default limit on the digits of a decimal literal
    ([sys.int_max_str_digits]); leading zeros count. *)
Definition int_max_str_digits : Z := 4300.

(** [int(s)] on a [str]: whitespace around the literal, an optional sign
    directly before the digits, decimal digits with single underscores
    between them; [None] stands for [ValueError]. *)
Definition py_int (s : string) : option Z :=
  let literal := int_rstrip (int_lstrip s) in
  if int_max_str_digits <? count_decimal literal then None
  else
    match literal with
    | String "+" r => int_digits r 0 false
    | String "-" r => option_map Z.opp (int_digits r 0 false)
    | r => int_digits r 0 false
    end.

(** [s.isdigit()] *)
Fixpoint all_isdigit (s : string) : bool :=
  match s with
  | EmptyString => true
  | String c s' => isdigit c && all_isdigit s'
  end.

Definition str_isdigit (s : string) : bool := truthy s && all_isdigit s.

(** [sep.join(l)] *)
Fixpoint join (sep : string) (l : list string) : string :=
  match l with
  | [] => EmptyString
  | [x] => x
  | x :: l' => x +:+ sep +:+ join sep l'
  end.

End PyStr.

(* ------------------------------------------------------------------ *)
(** ** Python [float]: binary64 arithmetic on rationals *)

Module PyFloat.

Local Open Scope Q_scope.

Definition pow2 (z : Z) : Q := 2 ^ z.

(** Nearest integer, ties to the even one. *)
Definition rne (y : Q) : Z :=
  let f := Qfloor y in
  match Qcompare (y - inject_Z f) (1 # 2) with
  | Lt => f
  | Gt => (f + 1)%Z
  | Eq => if Z.even f then f else (f + 1)%Z
  end.

(** The binary exponent of a positive rational: [2^e <= x < 2^(e+1)]. *)
Definition ilog2 (x : Q) : Z :=
  let d := (Z.log2 (Qnum x) - Z.log2 (Zpos (Qden x)))%Z in
  if Qle_bool (pow2 d) x then d else (d - 1)%Z.

(** Smallest exponent of a normal binary64 number. *)
Definition emin : Z := -1022.

(** A positive rational rounded to 53 significant bits (fewer in the
    subnormal range).  The overflow threshold near [2^1024] is not
    represented: no quantity of this development comes near it. *)
Definition round_pos (x : Q) : Q :=
  let e := Z.max (ilog2 x) emin in
  let s := (52 - e)%Z in
  Qred (inject_Z (rne (x * pow2 s)) * pow2 (- s)).

Definition round64 (x : Q) : Q :=
  match Qcompare x 0 with
  | Eq => 0
  | Gt => round_pos x
  | Lt => - round_pos (- x)
  end.

Definition fadd (x y : Q) : Q := round64 (x + y).
Definition fsub (x y : Q) : Q := round64 (x - y).
Definition fmul (x y : Q) : Q := round64 (x * y).
Definition fdiv (x y : Q) : Q := round64 (x / y).

(** [float(n)] and the implicit conversion of an [int] operand. *)
Definition of_int (n : Z) : Q := round64 (inject_Z n).

(** [a / b] on two [int]s: the correctly rounded quotient. *)
Definition int_div (a b : Z) : Q := round64 (inject_Z a / inject_Z b).

(** A decimal literal such as [0.3]. *)
Definition literal (num : Z) (den : positive) : Q := round64 (num # den).

(** [int(x)]: truncation toward zero. *)
Definition trunc (x : Q) : Z :=
  if Qle_bool 0 x then Qfloor x else (- Qfloor (- x))%Z.

(** [x > y] *)
Definition gtb (x y : Q) : bool := negb (Qle_bool x y).

Definition ulp_rel : Q := pow2 (-53).
Definition eta : Q := pow2 (-1075).

End PyFloat.

(* ------------------------------------------------------------------ *)
(** ** Dicts, dynamically typed values and exceptions *)

Module PyData.

(** [d.get(key)] on a dict kept in insertion order. *)
Fixpoint dict_get {A : Type} (d : list (string * A)) (key : string) : option A :=
  match d with
  | [] => None
  | (k, v) :: d' => if String.eqb k key then Some v else dict_get d' key
  end.

(** [list(d.keys())] *)
Definition dict_keys {A : Type} (d : list (string * A)) : list string := map fst d.

(** [key in d] *)
Definition dict_mem {A : Type} (d : list (string * A)) (key : string) : bool :=
  existsb (String.eqb key) (dict_keys d).

(** A value stored in a post dict. *)
Inductive pyval :=
| PyNone
| PyStr (s : string)
| PyInt (n : Z)
| PyFloat (x : Q).

(** A post: a [Dict[str, Any]] in insertion order. *)
Definition Post := list (string * pyval).

(** [post.get(key, default)] *)
Definition post_get (post : Post) (key : string) (default : pyval) : pyval :=
  match dict_get post key with
  | Some v => v
  | None => default
  end.

(** [post[key] = v] *)
Fixpoint post_set (post : Post) (key : string) (v : pyval) : Post :=
  match post with
  | [] => [(key, v)]
  | (k, x) :: post' =>
      if String.eqb k key then (k, v) :: post' else (k, x) :: post_set post' key v
  end.

(** The exceptions that the modelled code can raise. *)
Inductive exn :=
| AttributeError
| TypeError
| ValueError
| ZeroDivisionError
| ValidationError
| UpstreamError (message : string)
| HTTPException (status_code : Z) (detail : string).

(** The outcome of a call that may raise. *)
Inductive res (A : Type) :=
| Ok (a : A)
| Raise (e : exn).
Arguments Ok {A} a.
Arguments Raise {A} e.

End PyData.

(* ------------------------------------------------------------------ *)
(** ** [app/services/business_keywords.py] *)

Module BusinessKeywords.

Import PyStr PyFloat PyData.

(** The character U+00E9 of the catalog's accented entries. *)
Definition chr233 : string := String (ascii_of_N 233) EmptyString.

Definition BUSINESS_KEYWORDS : list (string * list string) :=
  [ ("Gyms / Fitness Studios",
     ["gym"; "fitness"; "trainer"; "workout"; "members"; "membership"; "exercise";
     "personal training"; "fitness studio"; "gym owner"; "fitness business";
     "personal trainer"; "workout studio"; "fitness center"; "health club"]);
    ("SaaS Companies",
     ["saas"; "software"; "app"; "application"; "platform"; "subscription"; "mrr";
     "arr"; "api"; "dashboard"; "tech"; "startup"; "software company"; "web app";
     "mobile app"; "cloud"; "b2b"; "enterprise"; "integration"; "automation"]);
    ("E-commerce Stores",
     ["ecommerce"; "shopify"; "amazon"; "etsy"; "store"; "products"; "inventory";
     "shipping"; "retail"; "online store"; "dropshipping"; "fulfillment";
     "merchandise"; "marketplace"; "seller"; "vendor"; "product catalog"]);
    ("Marketing Agencies",
     ["agency"; "client"; "campaign"; "creative"; "brand"; "marketing"; "seo"; "ppc";
     "advertising"; "digital marketing"; "social media"; "content marketing";
     "email marketing"; "marketing agency"; "ad agency"; "creative agency";
     "marketing services"]);
    ("Freelance Designers",
     ["freelance"; "designer"; "design"; "graphic design"; "ui"; "ux"; "logo";
     "branding"; "visual"; "creative"; "portfolio"; "client work"; "design project";
     "freelance designer"; "graphic designer"; "web design"]);
    (("Coffee Shops / Caf" +:+ chr233 +:+ "s"),
     ["coffee"; "cafe"; ("caf" +:+ chr233); "coffee shop"; "barista"; "espresso";
     "latte"; "coffee business"; "cafe owner"; "coffee shop owner"; "roastery";
     "coffee roaster"; "coffee house"; "beverage"]);
    ("Online Course Creators",
     ["course"; "online course"; "education"; "teaching"; "learning"; "student";
     "curriculum"; "course creator"; "online education"; "elearning"; "training";
     "workshop"; "tutorial"; "educational content"; "course platform"]);
    ("Local Service Businesses",
     ["local business"; "service business"; "contractor"; "plumber"; "electrician";
     "handyman"; "home improvement"; "local services"; "service provider";
     "home services"; "maintenance"; "repair"; "installation"; "local contractor"]);
    ("App Developers",
     ["app developer"; "mobile app"; "ios"; "android"; "app development";
     "programming"; "coding"; "developer"; "software developer"; "app store";
     "mobile development"; "app creation"; "app building"; "mobile app developer"]);
    ("Consultants / Coaches",
     ["consultant"; "coach"; "consulting"; "coaching"; "advisor"; "mentor";
     "business coach"; "life coach"; "consulting business"; "coaching business";
     "professional services"; "business advisor"; "strategy consultant"]) ].

Definition INDUSTRY_KEYWORDS : list (string * list string) :=
  [ ("Fitness",
     ["fitness"; "gym"; "workout"; "exercise"; "training"; "health"; "wellness";
     "personal training"; "fitness business"; "gym owner"; "fitness studio";
     "health club"; "fitness center"]);
    ("SaaS / Tech",
     ["saas"; "software"; "tech"; "technology"; "app"; "application"; "platform";
     "startup"; "software company"; "tech company"; "web app"; "mobile app"; "cloud";
     "b2b"; "enterprise"]);
    ("E-commerce",
     ["ecommerce"; "online store"; "retail"; "shopping"; "products"; "marketplace";
     "seller"; "vendor"; "shopify"; "amazon"; "etsy"; "dropshipping"; "fulfillment";
     "merchandise"]);
    ("Marketing & Advertising",
     ["marketing"; "advertising"; "agency"; "digital marketing"; "social media"; "seo";
     "ppc"; "content marketing"; "email marketing"; "brand"; "campaign"; "creative";
     "marketing agency"]);
    ("Education / Edtech",
     ["education"; "learning"; "teaching"; "course"; "online course"; "student";
     "elearning"; "training"; "workshop"; "tutorial"; "educational"; "course creator";
     "online education"]);
    ("Food & Beverage",
     ["food"; "restaurant"; "cafe"; "coffee"; "beverage"; "dining"; "food business";
     "restaurant owner"; "coffee shop"; "cafe owner"; "food service"; "culinary";
     "catering"; "food truck"]);
    ("Local Services",
     ["local business"; "service"; "contractor"; "home improvement"; "maintenance";
     "repair"; "installation"; "local services"; "service provider"; "home services";
     "local contractor"]);
    ("Finance / Fintech",
     ["finance"; "financial"; "fintech"; "banking"; "investment"; "money";
     "financial services"; "fintech company"; "financial advisor"; "investment";
     "trading"; "cryptocurrency"; "fintech"]);
    ("Freelancers / Creatives",
     ["freelance"; "freelancer"; "creative"; "design"; "designer"; "artist";
     "creative services"; "freelance work"; "creative business"; "design business";
     "creative professional"]);
    ("Consulting / Coaching",
     ["consulting"; "coaching"; "consultant"; "coach"; "advisor"; "mentor";
     "professional services"; "business consulting"; "life coaching";
     "business coach"; "strategy consultant"; "business advisor"]) ].

Definition get_keywords_for_business (business_type : string) : list string :=
  match dict_get BUSINESS_KEYWORDS business_type with
  | Some kws => kws
  | None => []
  end.

Definition get_keywords_for_industry (industry_type : string) : list string :=
  match dict_get INDUSTRY_KEYWORDS industry_type with
  | Some kws => kws
  | None => []
  end.

Definition get_keywords_for_selection (business industry : option string) : list string :=
  if otruthy business then get_keywords_for_business (oget business)
  else if otruthy industry then get_keywords_for_industry (oget industry)
  else [].

(** [sum(1 for keyword in keywords if keyword in text)] *)
Definition count_matches (keywords : list string) (text : string) : Z :=
  fold_left (fun n keyword => if str_in keyword text then n + 1 else n) keywords 0.

Definition calculate_business_relevance_score
    (post_text : string) (target_keywords : list string) : Z :=
  match target_keywords with
  | [] => 0
  | _ =>
      let post_lower := lower post_text in
      let matches := count_matches target_keywords post_lower in
      let match_percentage :=
        fmul (int_div matches (Z.of_nat (length target_keywords))) (of_int 100) in
      let match_percentage :=
        if 3 <=? matches then fadd match_percentage (of_int 20)
        else if 2 <=? matches then fadd match_percentage (of_int 10)
        else match_percentage in
      Z.min 100 (trunc match_percentage)
  end.

End BusinessKeywords.

(* ------------------------------------------------------------------ *)
(** ** [app/services/ai_enhancer.py] *)

Module AIEnhancer.

Import PyStr PyFloat PyData BusinessKeywords.

Inductive Urgency := High | Medium | Low.

Record EnhancedQuery := {
  original_problem : string;
  enhanced_problem : string;
  keywords : list string;
  business_context : string;
  urgency_indicators : list string
}.

Record RelevanceScore := {
  overall_score : Z;
  keyword_match : Z;
  struggle_detection : Z;
  business_relevance : Z;
  urgency_level : Urgency
}.

Definition struggle_indicators : list (string * list string) :=
  [ ("high_urgency",
     ["struggling"; "struggle"; "desperate"; "urgent"; "failing"; "lost"; "can't";
     "cannot"; "can not"; "help"; "advice"; "stuck"; "frustrated"; "overwhelmed";
     "declining"; "losing"; "first client"; "first customer"; "no customers";
     "no clients"; "getting clients"; "customer acquisition"; "lead generation";
     "need help"; "looking for"; "how to"; "what should"; "any advice"; "trouble";
     "problem"; "issue"]);
    ("medium_urgency",
     ["challenging"; "difficult"; "hard"; "tough"; "slow"; "low"; "few"; "not enough";
     "lack of"; "need more"; "want to improve"; "trying to"; "working on";
     "focusing on"]);
    ("business_keywords",
     ["revenue"; "sales"; "profit"; "growth"; "marketing"; "advertising"; "clients";
     "customers"; "leads"; "conversion"; "retention"; "churn"; "pricing";
     "competition"; "market"; "brand"; "website"; "online"; "digital"; "social media";
     "email"; "content"; "seo"; "ppc"]) ].

Definition success_story_patterns : list (string * list string) :=
  [ ("revenue_indicators",
     ["hit $"; "made $"; "reached $"; "grew to $"; "earned $"; "revenue"; "mrr"; "arr"]);
    ("success_phrases",
     ["here's what worked"; "here's how i"; "my advice is"; "try this";
     "what you should do"]);
    ("past_tense_success",
     ["i grew"; "i built"; "i launched"; "i created"; "i developed"; "i achieved"]);
    ("teaching_indicators",
     ["here's what"; "let me share"; "i want to tell"; "here's my story"; "here's how"]);
    ("promotion_indicators",
     ["i will not promote"; "not promoting"; "no promotion"]) ].

Definition active_struggle_patterns : list (string * list string) :=
  [ ("present_tense_questions",
     ["how do i"; "what should i"; "any advice"; "can someone help"; "need help with"]);
    ("current_problems",
     ["i'm struggling"; "i can't"; "i need help"; "stuck with"; "can't figure out"]);
    ("direct_help_requests",
     ["help me"; "advice needed"; "any suggestions"; "what should i do"]) ].

(** The stop words of [_extract_keywords]; a set, listed alphabetically. *)
Definition stopwords : list string :=
  ["a"; "an"; "and"; "are"; "at"; "be"; "been"; "being"; "but"; "by"; "can"; "cannot";
   "could"; "did"; "do"; "does"; "for"; "had"; "has"; "have"; "in"; "is"; "may";
   "might"; "must"; "of"; "on"; "or"; "should"; "the"; "to"; "was"; "were"; "will";
   "with"; "would"].

Definition enhancements : list (string * list string) :=
  [ ("client acquisition",
     ["customer acquisition"; "lead generation"; "finding clients"; "getting customers"]);
    ("marketing",
     ["advertising"; "promotion"; "brand awareness"; "lead generation"]);
    ("sales",
     ["revenue"; "conversions"; "closing deals"; "customer acquisition"]);
    ("growth",
     ["scaling"; "expansion"; "increasing revenue"; "business development"]) ].

(** [self.struggle_indicators[name]] *)
Definition indicators (name : string) : list string :=
  match dict_get struggle_indicators name with
  | Some l => l
  | None => []
  end.

(** [list(set(l))]: the order of the result is unspecified in Python; the
    first occurrences are kept here. *)
Fixpoint dedup (l : list string) : list string :=
  match l with
  | [] => []
  | x :: l' => x :: List.filter (fun y => negb (String.eqb x y)) (dedup l')
  end.

Definition _extract_keywords (text : string) : list string :=
  let words := findall_words (lower text) in
  let keywords :=
    List.filter (fun word => negb (existsb (String.eqb word) stopwords)
                        && (2 <? len word)) words in
  dedup keywords.

Definition _enhance_problem_description (problem business_type : string) : string :=
  fold_left
    (fun enhanced kv =>
       if str_in (fst kv) (lower problem)
       then enhanced +:+ " " +:+ join ", " (snd kv)
       else enhanced)
    enhancements problem.

Definition _detect_urgency_indicators (text : string) : list string :=
  let text_lower := lower text in
  let found_indicators :=
    fold_left
      (fun found kv =>
         fold_left
           (fun found indicator =>
              if str_in indicator text_lower then found ++ [indicator] else found)
           (snd kv) found)
      struggle_indicators [] in
  dedup found_indicators.

Definition _determine_business_context (problem business_type : string) : string :=
  business_type +:+ " - " +:+ problem.

(** No call of the [try] block raises on [str] arguments, so the fallback
    of the [except] branch is never taken. *)
Definition enhance_query (problem business_type : string) : EnhancedQuery :=
  {| original_problem := problem;
     enhanced_problem := _enhance_problem_description problem business_type;
     keywords := _extract_keywords problem;
     business_context := _determine_business_context problem business_type;
     urgency_indicators := _detect_urgency_indicators problem |}.

(** One step of a scoring loop:
    [if pattern in post_text: score += delta]. *)
Definition bump (delta : Z) (post_text : string) (score : Z) (pattern : string) : Z :=
  if str_in pattern post_text then score + delta else score.

(** [for pattern in patterns: ...] *)
Definition scan (delta : Z) (post_text : string) (patterns : list string) (score : Z) : Z :=
  fold_left (bump delta post_text) patterns score.

(** [for category, patterns in d.items(): for pattern in patterns: ...] *)
Definition scan_items (delta : Z) (post_text : string)
    (d : list (string * list string)) (score : Z) : Z :=
  fold_left (fun sc kv => scan delta post_text (snd kv) sc) d score.

(** [re.search(r'\$\d+[k|m]?', s)] anchored at the head of [s]: a dollar
    sign, one or more digits, then optionally one of [k], [|], [m]. *)
Fixpoint skip_digits (s : string) : string :=
  match s with
  | String c s' => if isdecimal c then skip_digits s' else s
  | EmptyString => s
  end.

Definition match_amount_here (s : string) : option string :=
  match s with
  | String "$" (String d r) =>
      if isdecimal d then
        match skip_digits r with
        | String c rest =>
            if Ascii.eqb c "k" || Ascii.eqb c "|" || Ascii.eqb c "m"
            then Some rest else Some (String c rest)
        | EmptyString => Some EmptyString
        end
      else None
  | _ => None
  end.

(** [re.search(r'\$\d+[k|m]?', s)] as a truth value. *)
Fixpoint search_amount (s : string) : bool :=
  match match_amount_here s with
  | Some _ => true
  | None =>
      match s with
      | EmptyString => false
      | String _ s' => search_amount s'
      end
  end.

Section Scorer.

(** [self.use_improved_scoring] *)
Variable use_improved_scoring : bool.

(** [repr] of a float, used only when a post stores a float under
    ["title"] or ["text"]. *)
Variable float_repr : Q -> string.

(** [f"{v}"] *)
Definition format_value (v : pyval) : string :=
  match v with
  | PyNone => "None"
  | PyStr s => s
  | PyInt n => str_of_int n
  | PyFloat x => float_repr x
  end.

Definition _calculate_keyword_match (post_text : string) (keywords : list string) : Z :=
  match keywords with
  | [] => 0
  | _ =>
      let matches := count_matches keywords post_text in
      Z.min 100 (trunc (fmul (int_div matches (Z.of_nat (length keywords))) (of_int 100)))
  end.

Definition _calculate_struggle_detection (post_text : string) : Z :=
  if negb use_improved_scoring then
    let score := 0 in
    let score := scan 20 post_text (indicators "high_urgency") score in
    let score := scan 10 post_text (indicators "medium_urgency") score in
    let score := if str_in "?" post_text then score + 15 else score in
    Z.min 100 score
  else
    let score := 0 in
    let score := scan_items 25 post_text active_struggle_patterns score in
    let score := scan 15 post_text (indicators "high_urgency") score in
    let score := scan 8 post_text (indicators "medium_urgency") score in
    let score := if str_in "?" post_text then score + 20 else score in
    let score := scan_items (-30) post_text success_story_patterns score in
    let score := if search_amount post_text then score - 25 else score in
    let score := if str_in "i will not promote" post_text then score - 15 else score in
    Z.max 0 (Z.min 100 score).

Definition _calculate_business_conflict_penalty
    (post_text : string) (business_type industry_type : option string) : Z :=
  let penalty := 0 in
  let all_businesses :=
    if otruthy business_type then dict_keys BUSINESS_KEYWORDS
    else dict_keys INDUSTRY_KEYWORDS in
  match por business_type industry_type with
  | None => penalty
  | Some target =>
      if existsb (String.eqb target) all_businesses then
        let other_businesses :=
          List.filter (fun b => negb (String.eqb b target)) all_businesses in
        fold_left
          (fun penalty other_business =>
             let other_keywords :=
               if otruthy business_type
               then get_keywords_for_selection (Some other_business) None
               else get_keywords_for_selection None (Some other_business) in
             let matches := count_matches other_keywords post_text in
             if 2 <=? matches then penalty + 15 else penalty)
          (firstn 3 other_businesses) penalty
      else penalty
  end.

Definition _calculate_business_relevance
    (post_text : string) (business_type industry_type : option string) : Z :=
  if negb use_improved_scoring then
    let score := scan 5 post_text (indicators "business_keywords") 0 in
    Z.min 100 score
  else if negb (otruthy business_type) && negb (otruthy industry_type) then 0
  else
    let target_keywords := get_keywords_for_selection business_type industry_type in
    match target_keywords with
    | [] => 0
    | _ =>
        let business_relevance :=
          calculate_business_relevance_score post_text target_keywords in
        let conflict_penalty :=
          _calculate_business_conflict_penalty post_text business_type industry_type in
        let final_score := Z.max 0 (business_relevance - conflict_penalty) in
        Z.min 100 final_score
    end.

Definition _determine_urgency_level (post_text : string) : Urgency :=
  let high_urgency_count := count_matches (indicators "high_urgency") post_text in
  let medium_urgency_count := count_matches (indicators "medium_urgency") post_text in
  if 2 <=? high_urgency_count then High
  else if (1 <=? high_urgency_count) || (2 <=? medium_urgency_count) then Medium
  else Low.

(** The weighted blend: [int(k * a + s * b + r * c)]. *)
Definition blend (keyword_score struggle_score business_score : Z) : Z :=
  if use_improved_scoring then
    trunc (fadd (fadd (fmul (of_int keyword_score) (literal 3 10))
                      (fmul (of_int struggle_score) (literal 6 10)))
                (fmul (of_int business_score) (literal 1 10)))
  else
    trunc (fadd (fadd (fmul (of_int keyword_score) (literal 4 10))
                      (fmul (of_int struggle_score) (literal 4 10)))
                (fmul (of_int business_score) (literal 2 10))).

(** With [keywords] a list of [str] no call of the [try] block raises, so
    the all-zero result of the [except] branch is never produced. *)
Definition analyze_post_relevance (post : Post) (keywords : list string)
    (business_type industry_type : option string) : RelevanceScore :=
  let post_text :=
    lower (format_value (post_get post "title" (PyStr ""))
           +:+ " " +:+ format_value (post_get post "text" (PyStr ""))) in
  let keyword_score := _calculate_keyword_match post_text keywords in
  let struggle_score := _calculate_struggle_detection post_text in
  let business_score := _calculate_business_relevance post_text business_type industry_type in
  let urgency := _determine_urgency_level post_text in
  {| overall_score := blend keyword_score struggle_score business_score;
     keyword_match := keyword_score;
     struggle_detection := struggle_score;
     business_relevance := business_score;
     urgency_level := urgency |}.

End Scorer.

End AIEnhancer.

(* ------------------------------------------------------------------ *)
(** ** [app/utils/cost_calculator.py] *)

Module CostCalculator.

Import PyStr.

Definition get_posts_to_scrape (result_count : Z) : Z := result_count * 15.

(** Returns [(is_valid, error_message, posts_needed, remaining_results,
    remaining_posts)]. *)
Definition validate_user_limits
    (user_results_used user_posts_analyzed requested_results : Z)
    : bool * string * Z * Z * Z :=
  let MAX_RESULTS := 150 in
  let MAX_POSTS := 2250 in
  let posts_needed := get_posts_to_scrape requested_results in
  if MAX_RESULTS <? user_results_used + requested_results then
    let remaining_results := MAX_RESULTS - user_results_used in
    (false,
     "Request would exceed beta limit. You have " +:+ str_of_int remaining_results
       +:+ " results remaining, but requested " +:+ str_of_int requested_results,
     posts_needed, remaining_results, MAX_POSTS - user_posts_analyzed)
  else if MAX_POSTS <? user_posts_analyzed + posts_needed then
    let remaining_posts := MAX_POSTS - user_posts_analyzed in
    let max_results_with_remaining_posts := remaining_posts / 15 in
    (false,
     "Request would exceed budget limit. You have " +:+ str_of_int remaining_posts
       +:+ " posts remaining (max " +:+ str_of_int max_results_with_remaining_posts
       +:+ " results), but requested " +:+ str_of_int requested_results +:+ " results",
     posts_needed, MAX_RESULTS - user_results_used, remaining_posts)
  else
    let new_results_used := user_results_used + requested_results in
    let new_posts_analyzed := user_posts_analyzed + posts_needed in
    let remaining_results := MAX_RESULTS - new_results_used in
    let remaining_posts := MAX_POSTS - new_posts_analyzed in
    (true, "Valid request", posts_needed, remaining_results, remaining_posts).

End CostCalculator.

(* ------------------------------------------------------------------ *)
(** ** [app/services/result_cache.py] *)

Module ResultCache.

Import PyStr PyFloat.

Definition refresh_interval_hours : Z := 24.

Definition _generate_cache_key
    (query business_type time_range user_id : string) (result_count : option Z) : string :=
  match result_count with
  | Some n =>
      query +:+ "_" +:+ business_type +:+ "_" +:+ time_range +:+ "_" +:+ user_id
        +:+ "_" +:+ str_of_int n
  | None =>
      query +:+ "_" +:+ business_type +:+ "_" +:+ time_range +:+ "_" +:+ user_id
  end.

(** [(time.time() - timestamp) / 3600] *)
Definition age_hours_at (now timestamp : Q) : Q :=
  fdiv (fsub now timestamp) (of_int 3600).

Section Cache.

(** The cached payload ([any] in the source). *)
Variable Payload : Type.

(** [self.cache]: [{cache_key: (timestamp, results)}]; [now] is the
    reading of [time.time()].  The call returns its result and the cache
    it leaves behind. *)
Definition get_cached_results (cache : gmap string (Q * Payload)) (now : Q)
    (query business_type time_range user_id : string) (result_count : option Z)
    : option (Payload * Q) * gmap string (Q * Payload) :=
  let cache_key :=
    _generate_cache_key query business_type time_range user_id result_count in
  match cache !! cache_key with
  | None => (None, cache)
  | Some (timestamp, results) =>
      let age_hours := age_hours_at now timestamp in
      if gtb age_hours (inject_Z refresh_interval_hours)
      then (None, delete cache_key cache)
      else (Some (results, age_hours), cache)
  end.

Definition cache_results (cache : gmap string (Q * Payload)) (now : Q)
    (query business_type time_range user_id : string)
    (results_with_age : Payload * Q) (result_count : option Z)
    : gmap string (Q * Payload) :=
  let cache_key :=
    _generate_cache_key query business_type time_range user_id result_count in
  let timestamp := now in
  let '(results, age_hours) := results_with_age in
  <[cache_key := (timestamp, results)]> cache.

Definition should_refresh (cache : gmap string (Q * Payload)) (now : Q)
    (query business_type time_range user_id : string) (result_count : option Z) : bool :=
  let cache_key :=
    _generate_cache_key query business_type time_range user_id result_count in
  match cache !! cache_key with
  | None => true
  | Some (timestamp, _) => gtb (age_hours_at now timestamp) (inject_Z refresh_interval_hours)
  end.

End Cache.

End ResultCache.

(* ------------------------------------------------------------------ *)
(** ** [app/services/business_mapping.py] and
       [app/services/tiered_subreddit_mapping.py] *)

Module BusinessMapping.

Import PyData BusinessKeywords.

(** Each entry: [(name, (keywords, subreddits))]. *)
Definition BUSINESS_MAPPINGS : list (string * (list string * list string)) :=
  [ ("Gyms / Fitness Studios",
     (["gym"; "fitness"; "workout"; "personal training"; "fitness studio";
      "membership"; "trainer"; "exercise"],
      ["gymowners"; "FitnessBusiness"; "personaltrainingbiz"]));
    ("SaaS Companies",
     (["saas"; "software"; "app"; "platform"; "subscription"; "mrr"; "arr"; "users";
      "customers"; "startup"; "founder"],
      ["SaaS"; "startups"; "IndieHackers"]));
    ("E-commerce Stores",
     (["ecommerce"; "online store"; "shopify"; "amazon"; "selling"; "products";
      "inventory"; "sales"; "customers"],
      ["ecommerce"; "Shopify"; "EntrepreneurRideAlong"]));
    ("Marketing Agencies",
     (["marketing"; "agency"; "advertising"; "seo"; "social media"; "campaigns";
      "clients"; "digital marketing"],
      ["agency"; "digitalmarketing"; "SEO"]));
    ("Freelance Designers",
     (["freelance"; "design"; "graphic design"; "logo"; "branding"; "client";
      "portfolio"; "creative"],
      ["freelance"; "design"; "graphic_design"]));
    (("Coffee Shops / Caf" +:+ chr233 +:+ "s"),
     (["coffee"; "cafe"; "restaurant"; "food"; "beverage"; "customers"; "menu";
      "location"],
      ["smallbusiness"; "foodbiz"; "EntrepreneurRideAlong"]));
    ("Online Course Creators",
     (["course"; "online learning"; "education"; "teaching"; "students"; "content";
      "platform"],
      ["onlinecourses"; "edtech"; "IndieHackers"]));
    ("Local Service Businesses",
     (["local business"; "service"; "contractor"; "home improvement"; "repair";
      "cleaning"; "maintenance"],
      ["smallbusiness"; "HomeImprovement"; "EntrepreneurRideAlong"]));
    ("App Developers",
     (["app"; "mobile"; "development"; "programming"; "ios"; "android"; "users";
      "downloads"],
      ["startups"; "IndieHackers"; "EntrepreneurRideAlong"]));
    ("Consultants / Coaches",
     (["consulting"; "coaching"; "advisor"; "mentor"; "client"; "consultation";
      "strategy"],
      ["consulting"; "EntrepreneurRideAlong"; "indiehackers"]));
    ("Jobs and Hiring",
     (["job search"; "resume help"; "interview advice"; "job leads"; "career change";
      "unemployment"; "job application"; "hiring process"; "job market";
      "career advice"; "job openings"; "job hunting tips"],
      ["jobs"; "jobhunting"; "layoffs"])) ].

Definition INDUSTRY_MAPPINGS : list (string * (list string * list string)) :=
  [ ("Fitness",
     (["gym"; "fitness"; "workout"; "personal training"; "fitness studio";
      "membership"; "trainer"; "exercise"],
      ["gymowners"; "FitnessBusiness"; "personaltrainingbiz"]));
    ("SaaS / Tech",
     (["saas"; "software"; "app"; "platform"; "subscription"; "mrr"; "arr"; "users";
      "customers"; "startup"; "founder"],
      ["SaaS"; "startups"; "IndieHackers"]));
    ("E-commerce",
     (["ecommerce"; "online store"; "shopify"; "amazon"; "selling"; "products";
      "inventory"; "sales"; "customers"],
      ["ecommerce"; "Shopify"; "EntrepreneurRideAlong"]));
    ("Marketing & Advertising",
     (["marketing"; "agency"; "advertising"; "seo"; "social media"; "campaigns";
      "clients"; "digital marketing"],
      ["agency"; "digitalmarketing"; "SEO"]));
    ("Education / Edtech",
     (["course"; "online learning"; "education"; "teaching"; "students"; "content";
      "platform"],
      ["onlinecourses"; "edtech"; "IndieHackers"]));
    ("Food & Beverage",
     (["coffee"; "cafe"; "restaurant"; "food"; "beverage"; "customers"; "menu";
      "location"],
      ["smallbusiness"; "foodbiz"; "EntrepreneurRideAlong"]));
    ("Local Services",
     (["local business"; "service"; "contractor"; "home improvement"; "repair";
      "cleaning"; "maintenance"],
      ["smallbusiness"; "HomeImprovement"; "EntrepreneurRideAlong"]));
    ("Finance / Fintech",
     (["finance"; "fintech"; "banking"; "investment"; "money"; "financial"; "finances"],
      ["financialindependence"; "startups"; "IndieHackers"]));
    ("Freelancers / Creatives",
     (["freelance"; "design"; "graphic design"; "logo"; "branding"; "client";
      "portfolio"; "creative"],
      ["freelance"; "design"; "graphic_design"])) ].

(** [MAPPINGS.get(name, {}).get("keywords", [])] *)
Definition mapping_keywords
    (d : list (string * (list string * list string))) (name : string) : list string :=
  match dict_get d name with
  | Some (keywords, _) => keywords
  | None => []
  end.

End BusinessMapping.

Module TieredSubredditMapping.

Import PyData BusinessKeywords BusinessMapping.

(** Each entry: [(name, (primary, backup))]. *)
Definition SIMPLIFIED_SUBREDDIT_MAPPINGS : list (string * (list string * list string)) :=
  [ ("SaaS Companies",
     (["SaaS"; "startups"; "Entrepreneur"],
      ["IndieDev"]));
    ("App Developers",
     (["SaaS"; "startups"; "Entrepreneur"],
      ["IndieDev"]));
    ("Gyms / Fitness Studios",
     (["FitnessBusiness"; "GymOwners"; "PersonalTraining"],
      ["Fitness"]));
    ("E-commerce Stores",
     (["ecommerce"; "dropshipping"; "Shopify"],
      ["Entrepreneur"]));
    ("Marketing Agencies",
     (["marketing"; "SEO"; "digital_marketing"],
      ["advertising"]));
    ("Freelance Designers",
     (["freelance"; "graphic_design"; "Design"],
      ["DesignCritiques"]));
    (("Coffee Shops / Caf" +:+ chr233 +:+ "s"),
     (["CoffeeShopOwners"; "Coffee"; "Barista"],
      ["CoffeeShopOwners"]));
    ("Online Course Creators",
     (["online_instructors"; "InstructionalDesign"; "edtech"],
      ["elearning"]));
    ("Local Service Businesses",
     (["smallbusiness"; "Entrepreneur"; "LocalSEO"],
      ["ppc"]));
    ("Consultants / Coaches",
     (["consulting"; "Coaching"; "Entrepreneur"],
      ["consultants"]));
    ("Jobs and Hiring",
     (["jobs"; "jobhunting"; "layoffs"],
      ["WorkOnline"]));
    ("Fitness",
     (["FitnessBusiness"; "GymOwners"; "PersonalTraining"],
      ["Fitness"]));
    ("SaaS / Tech",
     (["SaaS"; "startups"; "Entrepreneur"],
      ["IndieDev"]));
    ("E-commerce",
     (["ecommerce"; "dropshipping"; "Shopify"],
      ["Entrepreneur"]));
    ("Marketing & Advertising",
     (["marketing"; "SEO"; "digital_marketing"],
      ["advertising"]));
    ("Education / Edtech",
     (["online_instructors"; "InstructionalDesign"; "edtech"],
      ["elearning"]));
    ("Food & Beverage",
     (["CoffeeShopOwners"; "Coffee"; "Barista"],
      ["CoffeeShopOwners"]));
    ("Local Services",
     (["smallbusiness"; "Entrepreneur"; "LocalSEO"],
      ["ppc"]));
    ("Finance / Fintech",
     (["Fintech"; "PersonalFinance"; "FinancialPlanning"],
      ["Investing"]));
    ("Freelancers / Creatives",
     (["freelance"; "graphic_design"; "Design"],
      ["DesignCritiques"]));
    ("Consulting / Coaching",
     (["consulting"; "Coaching"; "Entrepreneur"],
      ["consultants"])) ].

(** For a name outside the table the source falls back to
    [BUSINESS_MAPPINGS.get(name, [])[:3]]; every key of [BUSINESS_MAPPINGS]
    is a key of the table above, so the fallback is the empty list. *)
Definition get_beta_subreddits (business_type : string) (use_backup : bool) : list string :=
  match dict_get SIMPLIFIED_SUBREDDIT_MAPPINGS business_type with
  | None => firstn 3 []
  | Some (primary, backup) => if use_backup then primary ++ backup else primary
  end.

Record BetaInfo := {
  tier : Z;
  subreddits : list string;
  quality_note : string;
  is_final_tier : bool;
  posts_per_subreddit : Z;
  total_posts : Z
}.

Definition get_beta_info (business_type : string) : BetaInfo :=
  let subreddits := get_beta_subreddits business_type false in
  {| tier := 1;
     subreddits := subreddits;
     quality_note := "Beta Quality - Most relevant subreddits for optimal results";
     is_final_tier := true;
     posts_per_subreddit := 500;
     total_posts := Z.of_nat (length subreddits) * 500 |}.

End TieredSubredditMapping.

(* ------------------------------------------------------------------ *)
(** ** [app/models/lead.py] and [app/core/ai_config.py] *)

Module Models.

Record Lead := {
  title : string;
  subreddit : string;
  snippet : string;
  permalink : string;
  author : string;
  created_utc : Q;
  score : Z;
  matched_keywords : list string;
  ai_relevance_score : option Z;
  urgency_level : option string;
  business_context : option string;
  problem_category : option string;
  ai_summary : option string
}.

(** [lead.ai_summary = s] *)
Definition set_ai_summary (lead : Lead) (s : string) : Lead :=
  {| title := title lead; subreddit := subreddit lead; snippet := snippet lead;
     permalink := permalink lead; author := author lead;
     created_utc := created_utc lead; score := score lead;
     matched_keywords := matched_keywords lead;
     ai_relevance_score := ai_relevance_score lead;
     urgency_level := urgency_level lead;
     business_context := business_context lead;
     problem_category := problem_category lead;
     ai_summary := Some s |}.

(** The module-level settings read by [get_ai_config]. *)
Record AIConfig := {
  use_openai : bool;
  use_improved_scoring : bool;
  threshold : Z
}.

Definition default_ai_config : AIConfig :=
  {| use_openai := false; use_improved_scoring := true; threshold := 5 |}.

End Models.

(* ------------------------------------------------------------------ *)
(** ** [app/services/fast_lead_filter.py] *)

Module FastLeadFilter.

Import PyStr PyFloat PyData BusinessKeywords BusinessMapping Models.

Record Metrics := {
  posts_analyzed : Z;
  posts_filtered : Z;
  summaries_generated : Z;
  tokens_used : Z;
  cost : Q;
  filter_method : string;
  summary_method : string;
  results_returned : option Z
}.

Definition struggle_indicators : list string :=
  ["struggling"; "help"; "can't"; "cannot"; "can not"; "trouble"; "problem"; "issue";
   "stuck"; "frustrated"; "overwhelmed"; "desperate"; "urgent"; "failing"; "lost";
   "losing"; "declining"; "first client"; "first customer"; "no customers";
   "no clients"; "getting clients"; "customer acquisition"; "lead generation";
   "need help"; "looking for"; "how to"; "what should"; "any advice"].

(** [v.lower()] on a value taken from a post. *)
Definition value_lower (v : pyval) : res string :=
  match v with
  | PyStr s => Ok (lower s)
  | _ => Raise AttributeError
  end.

(** [v[:n]] on a value taken from a post. *)
Definition value_take (n : nat) (v : pyval) : res string :=
  match v with
  | PyStr s => Ok (take n s)
  | _ => Raise TypeError
  end.

(** [len(v)] on a value taken from a post. *)
Definition value_len (v : pyval) : res Z :=
  match v with
  | PyStr s => Ok (len s)
  | _ => Raise TypeError
  end.

(** The debugging loop over [posts[:5]], which slices every title. *)
Fixpoint log_first_titles (posts : list Post) : res unit :=
  match posts with
  | [] => Ok tt
  | post :: rest =>
      match value_take 50 (post_get post "title" (PyStr "")) with
      | Raise e => Raise e
      | Ok _ => log_first_titles rest
      end
  end.

(** The body of the scoring loop once [text] is built. *)
Definition relevance_points (all_keywords enhanced_keywords : list string)
    (problem_description text : string) : Z :=
  let score := 0 in
  let score :=
    fold_left (fun sc keyword => if str_in (lower keyword) text then sc + 3 else sc)
              all_keywords score in
  let score :=
    fold_left (fun sc indicator => if str_in indicator text then sc + 2 else sc)
              struggle_indicators score in
  let score :=
    fold_left (fun sc keyword => if str_in (lower keyword) text then sc + 4 else sc)
              enhanced_keywords score in
  let problem_words := split (lower problem_description) in
  fold_left (fun sc word => if (3 <? len word) && str_in word text then sc + 1 else sc)
            problem_words score.

(** [post.get("relevance_score", 0)] as the sort key. *)
Definition relevance_key (post : Post) : Z :=
  match post_get post "relevance_score" (PyInt 0) with
  | PyInt n => n
  | _ => 0
  end.

(** [l.sort(key=..., reverse=True)]: stable, highest first. *)
Fixpoint insert_desc (x : Post) (l : list Post) : list Post :=
  match l with
  | [] => [x]
  | y :: l' =>
      if relevance_key y <? relevance_key x then x :: y :: l'
      else y :: insert_desc x l'
  end.

Definition sort_desc (l : list Post) : list Post :=
  fold_left (fun acc x => insert_desc x acc) l [].

Section Filter.

(** [self.ai_config], read from the module settings at construction. *)
Variable ai_config : AIConfig.

(** [_generate_smart_summary]: its body is a [try] whose [except] branch
    returns a fallback string, so it always returns; one of its branches
    depends on Python's per-process string hash. *)
Variable smart_summary : Lead -> string -> string.

(** How the model class [Lead] reads a [str] into an [int] or a [float]
    field ([None]: the value is rejected). *)
Variable str_to_int : string -> option Z.
Variable str_to_float : string -> option Q.

(** The scoring loop [for post in posts] of [_rule_based_filter]; it has
    no handler of its own. *)
Fixpoint score_posts (all_keywords enhanced_keywords : list string)
    (problem_description : string) (posts filtered_posts : list Post)
    : res (list Post) :=
  match posts with
  | [] => Ok filtered_posts
  | post :: rest =>
      match value_lower (post_get post "title" (PyStr "")) with
      | Raise e => Raise e
      | Ok title =>
          match value_lower (post_get post "content" (PyStr "")) with
          | Raise e => Raise e
          | Ok content =>
              let text := title +:+ " " +:+ content in
              let score :=
                relevance_points all_keywords enhanced_keywords problem_description text in
              let post := post_set post "relevance_score" (PyInt score) in
              score_posts all_keywords enhanced_keywords problem_description rest
                (if threshold ai_config <=? score
                 then filtered_posts ++ [post] else filtered_posts)
          end
      end
  end.

(** [business_keywords.extend(industry_keywords)] grows the list stored in
    [BUSINESS_MAPPINGS] itself; the search route never passes an industry,
    and the table is taken as written for each call. *)
Definition _rule_based_filter (posts : list Post) (problem_description business_type : string)
    (industry_type : option string) : res (list Post) :=
  let business_keywords := mapping_keywords BUSINESS_MAPPINGS business_type in
  let business_keywords :=
    if otruthy industry_type
    then business_keywords ++ mapping_keywords INDUSTRY_MAPPINGS (oget industry_type)
    else business_keywords in
  let enhanced_query := AIEnhancer.enhance_query problem_description business_type in
  let enhanced_keywords := AIEnhancer.keywords enhanced_query in
  let all_keywords := business_keywords ++ enhanced_keywords in
  match log_first_titles (firstn 5 posts) with
  | Raise e => Raise e
  | Ok _ =>
      match score_posts all_keywords enhanced_keywords problem_description posts [] with
      | Raise e => Raise e
      | Ok filtered_posts => Ok (sort_desc filtered_posts)
      end
  end.

(** Validation of a [str], [float] and [int] field of [Lead]. *)
Definition as_str (v : pyval) : res string :=
  match v with
  | PyStr s => Ok s
  | _ => Raise ValidationError
  end.

Definition as_float (v : pyval) : res Q :=
  match v with
  | PyFloat x => Ok x
  | PyInt n => Ok (of_int n)
  | PyStr s => match str_to_float s with Some x => Ok x | None => Raise ValidationError end
  | PyNone => Raise ValidationError
  end.

Definition as_int (v : pyval) : res Z :=
  match v with
  | PyInt n => Ok n
  | PyFloat x =>
      if Qeq_bool x (inject_Z (Qfloor x)) then Ok (Qfloor x) else Raise ValidationError
  | PyStr s => match str_to_int s with Some n => Ok n | None => Raise ValidationError end
  | PyNone => Raise ValidationError
  end.

(** The body of the [try] of [_create_leads_from_posts]: the call
    [Lead(...)] for one post. *)
Definition make_lead (post : Post) (business_type : string) : res Lead :=
  let content := post_get post "content" (PyStr "") in
  match value_len content with
  | Raise e => Raise e
  | Ok n =>
      match (if 200 <? n
             then match value_take 200 content with
                  | Ok s => Ok (PyStr (s +:+ "..."))
                  | Raise e => Raise e
                  end
             else Ok content) with
      | Raise e => Raise e
      | Ok snippet_value =>
          match as_str (post_get post "title" (PyStr "")),
                as_str (post_get post "subreddit" (PyStr "")),
                as_str snippet_value,
                as_str (post_get post "permalink" (PyStr "")),
                as_str (post_get post "author" (PyStr "")),
                as_float (post_get post "created_utc" (PyInt 0)),
                as_int (post_get post "score" (PyInt 0)),
                as_int (post_get post "relevance_score" (PyInt 0)) with
          | Ok t, Ok sr, Ok sn, Ok pl, Ok au, Ok cu, Ok sc, Ok rs =>
              Ok {| title := t; subreddit := sr; snippet := sn; permalink := pl;
                    author := au; created_utc := cu; score := sc;
                    matched_keywords := [];
                    ai_relevance_score := Some rs;
                    urgency_level := Some "Medium";
                    business_context := Some business_type;
                    problem_category := Some "General";
                    ai_summary := Some "" |}
          | _, _, _, _, _, _, _, _ => Raise ValidationError
          end
      end
  end.

(** Each post is handled under its own [try]/[except ... continue]. *)
Fixpoint _create_leads_from_posts (posts : list Post)
    (problem_description business_type : string) : list Lead :=
  match posts with
  | [] => []
  | post :: rest =>
      match make_lead post business_type with
      | Ok lead => lead :: _create_leads_from_posts rest problem_description business_type
      | Raise _ => _create_leads_from_posts rest problem_description business_type
      end
  end.

Definition _add_simple_summaries (leads : list Lead) (problem_description : string)
    : list Lead :=
  map (fun lead => set_ai_summary lead (smart_summary lead problem_description)) leads.

(** Returns [(filtered_leads, metrics)]; the [except Exception] branch
    returns the empty list with the metrics as reset on entry. *)
Definition filter_posts (posts : list Post) (problem_description business_type : string)
    (industry_type : option string) : list Lead * Metrics :=
  let reset :=
    {| posts_analyzed := Z.of_nat (length posts);
       posts_filtered := 0;
       summaries_generated := 0;
       tokens_used := 0;
       cost := 0;
       filter_method := "rule_based";
       summary_method := "openai";
       results_returned := None |} in
  match _rule_based_filter posts problem_description business_type industry_type with
  | Raise _ => ([], reset)
  | Ok filtered_posts =>
      let leads := _create_leads_from_posts filtered_posts problem_description business_type in
      let leads :=
        match leads with
        | [] => leads
        | _ => _add_simple_summaries leads problem_description
        end in
      (leads,
       {| posts_analyzed := posts_analyzed reset;
          posts_filtered := Z.of_nat (length filtered_posts);
          summaries_generated := summaries_generated reset;
          tokens_used := tokens_used reset;
          cost := cost reset;
          filter_method := filter_method reset;
          summary_method := summary_method reset;
          results_returned := Some (Z.of_nat (length leads)) |})
  end.

End Filter.

End FastLeadFilter.

(* ------------------------------------------------------------------ *)
(** ** [app/database.py]: the rows touched by the search route *)

Module User.

Record t := {
  results_used : Z;
  posts_analyzed : Z;
  total_tokens_used : Z;
  total_cost : Q
}.

End User.

Module SearchMetrics.

Record t := {
  user_id : option Z;
  user_session_id : option string;
  problem_description : string;
  business_type : string;
  result_count_requested : Z;
  result_count_returned : Z;
  posts_scraped : Z;
  posts_analyzed : Z;
  tokens_used : Z;
  cost : Q;
  model_used : string;
  search_duration_ms : Z
}.

End SearchMetrics.

(* ------------------------------------------------------------------ *)
(** ** [app/routers/leads.py] *)

Module Leads.

Import PyStr PyFloat PyData Models CostCalculator TieredSubredditMapping.

Record LeadSearchRequest := {
  problem_description : string;
  business : option string;
  industry : option string;
  user_id : option string;
  result_count : Z
}.

(** The [search_metrics] dict of the response. *)
Record ResponseMetrics := {
  tokens_used : Z;
  cost : Q;
  model_used : string;
  search_duration_ms : Z;
  posts_scraped : Z;
  metrics_posts_analyzed : Z
}.

Record LeadSearchResponse := {
  leads : list Lead;
  total_found : Z;
  message : string;
  timestamp : Q;
  result_age_hours : Q;
  tier_info : BetaInfo;
  results_remaining : Z;
  posts_remaining : Z;
  posts_analyzed : Z;
  search_metrics : ResponseMetrics
}.

(** The effects of a request on the stores and on the collaborators, in
    the order in which they happen. *)
Inductive Event :=
| QueryUser (id : Z)
| CommitUser (id : Z)
| CacheLookup (key : string)
| CacheStore (key : string)
| Fetch (subreddits : list string) (query : string) (limit_per_sub : Z)
| AddSearchMetrics.

(** The process-wide state: the user table, the global [result_cache], the
    recorded metrics rows, the module settings, the successive readings of
    [time.time()] and the trace of effects. *)
Record World := {
  users : gmap Z User.t;
  cache : gmap string (Q * list Lead);
  metrics_rows : list SearchMetrics.t;
  config : AIConfig;
  clock : nat -> Q;
  ticks : nat;
  events : list Event
}.

Definition with_users (w : World) (u : gmap Z User.t) : World :=
  {| users := u; cache := cache w; metrics_rows := metrics_rows w; config := config w;
     clock := clock w; ticks := ticks w; events := events w |}.

Definition with_cache (w : World) (c : gmap string (Q * list Lead)) : World :=
  {| users := users w; cache := c; metrics_rows := metrics_rows w; config := config w;
     clock := clock w; ticks := ticks w; events := events w |}.

Definition with_metrics_rows (w : World) (r : list SearchMetrics.t) : World :=
  {| users := users w; cache := cache w; metrics_rows := r; config := config w;
     clock := clock w; ticks := ticks w; events := events w |}.

Definition with_ticks (w : World) (n : nat) : World :=
  {| users := users w; cache := cache w; metrics_rows := metrics_rows w;
     config := config w; clock := clock w; ticks := n; events := events w |}.

Definition with_events (w : World) (e : list Event) : World :=
  {| users := users w; cache := cache w; metrics_rows := metrics_rows w;
     config := config w; clock := clock w; ticks := ticks w; events := e |}.

(** A computation over the world that returns or raises. *)
Definition M (A : Type) : Type := World -> res A * World.

Definition ret {A : Type} (a : A) : M A := fun w => (Ok a, w).

Definition raise {A : Type} (e : exn) : M A := fun w => (Raise e, w).

Definition bind {A B : Type} (c : M A) (k : A -> M B) : M B :=
  fun w =>
    match c w with
    | (Ok a, w') => k a w'
    | (Raise e, w') => (Raise e, w')
    end.

#[export] Instance M_ret : MRet M := @ret.
#[export] Instance M_bind : MBind M := fun A B k c => bind c k.

(** Appends an effect to the trace. *)
Definition log_event (w : World) (ev : Event) : World :=
  with_events w (events w ++ [ev]).

(** [time.time()] *)
Definition time_time : M Q :=
  fun w => (Ok (clock w (ticks w)), with_ticks w (S (ticks w))).

Definition get_config : M AIConfig := fun w => (Ok (config w), w).

(** [db.query(User).filter(User.id == id).first()] *)
Definition query_user (id : Z) : M (option User.t) :=
  fun w => (Ok (users w !! id), log_event w (QueryUser id)).

(** The attribute updates on the row followed by [db.commit()]. *)
Definition commit_user (id : Z) (u : User.t) : M unit :=
  fun w => (Ok tt, with_users (log_event w (CommitUser id)) (<[id := u]> (users w))).

(** [result_cache.get_cached_results(...)]; the clock is read only when
    the key is present. *)
Definition cache_lookup (query business_type time_range caller : string)
    (count : option Z) : M (option (list Lead * Q)) :=
  fun w =>
    let key :=
      ResultCache._generate_cache_key query business_type time_range caller count in
    let w := log_event w (CacheLookup key) in
    match cache w !! key with
    | None => (Ok None, w)
    | Some _ =>
        let '(found, cache') :=
          ResultCache.get_cached_results (list Lead) (cache w) (clock w (ticks w))
            query business_type time_range caller count in
        (Ok found, with_ticks (with_cache w cache') (S (ticks w)))
    end.

(** [result_cache.cache_results(...)] *)
Definition cache_store (query business_type time_range caller : string)
    (results_with_age : list Lead * Q) (count : option Z) : M unit :=
  fun w =>
    let key :=
      ResultCache._generate_cache_key query business_type time_range caller count in
    let w := log_event w (CacheStore key) in
    let now := clock w (ticks w) in
    (Ok tt,
     with_ticks
       (with_cache w
          (ResultCache.cache_results (list Lead) (cache w) now
             query business_type time_range caller results_with_age count))
       (S (ticks w))).

(** [db.add(search_metrics); db.commit()] *)
Definition add_search_metrics (row : SearchMetrics.t) : M unit :=
  fun w =>
    (Ok tt, with_metrics_rows (log_event w AddSearchMetrics) (metrics_rows w ++ [row])).

Section Route.

(** [RedditService.fetch_posts_from_multiple_subreddits(subreddits, query,
    limit_per_sub, time_range)]: the network collaborator. *)
Variable fetch_posts_from_multiple_subreddits :
  list string -> string -> Z -> string -> res (list Post).

(** The collaborators of [FastLeadFilter]. *)
Variable smart_summary : Lead -> string -> string.
Variable str_to_int : string -> option Z.
Variable str_to_float : string -> option Q.

(** [str(e)] of a caught exception. *)
Variable exn_text : exn -> string.

Definition fetch (subreddits : list string) (query : string) (limit_per_sub : Z)
    : M (list Post) :=
  fun w =>
    (fetch_posts_from_multiple_subreddits subreddits query limit_per_sub "all_time",
     log_event w (Fetch subreddits query limit_per_sub)).

(** Lines 92-113: the usage check for an identified caller.  Returns
    [(results_remaining, posts_remaining)]. *)
Definition check_usage (request : LeadSearchRequest) : M (Z * Z) :=
  let anonymous := (150, 2250) in
  if otruthy (user_id request) then
    match py_int (oget (user_id request)) with
    | None => ret anonymous
    | Some id =>
        user ← query_user id;
        match user with
        | None => ret anonymous
        | Some u =>
            let '(is_valid, error_msg, _, remaining_results, remaining_posts) :=
              validate_user_limits (User.results_used u) (User.posts_analyzed u)
                (result_count request) in
            if is_valid then ret (remaining_results, remaining_posts)
            else raise (HTTPException 400 error_msg)
        end
    end
  else ret anonymous.

(** Lines 208-234: the usage update. *)
Definition commit_usage (request : LeadSearchRequest) (posts_needed : Z)
    (remaining : Z * Z) : M (Z * Z) :=
  let total_tokens_used := 0 in
  let total_cost := 0%Q in
  if otruthy (user_id request) then
    match py_int (oget (user_id request)) with
    | None => ret (150, 2250)
    | Some id =>
        user ← query_user id;
        match user with
        | None => ret (150, 2250)
        | Some u =>
            let u' :=
              {| User.results_used := User.results_used u + result_count request;
                 User.posts_analyzed := User.posts_analyzed u + posts_needed;
                 User.total_tokens_used := User.total_tokens_used u + total_tokens_used;
                 User.total_cost := fadd (User.total_cost u) total_cost |} in
            commit_user id u' ;;
            ret (150 - User.results_used u', 2250 - User.posts_analyzed u')
        end
    end
  else ret remaining.

(** Lines 251-271: the metrics row; a failure is logged and swallowed. *)
Definition record_search_metrics (request : LeadSearchRequest) (business_type : string)
    (final_results_count posts_scraped posts_analyzed tokens_used : Z) (cost : Q)
    (model_used : string) (search_duration_ms : Z) : M unit :=
  let uid := user_id request in
  let numeric := otruthy uid && str_isdigit (oget uid) in
  let user_id_column :=
    if numeric then option_map Some (py_int (oget uid)) else Some None in
  match user_id_column with
  | None => ret tt
  | Some column =>
      add_search_metrics
        {| SearchMetrics.user_id := column;
           SearchMetrics.user_session_id := if numeric then None else uid;
           SearchMetrics.problem_description := problem_description request;
           SearchMetrics.business_type := business_type;
           SearchMetrics.result_count_requested := result_count request;
           SearchMetrics.result_count_returned := final_results_count;
           SearchMetrics.posts_scraped := posts_scraped;
           SearchMetrics.posts_analyzed := posts_analyzed;
           SearchMetrics.tokens_used := tokens_used;
           SearchMetrics.cost := cost;
           SearchMetrics.model_used := model_used;
           SearchMetrics.search_duration_ms := search_duration_ms |}
  end.

(** Lines 137-189: the cached leads, or a fetch, a filtering and a store.
    Returns the leads, their age, [(tokens_used, cost, model_used,
    posts_analyzed)] as read from [filter_metrics], and [len(posts)] when a
    fetch took place. *)
Definition cached_or_fresh (request : LeadSearchRequest) (business_type : string)
    (subreddits : list string) (posts_needed : Z) (ai_config : AIConfig)
    : M (list Lead * Q * (Z * Q * string * Z) * option Z) :=
  let caller := oget (por (user_id request) (Some "anonymous")) in
  cached_result ←
    cache_lookup (problem_description request) business_type "all_time" caller
      (Some (result_count request));
  match cached_result with
  | Some (leads, result_age_hours) =>
      ret (leads, result_age_hours,
           (0, 0%Q, "cached", 0), None)
  | None =>
      match subreddits with
      | [] => raise ZeroDivisionError
      | _ =>
          let posts_per_sub :=
            Z.max 1 (posts_needed / Z.of_nat (length subreddits)) in
          posts ← fetch subreddits (problem_description request) posts_per_sub;
          let '(leads, filter_metrics) :=
            FastLeadFilter.filter_posts ai_config smart_summary str_to_int str_to_float
              posts (problem_description request) business_type None in
          let target_leads := firstn (Z.to_nat (result_count request)) leads in
          cache_store (problem_description request) business_type "all_time" caller
            (target_leads, 0%Q) (Some (result_count request)) ;;
          ret (target_leads, 0%Q,
               (FastLeadFilter.tokens_used filter_metrics,
                FastLeadFilter.cost filter_metrics,
                "unknown",
                FastLeadFilter.posts_analyzed filter_metrics),
               Some (Z.of_nat (length posts)))
      end
  end.

(** Lines 115-295: the body of the outer [try]. *)
Definition search_body (request : LeadSearchRequest) (posts_needed : Z)
    (remaining : Z * Z) : M LeadSearchResponse :=
  ai_config ← get_config;
  let business_type := oget (por (business request) (industry request)) in
  let beta_info := get_beta_info business_type in
  let subreddits := subreddits beta_info in
  let quality_notice := " (Beta Quality - " +:+ quality_note beta_info +:+ ")" in
  '(leads, result_age_hours, (tokens_used, cost, model_used, posts_analyzed), scraped) ←
    cached_or_fresh request business_type subreddits posts_needed ai_config;
  let final_results_count := Z.of_nat (length leads) in
  search_start_time ← time_time;
  '(results_remaining, posts_remaining) ← commit_usage request posts_needed remaining;
  search_end_time ← time_time;
  let search_duration_ms :=
    trunc (fmul (fsub search_end_time search_start_time) (of_int 1000)) in
  let posts_scraped := match scraped with Some n => n | None => 0 end in
  record_search_metrics request business_type final_results_count posts_scraped
    posts_analyzed tokens_used cost model_used search_duration_ms ;;
  current_timestamp ← time_time;
  ret {| leads := leads;
         total_found := final_results_count;
         message :=
           "Found " +:+ str_of_int final_results_count +:+ " high-quality leads for '"
             +:+ business_type +:+ "' with problem: '" +:+ problem_description request
             +:+ "'" +:+ quality_notice;
         timestamp := current_timestamp;
         result_age_hours := result_age_hours;
         tier_info := beta_info;
         results_remaining := results_remaining;
         posts_remaining := posts_remaining;
         posts_analyzed := posts_analyzed;
         search_metrics :=
           {| tokens_used := tokens_used;
              cost := cost;
              model_used := model_used;
              search_duration_ms := search_duration_ms;
              posts_scraped := posts_scraped;
              metrics_posts_analyzed := posts_analyzed |} |}.

(** [except Exception as e: raise HTTPException(500, ...)] *)
Definition internal_error_on_raise {A : Type} (c : M A) : M A :=
  fun w =>
    match c w with
    | (Ok a, w') => (Ok a, w')
    | (Raise e, w') =>
        (Raise (HTTPException 500 ("Internal server error: " +:+ exn_text e)), w')
    end.

Definition search_leads (request : LeadSearchRequest) : M LeadSearchResponse :=
  if negb (otruthy (business request)) && negb (otruthy (industry request)) then
    raise (HTTPException 400 "Either business or industry must be selected")
  else if otruthy (business request) && otruthy (industry request) then
    raise (HTTPException 400 "Cannot select both business and industry")
  else if negb (truthy (strip (problem_description request))) then
    raise (HTTPException 400 "Problem description is required")
  else if (result_count request <? 1) || (150 <? result_count request) then
    raise (HTTPException 400 "Result count must be between 1 and 150")
  else
    let posts_needed := get_posts_to_scrape (result_count request) in
    remaining ← check_usage request;
    internal_error_on_raise (search_body request posts_needed remaining).

End Route.

End Leads.

(* ------------------------------------------------------------------ *)
(** ** The formulas of the written specification *)

Module Spec.

Import PyStr PyFloat PyData BusinessKeywords AIEnhancer.

(** The number of phrases of a list that occur in a text, each entry of
    the list counted. *)
Definition phrases_matched (phrases : list string) (text : string) : Z :=
  Z.of_nat (length (List.filter (fun p => str_in p text) phrases)).

(** The number of distinct phrases of a list that occur in a text. *)
Definition distinct_matched (phrases : list string) (text : string) : Z :=
  phrases_matched (dedup phrases) text.

(** All the phrases of a table of phrase families. *)
Definition all_phrases (d : list (string * list string)) : list string :=
  concat (map snd d).

(** The number of families with at least one phrase in the text. *)
Definition families_matched (d : list (string * list string)) (text : string) : Z :=
  Z.of_nat (length (List.filter (fun kv => existsb (fun p => str_in p text) (snd kv)) d)).

Definition flag (b : bool) : Z := if b then 1 else 0.

Definition clamp (lo hi x : Z) : Z := Z.max lo (Z.min hi x).

(** The boosts of the improved struggle score. *)
Definition struggle_boosts (text : string) : Z :=
  25 * phrases_matched (all_phrases active_struggle_patterns) text
  + 15 * phrases_matched (indicators "high_urgency") text
  + 8 * phrases_matched (indicators "medium_urgency") text
  + 20 * flag (str_in "?" text).

(** The improved struggle score with the success-story penalty taken once
    per family of phrases. *)
Definition struggle_per_family (text : string) : Z :=
  clamp 0 100
    (struggle_boosts text
     - 30 * families_matched success_story_patterns text
     - 25 * flag (search_amount text)
     - 15 * flag (str_in "i will not promote" text)).

(** The improved struggle score with the success-story penalty taken once
    per phrase. *)
Definition struggle_per_phrase (text : string) : Z :=
  clamp 0 100
    (struggle_boosts text
     - 30 * phrases_matched (all_phrases success_story_patterns) text
     - 25 * flag (search_amount text)
     - 15 * flag (str_in "i will not promote" text)).

(** [min(100, round(100 * matched_count / total_keywords))] over the
    distinct keywords found, with Python's [round] on the exact quotient. *)
Definition keyword_match_rounded (text : string) (keywords : list string) : Z :=
  match keywords with
  | [] => 0
  | _ =>
      Z.min 100
        (rne (inject_Z (100 * distinct_matched keywords text)
              / inject_Z (Z.of_nat (length keywords))))
  end.

(** The multi-match bonus. *)
Definition bonus (matches : Z) : Z :=
  if 3 <=? matches then 20 else if 2 <=? matches then 10 else 0.

(** The catalog the target is taken from, and the target. *)
Definition catalog (business : option string) : list (string * list string) :=
  if otruthy business then BUSINESS_KEYWORDS else INDUSTRY_KEYWORDS.

Definition target (business industry : option string) : string :=
  oget (por business industry).

(** The keyword list of a category of the catalog in use. *)
Definition keywords_of (business : option string) (name : string) : list string :=
  if otruthy business then get_keywords_for_business name
  else get_keywords_for_industry name.

(** The first three catalog categories other than the target, in catalog
    order. *)
Definition rivals (business industry : option string) : list string :=
  firstn 3 (List.filter (fun name => negb (String.eqb name (target business industry)))
                        (dict_keys (catalog business))).

(** How many of them have two or more of their keywords in the text. *)
Definition conflicts (text : string) (business industry : option string) : Z :=
  Z.of_nat (length (List.filter
                      (fun name => 2 <=? phrases_matched (keywords_of business name) text)
                      (rivals business industry))).

(** The percentage with its bonus as the code computes it, in double
    precision, from [matches] keywords found out of [n]. *)
Definition boosted_percentage (matches n : Z) : Z :=
  let match_percentage := fmul (int_div matches n) (of_int 100) in
  trunc (if 3 <=? matches then fadd match_percentage (of_int 20)
         else if 2 <=? matches then fadd match_percentage (of_int 10)
         else match_percentage).

(** For every list length up to [nmax] and every number of matches, the
    double-precision percentage is the exact one. *)
Definition percentage_exact_upto (nmax : nat) : bool :=
  forallb
    (fun n =>
       forallb
         (fun m =>
            boosted_percentage (Z.of_nat m) (Z.of_nat n)
            =? 100 * Z.of_nat m / Z.of_nat n + bonus (Z.of_nat m))
         (seq 0 (S n)))
    (seq 1 nmax).

Definition Qclamp (lo hi x : Q) : Q := Qmax lo (Qmin hi x).

(** The business relevance as one clamp of percentage plus bonus minus
    conflict penalty, on exact rationals. *)
Definition business_relevance_one_clamp
    (text : string) (business industry : option string) : Q :=
  if negb (otruthy business) && negb (otruthy industry) then 0%Q
  else
    let kws := get_keywords_for_selection business industry in
    let m := phrases_matched kws (lower text) in
    Qclamp 0 100
      (Qmax 0 (inject_Z (100 * m) / inject_Z (Z.of_nat (length kws))
               + inject_Z (bonus m)
               - inject_Z (15 * conflicts text business industry))).

(** The business relevance with the percentage truncated and capped at
    100 before the conflict penalty is subtracted. *)
Definition business_relevance_two_clamps
    (text : string) (business industry : option string) : Z :=
  let kws := get_keywords_for_selection business industry in
  if negb (otruthy business) && negb (otruthy industry) then 0
  else
    match kws with
    | [] => 0
    | _ =>
        let m := phrases_matched kws (lower text) in
        let base := Z.min 100 (100 * m / Z.of_nat (length kws) + bonus m) in
        Z.min 100 (Z.max 0 (base - 15 * conflicts text business industry))
    end.

(** A string of whitespace only (possibly empty). *)
Fixpoint all_space (s : string) : bool :=
  match s with
  | EmptyString => true
  | String c s' => isspace c && all_space s'
  end.

End Spec.

(* ------------------------------------------------------------------ *)
(** ** [app/utils/cost_calculator.py], continued *)

Module CostEstimate.

Import PyFloat CostCalculator.

(** [posts_analyzed * 0.002] *)
Definition get_estimated_cost (result_count : Z) : Q :=
  let posts_analyzed := get_posts_to_scrape result_count in
  fmul (of_int posts_analyzed) (literal 2 1000).

End CostEstimate.

(* ------------------------------------------------------------------ *)
(** ** [app/services/tiered_subreddit_mapping.py] and
       [app/services/business_mapping.py], continued *)

Module RequestCounts.

(** [user_request_counts]: the in-memory [Dict[str, int]].  Each
    operation returns its result, if any, and the dict it leaves. *)
Definition get_user_request_count (counts : gmap string Z) (user_id : string) : Z :=
  match counts !! user_id with
  | Some n => n
  | None => 0
  end.

Definition increment_user_request_count (counts : gmap string Z) (user_id : string)
    : Z * gmap string Z :=
  let counts' := <[user_id := get_user_request_count counts user_id + 1]> counts in
  (get_user_request_count counts' user_id, counts').

Definition reset_user_request_count (counts : gmap string Z) (user_id : string)
    : gmap string Z :=
  match counts !! user_id with
  | Some _ => delete user_id counts
  | None => counts
  end.

End RequestCounts.

Module Options.

Import PyData BusinessMapping.

(** [list(BUSINESS_MAPPINGS.keys())] *)
Definition get_business_options : list string := dict_keys BUSINESS_MAPPINGS.

(** [list(INDUSTRY_MAPPINGS.keys())] *)
Definition get_industry_options : list string := dict_keys INDUSTRY_MAPPINGS.

End Options.

(* ------------------------------------------------------------------ *)
(** ** Notions used to state the properties of the result cache *)

Module CacheSpec.

(** The grid of the clock: the multiples of [2^-22] seconds.  Every
    binary64 number of at least [2^30] lies on it, and so does every
    reading of [time.time()] since 10 January 2004. *)
Definition on_clock_grid (x : Q) : Prop :=
  exists m : Z, (x == inject_Z m * (1 # 4194304))%Q.

End CacheSpec.

(* ------------------------------------------------------------------ *)
(** ** Notions used to state the properties of the search route *)

Module RouteSpec.

Import PyStr PyData Models Leads.

(** The value of a decimal digit string read from the left, starting
    from [acc]. *)
Fixpoint digits_value (s : string) (acc : Z) : Z :=
  match s with
  | EmptyString => acc
  | String c s' => digits_value s' (10 * acc + (Z.of_N (code c) - 48))
  end.

(** The integer written by a decimal string with an optional minus sign. *)
Definition decimal_value (s : string) : Z :=
  match s with
  | String "-" r => - digits_value r 0
  | _ => digits_value s 0
  end.

(** The request passes the four checks at the head of [search_leads]. *)
Definition well_formed (request : LeadSearchRequest) : Prop :=
  xorb (otruthy (business request)) (otruthy (industry request)) = true
  /\ truthy (strip (problem_description request)) = true
  /\ 1 <= result_count request <= 150.

(** The category of a well-formed request. *)
Definition category (request : LeadSearchRequest) : string :=
  oget (por (business request) (industry request)).

(** The caller under which results are cached. *)
Definition caller (request : LeadSearchRequest) : string :=
  oget (por (user_id request) (Some "anonymous")).

(** The cache key of a request. *)
Definition cache_key (request : LeadSearchRequest) : string :=
  ResultCache._generate_cache_key (problem_description request) (category request)
    "all_time" (caller request) (Some (result_count request)).

(** The account a request is charged to, if any. *)
Definition account (request : LeadSearchRequest) (w : World) : option (Z * User.t) :=
  if otruthy (user_id request) then
    match py_int (oget (user_id request)) with
    | Some id =>
        match users w !! id with
        | Some u => Some (id, u)
        | None => None
        end
    | None => None
    end
  else None.

(** The account after a request for [result_count] results that needed
    [posts_needed] posts has been charged to it. *)
Definition charged (u : User.t) (result_count posts_needed : Z) : User.t :=
  {| User.results_used := User.results_used u + result_count;
     User.posts_analyzed := User.posts_analyzed u + posts_needed;
     User.total_tokens_used := User.total_tokens_used u + 0;
     User.total_cost := PyFloat.fadd (User.total_cost u) 0 |}.

(** The request fits in what is left of the caller's quota. *)
Definition within_quota (request : LeadSearchRequest) (w : World) : Prop :=
  match account request w with
  | Some (_, u) =>
      User.results_used u + result_count request <= 150
      /\ User.posts_analyzed u + result_count request * 15 <= 2250
  | None => True
  end.

(** The world after the user row of the caller has been asked for, if
    the caller gives a number. *)
Definition queried (request : LeadSearchRequest) (w : World) : World :=
  if otruthy (user_id request) then
    match py_int (oget (user_id request)) with
    | Some id => log_event w (QueryUser id)
    | None => w
    end
  else w.

(** What a lookup of the request's key finds at the next reading of the
    clock. *)
Definition cached (request : LeadSearchRequest) (w : World) : option (list Lead * Q) :=
  fst (ResultCache.get_cached_results (list Lead) (cache w) (clock w (ticks w))
         (problem_description request) (category request) "all_time" (caller request)
         (Some (result_count request))).

(** The effects on the user table and the metrics table only. *)
Definition is_bookkeeping (ev : Event) : bool :=
  match ev with
  | QueryUser _ | CommitUser _ | AddSearchMetrics => true
  | _ => false
  end.

End RouteSpec.

(* ------------------------------------------------------------------ *)
(** ** Concrete posts, requests and worlds used in the examples *)

Module Scenario.

Import PyStr PyFloat PyData Models Leads.

(** A post asking for help, as the fetch layer builds it. *)
Definition help_post : Post :=
  [("title", PyStr "Need help getting clients for my SaaS");
   ("subreddit", PyStr "SaaS");
   ("permalink", PyStr "https://www.reddit.com/r/SaaS/comments/1");
   ("author", PyStr "founder");
   ("created_utc", PyFloat 1700000000);
   ("score", PyInt 12)].

(** A post whose ["content"] is [None]. *)
Definition null_content_post : Post :=
  [("title", PyStr "Weekly thread"); ("content", PyNone)].

(** A post whose ["title"] is [None] (a JSON [null]). *)
Definition null_title_post : Post :=
  [("title", PyNone); ("subreddit", PyStr "SaaS")].

Definition fetch_one (_ : list string) (_ : string) (_ : Z) (_ : string)
    : res (list Post) :=
  Ok [help_post].

Definition plain_summary (lead : Lead) (_ : string) : string := title lead.

Definition no_int (_ : string) : option Z := None.
Definition no_float (_ : string) : option Q := None.
Definition exn_name (_ : exn) : string := "error".

(** One account, number 7, with 20 results and 300 posts used; an empty
    cache; a clock that advances by one second at each reading. *)
Definition world0 : World :=
  {| users :=
       {[ 7 := {| User.results_used := 20; User.posts_analyzed := 300;
                  User.total_tokens_used := 0; User.total_cost := 0 |} ]};
     cache := ∅;
     metrics_rows := [];
     config := default_ai_config;
     clock := fun n => (1700000000 + inject_Z (Z.of_nat n))%Q;
     ticks := 0;
     events := [] |}.

Definition request_10 : LeadSearchRequest :=
  {| problem_description := "getting clients";
     business := Some "SaaS Companies";
     industry := None;
     user_id := Some "7";
     result_count := 10 |}.

Definition request_200 : LeadSearchRequest :=
  {| problem_description := "getting clients";
     business := Some "SaaS Companies";
     industry := None;
     user_id := Some "7";
     result_count := 200 |}.

Definition run (request : LeadSearchRequest) (w : World)
    : res LeadSearchResponse * World :=
  search_leads fetch_one plain_summary no_int no_float exn_name request w.

(** The world after a first search with [request_10]: the cache holds its
    result. *)
Definition world1 : World := snd (run request_10 world0).

End Scenario.


(* ------------------------------------------------------------------ *)
(** ** Notions used to state the properties of the fast filter *)

Module FilterSpec.

Import PyStr PyData BusinessMapping Models FastLeadFilter.

Definition is_str (v : pyval) : bool :=
  match v with
  | PyStr _ => true
  | _ => false
  end.

(** The ["title"] of the post is a [str] or is absent. *)
Definition title_ok (post : Post) : bool := is_str (post_get post "title" (PyStr "")).

(** So are its ["title"] and its ["content"]. *)
Definition text_ok (post : Post) : bool :=
  title_ok post && is_str (post_get post "content" (PyStr "")).

Definition lower_of (v : pyval) : string :=
  match v with
  | PyStr s => lower s
  | _ => EmptyString
  end.

(** The text in which the keywords are looked up: the lowered title, a
    space, the lowered content. *)
Definition post_text (post : Post) : string :=
  lower_of (post_get post "title" (PyStr "")) +:+ " "
    +:+ lower_of (post_get post "content" (PyStr "")).

(** The keywords of the category, with those of the industry if one is
    given. *)
Definition category_keywords (business_type : string) (industry_type : option string)
    : list string :=
  if otruthy industry_type
  then mapping_keywords BUSINESS_MAPPINGS business_type
         ++ mapping_keywords INDUSTRY_MAPPINGS (oget industry_type)
  else mapping_keywords BUSINESS_MAPPINGS business_type.

(** The score of a post for a problem and a category. *)
Definition points (problem_description business_type : string)
    (industry_type : option string) (post : Post) : Z :=
  relevance_points
    (category_keywords business_type industry_type
       ++ AIEnhancer._extract_keywords problem_description)
    (AIEnhancer._extract_keywords problem_description)
    problem_description (post_text post).

(** The post with its score stored under ["relevance_score"]. *)
Definition scored (problem_description business_type : string)
    (industry_type : option string) (post : Post) : Post :=
  post_set post "relevance_score"
    (PyInt (points problem_description business_type industry_type post)).

(** The scored posts that reach the threshold, in the order of the input. *)
Definition kept (ai_config : AIConfig) (problem_description business_type : string)
    (industry_type : option string) (posts : list Post) : list Post :=
  List.filter
    (fun post => threshold ai_config <=? relevance_key post)
    (map (scored problem_description business_type industry_type) posts).

(** Highest score first. *)
Definition ranked (a b : Post) : Prop := relevance_key b <= relevance_key a.

(** The posts of a list that have the score [k], in the order of the list. *)
Definition with_score (k : Z) (posts : list Post) : list Post :=
  List.filter (fun post => relevance_key post =? k) posts.

Definition lead_score (lead : Lead) : Z :=
  match ai_relevance_score lead with
  | Some n => n
  | None => 0
  end.

Definition leads_ranked (a b : Lead) : Prop := lead_score b <= lead_score a.

(** The metrics [filter_posts] starts from. *)
Definition reset_metrics (posts : list Post) : Metrics :=
  {| posts_analyzed := Z.of_nat (length posts);
     posts_filtered := 0;
     summaries_generated := 0;
     tokens_used := 0;
     cost := 0;
     filter_method := "rule_based";
     summary_method := "openai";
     results_returned := None |}.

End FilterSpec.
(* ------------------------------------------------------------------ *)
(** * Properties *)

Import PyStr PyFloat PyData BusinessKeywords AIEnhancer Models.

(** ** Facts on the binary64 model *)

Section FloatFacts.

Local Open Scope Q_scope.

Lemma pow2_pos z : 0 < pow2 z.
Proof. unfold pow2. apply Qpower_0_lt. reflexivity. Qed.

Lemma pow2_add a b : pow2 (a + b) == pow2 a * pow2 b.
Proof. unfold pow2. apply Qpower_plus. discriminate. Qed.

Lemma pow2_le a b : (a <= b)%Z -> pow2 a <= pow2 b.
Proof. intros H. unfold pow2. apply Qpower_le_compat_l; [exact H | discriminate]. Qed.

Lemma pow2_lt_inv a b : pow2 a < pow2 b -> (a < b)%Z.
Proof.
  intros H. destruct (Z_lt_le_dec a b) as [L|L]; [exact L|].
  apply pow2_le in L. lra.
Qed.

Lemma pow2_inject n : (0 <= n)%Z -> pow2 n == inject_Z (2 ^ n).
Proof. intros H. unfold pow2. rewrite Zpower_Qpower by exact H. reflexivity. Qed.

Lemma rne_close y :
  - (1 # 2) <= inject_Z (rne y) - y <= 1 # 2.
Proof.
  unfold rne.
  pose proof (Qfloor_le y) as Hl. pose proof (Qlt_floor y) as Hu.
  rewrite inject_Z_plus in Hu. change (inject_Z 1) with 1 in Hu.
  destruct (Qcompare_spec (y - inject_Z (Qfloor y)) (1 # 2)) as [E|L|G].
  - destruct (Z.even (Qfloor y)); [|rewrite inject_Z_plus; change (inject_Z 1) with 1]; lra.
  - lra.
  - rewrite inject_Z_plus. change (inject_Z 1) with 1. lra.
Qed.

Lemma rne_nonneg y : 0 <= y -> (0 <= rne y)%Z.
Proof.
  intros Hy. assert (0 <= Qfloor y)%Z as Hf.
  { change 0%Z with (Qfloor 0). apply Qfloor_resp_le. exact Hy. }
  unfold rne. destruct (Qcompare _ _); [destruct (Z.even _)|..]; lia.
Qed.

Lemma ilog2_spec x : 0 < x -> pow2 (ilog2 x) <= x < pow2 (ilog2 x + 1).
Proof.
  intros Hx. destruct x as [p q]. unfold ilog2. cbn [Qnum Qden].
  assert (Hp : (0 < p)%Z) by (unfold Qlt in Hx; cbn in Hx; lia).
  set (lp := Z.log2 p). set (lq := Z.log2 (Z.pos q)).
  destruct (Z.log2_spec p Hp) as [Hp1 Hp2]. fold lp in Hp1, Hp2.
  destruct (Z.log2_spec (Z.pos q) (Pos2Z.is_pos q)) as [Hq1 Hq2]. fold lq in Hq1, Hq2.
  assert (Hlp : (0 <= lp)%Z) by apply Z.log2_nonneg.
  assert (Hlq : (0 <= lq)%Z) by apply Z.log2_nonneg.
  assert (Xv : p # q == inject_Z p / inject_Z (Z.pos q)) by apply Qmake_Qdiv.
  assert (Qp : inject_Z 0 < inject_Z (Z.pos q)) by (rewrite <- Zlt_Qlt; lia). change (inject_Z 0) with 0 in Qp.
  assert (B1 : pow2 lp <= inject_Z p).
  { rewrite pow2_inject by lia. rewrite <- Zle_Qle. exact Hp1. }
  assert (B2 : inject_Z p < pow2 (lp + 1)).
  { rewrite pow2_inject by lia. rewrite <- Zlt_Qlt. unfold Z.succ in Hp2. exact Hp2. }
  assert (B3 : pow2 lq <= inject_Z (Z.pos q)).
  { rewrite pow2_inject by lia. rewrite <- Zle_Qle. exact Hq1. }
  assert (B4 : inject_Z (Z.pos q) < pow2 (lq + 1)).
  { rewrite pow2_inject by lia. rewrite <- Zlt_Qlt. unfold Z.succ in Hq2. exact Hq2. }
  (* x * q = p *)
  assert (Xq : (p # q) * inject_Z (Z.pos q) == inject_Z p).
  { rewrite Xv. field. lra. }
  pose proof (pow2_pos lq) as Plq. pose proof (pow2_pos (lp - lq - 1)) as P1.
  pose proof (pow2_pos (lp - lq)) as P0. pose proof (pow2_pos (lp - lq + 1)) as P2.
  assert (A1 : pow2 (lp - lq + 1) * pow2 lq == pow2 (lp + 1)).
  { rewrite <- pow2_add. replace (lp - lq + 1 + lq)%Z with (lp + 1)%Z by lia. reflexivity. }
  assert (A2 : pow2 (lp - lq - 1) * pow2 (lq + 1) == pow2 lp).
  { rewrite <- pow2_add. replace (lp - lq - 1 + (lq + 1))%Z with lp by lia. reflexivity. }
  assert (U : p # q < pow2 (lp - lq + 1)).
  { apply Qnot_le_lt. intro C.
    assert (pow2 (lp - lq + 1) * pow2 lq <= (p # q) * inject_Z (Z.pos q)) by nra. lra. }
  assert (L : pow2 (lp - lq - 1) <= p # q).
  { apply Qnot_lt_le. intro C.
    assert ((p # q) * inject_Z (Z.pos q) < pow2 (lp - lq - 1) * pow2 (lq + 1)) by nra. lra. }
  destruct (Qle_bool (pow2 (lp - lq)) (p # q)) eqn:T.
  - apply Qle_bool_iff in T. split; [exact T | exact U].
  - assert (T' : p # q < pow2 (lp - lq)).
    { apply Qnot_le_lt. intro C. apply Qle_bool_iff in C. congruence. }
    replace (lp - lq - 1 + 1)%Z with (lp - lq)%Z by lia. split; [exact L | exact T'].
Qed.


Lemma round_pos_err x :
  0 < x ->
  0 <= round_pos x /\
  - (x * ulp_rel + eta) <= round_pos x - x <= x * ulp_rel + eta.
Proof.
  intros Hx. unfold round_pos. rewrite Qred_correct.
  destruct (ilog2_spec x Hx) as [Hlo _].
  set (e0 := ilog2 x) in *. set (e := Z.max e0 emin). set (s := (52 - e)%Z).
  pose proof (rne_close (x * pow2 s)) as Hc.
  assert (Hn : (0 <= rne (x * pow2 s))%Z).
  { apply rne_nonneg. pose proof (pow2_pos s). nra. }
  rewrite Zle_Qle in Hn. change (inject_Z 0) with 0 in Hn.
  set (m := inject_Z (rne (x * pow2 s))) in *.
  pose proof (pow2_pos s) as Ps. pose proof (pow2_pos (- s)) as Pn.
  assert (I : pow2 s * pow2 (- s) == 1).
  { rewrite <- pow2_add. replace (s + - s)%Z with 0%Z by lia. reflexivity. }
  assert (Hh : pow2 (- s) == 2 * pow2 (e - 53)).
  { replace (- s)%Z with (1 + (e - 53))%Z by (unfold s; lia). rewrite pow2_add. reflexivity. }
  assert (Hb : pow2 (e - 53) <= x * ulp_rel + eta).
  { unfold e. destruct (Z.max_spec e0 emin) as [[_ ->]|[_ ->]].
    - change (pow2 (emin - 53)) with eta. pose proof (pow2_pos (-53)). unfold ulp_rel. nra.
    - replace (e0 - 53)%Z with (e0 + -53)%Z by lia. rewrite pow2_add. fold ulp_rel. pose proof (pow2_pos (-1075)) as He. fold eta in He.
      pose proof (pow2_pos (-53)) as Hu. fold ulp_rel in Hu. nra. }
  assert (D : m * pow2 (- s) - x == (m - x * pow2 s) * pow2 (- s)).
  { transitivity (m * pow2 (- s) - x * (pow2 s * pow2 (- s))); [rewrite I|]; ring. }
  split; [nra|]. rewrite D. nra.
Qed.

Lemma round64_err x :
  0 <= x ->
  0 <= round64 x /\
  - (x * ulp_rel + eta) <= round64 x - x <= x * ulp_rel + eta.
Proof.
  intros Hx. unfold round64.
  pose proof (pow2_pos (-1075)) as He. fold eta in He.
  pose proof (pow2_pos (-53)) as Hu. fold ulp_rel in Hu.
  destruct (Qcompare_spec x 0) as [E|L|G].
  - rewrite E. split; [lra|]. split; nra.
  - lra.
  - apply round_pos_err. exact G.
Qed.

Lemma round64_zero x : x == 0 -> round64 x = 0.
Proof. intros E. unfold round64. destruct (Qcompare_spec x 0); [reflexivity|lra|lra]. Qed.

Lemma ulp_rel_val : ulp_rel == 1 # 9007199254740992.
Proof. reflexivity. Qed.

Lemma eta_small : eta <= 1 # 1152921504606846976.
Proof. apply (pow2_le (-1075) (-60)). lia. Qed.

Lemma trunc_floor x : 0 <= x -> trunc x = Qfloor x.
Proof. intros H. unfold trunc. apply Qle_bool_iff in H. rewrite H. reflexivity. Qed.

Lemma Qfloor_unique (k : Z) x : inject_Z k <= x -> x < inject_Z k + 1 -> Qfloor x = k.
Proof.
  intros H1 H2. pose proof (Qfloor_le x) as F1. pose proof (Qlt_floor x) as F2.
  rewrite inject_Z_plus in F2. change (inject_Z 1) with 1 in F2.
  assert (inject_Z (Qfloor x) < inject_Z (k + 1)) as A by (rewrite inject_Z_plus; change (inject_Z 1) with 1; lra).
  assert (inject_Z k < inject_Z (Qfloor x + 1)) as B by (rewrite inject_Z_plus; change (inject_Z 1) with 1; lra).
  rewrite <- Zlt_Qlt in A, B. lia.
Qed.


Lemma of_int_100 : of_int 100 = 100.
Proof. vm_compute. reflexivity. Qed.

Lemma percent_trunc (m n : Z) :
  (0 <= m <= n)%Z -> (0 < n < 2 ^ 45)%Z ->
  let t := trunc (fmul (int_div m n) (of_int 100)) in
  let k := (100 * m / n)%Z in
  (k - 1 <= t <= k)%Z /\ ((100 * m) mod n <> 0 -> t = k)%Z.
Proof.
  intros Hm Hn t k. subst t. rewrite of_int_100. unfold fmul, int_div.
  set (x := inject_Z m / inject_Z n).
  assert (Nq : 0 < inject_Z n) by (change 0 with (inject_Z 0); rewrite <- Zlt_Qlt; lia).
  assert (Mq : 0 <= inject_Z m) by (change 0 with (inject_Z 0); rewrite <- Zle_Qle; lia).
  assert (MN : inject_Z m <= inject_Z n) by (rewrite <- Zle_Qle; lia).
  assert (NB : inject_Z n <= 35184372088831).
  { change 35184372088831 with (inject_Z 35184372088831). rewrite <- Zle_Qle.
    change (2 ^ 45)%Z with 35184372088832%Z in Hn. lia. }
  assert (Xn : x * inject_Z n == inject_Z m) by (unfold x; field; lra).
  assert (X0 : 0 <= x) by (apply Qnot_lt_le; intro C; nra).
  assert (X1 : x <= 1) by (apply Qnot_lt_le; intro C; nra).
  destruct (round64_err x X0) as [A0 [A1 A2]].
  set (a := round64 x) in *.
  assert (Y0 : 0 <= a * 100) by lra.
  destruct (round64_err (a * 100) Y0) as [B0 [B1 B2]].
  set (b := round64 (a * 100)) in *.
  rewrite trunc_floor by exact B0.
  pose proof eta_small as He. pose proof (pow2_pos (-1075)) as Hp. fold eta in Hp.
  rewrite ulp_rel_val in A1, A2, B1, B2.
  pose proof (Z.div_mod (100 * m) n ltac:(lia)) as Hd.
  pose proof (Z.mod_pos_bound (100 * m) n ltac:(lia)) as Hr.
  fold k in Hd. set (r := ((100 * m) mod n)%Z) in *.
  assert (Hq : inject_Z 100 * inject_Z m == inject_Z n * inject_Z k + inject_Z r).
  { rewrite <- !inject_Z_mult, <- inject_Z_plus. rewrite <- Hd. reflexivity. }
  change (inject_Z 100) with 100 in Hq.
  assert (R0 : 0 <= inject_Z r) by (change 0 with (inject_Z 0); rewrite <- Zle_Qle; lia).
  assert (R1 : inject_Z r <= inject_Z n - 1).
  { assert (inject_Z r <= inject_Z (n - 1)) as T by (rewrite <- Zle_Qle; lia).
    unfold Z.sub in T. rewrite inject_Z_plus, inject_Z_opp in T. exact T. }
  set (w := 100 * x - inject_Z k).
  assert (W : w * inject_Z n == inject_Z r) by (unfold w; nra).
  assert (D1 : b - inject_Z k - w <= 1 # 35184372088832) by (unfold w; lra).
  assert (D2 : - (1 # 35184372088832) <= b - inject_Z k - w) by (unfold w; lra).
  assert (W0 : 0 <= w) by (apply Qnot_lt_le; intro C; nra).
  assert (W1 : w < 1) by (apply Qnot_le_lt; intro C; nra).
  split.
  - (* within one below *)
    assert (L : inject_Z (k - 1) <= b).
    { unfold Z.sub. rewrite inject_Z_plus, inject_Z_opp. change (inject_Z 1) with 1. lra. }
    assert (U : b < inject_Z (k + 1)).
    { rewrite inject_Z_plus. change (inject_Z 1) with 1.
      assert (w + (1 # 35184372088832) < 1); [|lra].
      apply Qnot_le_lt; intro C.
      assert ((1 - w) * inject_Z n <= (1 # 35184372088832) * inject_Z n) by nra.
      nra. }
    apply Qfloor_resp_le in L. rewrite Qfloor_Z in L.
    assert (Qfloor b < k + 1)%Z.
    { rewrite Zlt_Qlt. eapply Qle_lt_trans; [apply Qfloor_le | exact U]. }
    lia.
  - intros Hr0. apply Qfloor_unique.
    + assert (1 <= inject_Z r).
      { change 1 with (inject_Z 1). rewrite <- Zle_Qle. lia. }
      assert ((1 # 35184372088832) < w); [|lra].
      apply Qnot_le_lt; intro C.
      assert (w * inject_Z n <= (1 # 35184372088832) * inject_Z n) by nra. nra.
    + assert (w + (1 # 35184372088832) < 1); [|lra].
      apply Qnot_le_lt; intro C.
      assert ((1 - w) * inject_Z n <= (1 # 35184372088832) * inject_Z n) by nra.
      nra.
Qed.

End FloatFacts.

(** ** Monotonicity of the binary64 rounding *)

Section FloatMonotone.

Local Open Scope Q_scope.

Lemma rne_int (n : Z) : rne (inject_Z n) = n.
Proof.
  unfold rne. rewrite Qfloor_Z.
  destruct (Qcompare_spec (inject_Z n - inject_Z n) (1 # 2)) as [E|L|G];
    [exfalso; lra | reflexivity | exfalso; lra].
Qed.

Lemma rne_mono x y : x <= y -> (rne x <= rne y)%Z.
Proof.
  intros H. pose proof (Qfloor_resp_le _ _ H) as F.
  pose proof (rne_close x) as Cx. pose proof (rne_close y) as Cy.
  pose proof (Qfloor_le x) as Lx. pose proof (Qlt_floor x) as Ux.
  pose proof (Qfloor_le y) as Ly. pose proof (Qlt_floor y) as Uy.
  rewrite inject_Z_plus in Ux, Uy. change (inject_Z 1) with 1 in Ux, Uy.
  destruct (Z.eq_dec (Qfloor x) (Qfloor y)) as [E|N].
  - unfold rne. rewrite <- E.
    destruct (Qcompare_spec (x - inject_Z (Qfloor x)) (1 # 2)) as [E1|L1|G1];
      destruct (Qcompare_spec (y - inject_Z (Qfloor x)) (1 # 2)) as [E2|L2|G2];
      try lia; try (exfalso; lra);
      destruct (Z.even (Qfloor x)); lia.
  - assert (rne x <= Qfloor x + 1)%Z.
    { unfold rne. destruct (Qcompare _ _); [destruct (Z.even _)|..]; lia. }
    assert (Qfloor y <= rne y)%Z.
    { unfold rne. destruct (Qcompare _ _); [destruct (Z.even _)|..]; lia. }
    lia.
Qed.

Lemma ilog2_mono x y : 0 < x -> x <= y -> (ilog2 x <= ilog2 y)%Z.
Proof.
  intros Hx H. destruct (ilog2_spec x Hx) as [Lx _].
  destruct (ilog2_spec y ltac:(lra)) as [_ Uy].
  assert (pow2 (ilog2 x) < pow2 (ilog2 y + 1)) as P by lra.
  apply pow2_lt_inv in P. lia.
Qed.

Lemma pow2_cancel s : pow2 s * pow2 (- s) == 1.
Proof.
  rewrite <- pow2_add. replace (s + - s)%Z with 0%Z by lia. reflexivity.
Qed.

Lemma round_pos_mono x y : 0 < x -> x <= y -> round_pos x <= round_pos y.
Proof.
  intros Hx H. assert (Hy : 0 < y) by lra.
  pose proof (ilog2_mono x y Hx H) as Hl.
  destruct (ilog2_spec x Hx) as [Lx Ux]. destruct (ilog2_spec y Hy) as [Ly Uy].
  unfold round_pos. rewrite !Qred_correct.
  set (ex := Z.max (ilog2 x) emin). set (ey := Z.max (ilog2 y) emin).
  assert (Hle : (ex <= ey)%Z) by (unfold ex, ey; lia).
  pose proof (pow2_pos (52 - ex)) as Psx. pose proof (pow2_pos (- (52 - ex))) as Pnx.
  pose proof (pow2_pos (52 - ey)) as Psy. pose proof (pow2_pos (- (52 - ey))) as Pny.
  destruct (Z.eq_dec ex ey) as [E|N].
  - rewrite <- E.
    assert (M : (rne (x * pow2 (52 - ex)) <= rne (y * pow2 (52 - ex)))%Z).
    { apply rne_mono. nra. }
    rewrite Zle_Qle in M. nra.
  - assert (Hlt : (ex < ey)%Z) by lia.
    assert (Ey : ey = ilog2 y) by (unfold ex, ey in *; lia).
    (* the rounding of [x] stays below the next power of two *)
    assert (A : inject_Z (rne (x * pow2 (52 - ex))) * pow2 (- (52 - ex)) <= pow2 (ex + 1)).
    { assert (B : x * pow2 (52 - ex) <= inject_Z (2 ^ 53)).
      { rewrite <- pow2_inject by lia.
        replace 53%Z with ((ex + 1) + (52 - ex))%Z by lia. rewrite pow2_add.
        assert (pow2 (ilog2 x + 1) <= pow2 (ex + 1)) by (apply pow2_le; unfold ex; lia).
        pose proof (pow2_pos (ex + 1)). nra. }
      apply rne_mono in B. rewrite rne_int in B. rewrite Zle_Qle in B.
      rewrite <- pow2_inject in B by lia.
      assert (C : pow2 53 * pow2 (- (52 - ex)) == pow2 (ex + 1)).
      { rewrite <- pow2_add. replace (53 + - (52 - ex))%Z with (ex + 1)%Z by lia. reflexivity. }
      nra. }
    (* the rounding of [y] stays above the power of two below it *)
    assert (B : pow2 ey <= inject_Z (rne (y * pow2 (52 - ey))) * pow2 (- (52 - ey))).
    { assert (D : inject_Z (2 ^ 52) <= y * pow2 (52 - ey)).
      { rewrite <- pow2_inject by lia.
        replace 52%Z with (ey + (52 - ey))%Z at 1 by lia. rewrite pow2_add.
        rewrite Ey in *. nra. }
      apply rne_mono in D. rewrite rne_int in D. rewrite Zle_Qle in D.
      rewrite <- pow2_inject in D by lia.
      assert (C : pow2 52 * pow2 (- (52 - ey)) == pow2 ey).
      { rewrite <- pow2_add. replace (52 + - (52 - ey))%Z with ey by lia. reflexivity. }
      nra. }
    assert (pow2 (ex + 1) <= pow2 ey) by (apply pow2_le; lia).
    lra.
Qed.

(** Rounding preserves the order of non-negative numbers. *)
Lemma round64_mono x y : 0 <= x -> x <= y -> round64 x <= round64 y.
Proof.
  intros Hx H. unfold round64.
  destruct (Qcompare_spec x 0) as [Ex|Lx|Gx]; [|lra|].
  - destruct (Qcompare_spec y 0) as [Ey|Ly|Gy]; [lra|lra|].
    apply round_pos_err. exact Gy.
  - destruct (Qcompare_spec y 0) as [Ey|Ly|Gy]; [lra|lra|].
    apply round_pos_mono; assumption.
Qed.

(** Rounding returns the same reduced fraction on equal rationals. *)
Lemma round_pos_Qeq x y : 0 < x -> x == y -> round_pos x = round_pos y.
Proof.
  intros Hx E. assert (Hy : 0 < y) by lra.
  assert (I : ilog2 x = ilog2 y).
  { apply Z.le_antisymm; apply ilog2_mono; lra. }
  unfold round_pos. rewrite I. apply Qred_complete.
  assert (R : rne (x * pow2 (52 - Z.max (ilog2 y) emin))
              = rne (y * pow2 (52 - Z.max (ilog2 y) emin))).
  { pose proof (pow2_pos (52 - Z.max (ilog2 y) emin)).
    apply Z.le_antisymm; apply rne_mono; nra. }
  rewrite R. reflexivity.
Qed.

Lemma round64_Qeq x y : 0 <= x -> x == y -> round64 x = round64 y.
Proof.
  intros Hx E. unfold round64.
  destruct (Qcompare_spec x 0) as [Cx|Cx|Cx]; destruct (Qcompare_spec y 0) as [Cy|Cy|Cy];
    try (exfalso; lra); [reflexivity|].
  apply round_pos_Qeq; assumption.
Qed.

Lemma trunc_mono x y : 0 <= x -> x <= y -> (PyFloat.trunc x <= PyFloat.trunc y)%Z.
Proof.
  intros Hx H. rewrite !trunc_floor by lra. apply Qfloor_resp_le. exact H.
Qed.

End FloatMonotone.

(** ** Counting lemmas for the scoring loops *)

Section Counting.

Import Spec.

Local Open Scope Z_scope.

Lemma phrases_matched_cons p phrases text :
  phrases_matched (p :: phrases) text
  = flag (str_in p text) + phrases_matched phrases text.
Proof.
  unfold phrases_matched, flag. cbn [List.filter].
  destruct (str_in p text); cbn [length]; lia.
Qed.

Lemma phrases_matched_app l1 l2 text :
  phrases_matched (l1 ++ l2) text = phrases_matched l1 text + phrases_matched l2 text.
Proof.
  unfold phrases_matched. rewrite List.filter_app, List.length_app. lia.
Qed.

Lemma phrases_matched_bounds phrases text :
  0 <= phrases_matched phrases text <= Z.of_nat (length phrases).
Proof.
  unfold phrases_matched. pose proof (List.filter_length_le (fun p => str_in p text) phrases).
  lia.
Qed.

(** A scoring loop adds its weight once per phrase found. *)
Lemma scan_counts delta text patterns score :
  scan delta text patterns score = score + delta * phrases_matched patterns text.
Proof.
  revert score. induction patterns as [|p patterns IH]; intros score.
  - unfold phrases_matched. cbn. lia.
  - unfold scan in *. cbn [fold_left]. rewrite IH, phrases_matched_cons.
    unfold bump, flag. destruct (str_in p text); lia.
Qed.

(** The nested loop over a table of families does the same over all of
    its phrases. *)
Lemma scan_items_counts delta text d score :
  scan_items delta text d score
  = score + delta * phrases_matched (all_phrases d) text.
Proof.
  revert score. induction d as [|[name patterns] d IH]; intros score.
  - unfold phrases_matched. cbn. lia.
  - unfold scan_items in *. cbn [fold_left snd]. rewrite IH, scan_counts.
    unfold all_phrases. cbn [map snd concat]. rewrite phrases_matched_app.
    fold (all_phrases d). lia.
Qed.

(** The generator sum counts the same phrases. *)
Lemma count_matches_counts keywords text :
  count_matches keywords text = phrases_matched keywords text.
Proof.
  unfold count_matches.
  change (fold_left (fun n keyword => if str_in keyword text then n + 1 else n) keywords 0)
    with (scan 1 text keywords 0).
  rewrite scan_counts. lia.
Qed.

End Counting.

(** ** C1: the improved struggle score *)

(** C1, amended.  In the improved mode the struggle score of every post
    text is the clamp to [0,100] of: +25 per active-struggle phrase found,
    +15 per high-urgency indicator, +8 per medium-urgency indicator, +20
    for a question mark, -30 per success-story phrase found (each phrase
    of each family, not once per family), -25 for a currency amount and
    -15 for the phrase "i will not promote". *)
Theorem struggle_detection_penalty_per_phrase (post_text : string) :
  _calculate_struggle_detection true post_text = Spec.struggle_per_phrase post_text.
Proof.
  unfold _calculate_struggle_detection, Spec.struggle_per_phrase, Spec.clamp,
    Spec.struggle_boosts.
  cbn [negb].
  rewrite !scan_items_counts, !scan_counts.
  unfold Spec.flag.
  destruct (str_in "?" post_text), (search_amount post_text),
    (str_in "i will not promote" post_text); f_equal; f_equal; lia.
Qed.

(** C1 as stated fails: with one penalty per family the text below, which
    contains two phrases of the family of past-tense successes, would score
    30; the code subtracts 30 for each phrase and returns 0. *)
Lemma struggle_detection_not_per_family :
  _calculate_struggle_detection true "help me? i grew i built" = 0
  /\ Spec.struggle_per_family "help me? i grew i built" = 30.
Proof. split; vm_compute; reflexivity. Qed.

(** ** C2: the keyword-match score *)

Section KeywordMatch.

Local Open Scope Z_scope.

Lemma keyword_match_nonempty (post_text : string) (keywords : list string) :
  keywords <> [] ->
  _calculate_keyword_match post_text keywords
  = Z.min 100 (PyFloat.trunc
                 (fmul (int_div (count_matches keywords post_text)
                                (Z.of_nat (length keywords)))
                       (of_int 100))).
Proof. destruct keywords; [congruence | reflexivity]. Qed.

(** C2, amended.  For a keyword list of fewer than 2^45 entries the
    keyword-match score is 0 when the list is empty; otherwise, with
    [m] the number of entries of the list (repetitions counted) that occur
    in the text and [n] its length, the score is
    [min(100, floor(100*m/n))] - truncated, not rounded - whenever [n] does
    not divide [100*m], and that value or one less when it does (the
    quotient and the product are rounded to double precision before the
    truncation). *)
Theorem keyword_match_truncated (post_text : string) (keywords : list string) :
  Z.of_nat (length keywords) < 2 ^ 45 ->
  let m := Spec.phrases_matched keywords post_text in
  let n := Z.of_nat (length keywords) in
  let floored := Z.min 100 (100 * m / n) in
  (keywords = [] -> _calculate_keyword_match post_text keywords = 0)
  /\ (keywords <> [] ->
      floored - 1 <= _calculate_keyword_match post_text keywords <= floored
      /\ ((100 * m) mod n <> 0 ->
          _calculate_keyword_match post_text keywords = floored)).
Proof.
  intros Hn m n floored. split.
  - intros ->. reflexivity.
  - intros Hne. rewrite (keyword_match_nonempty _ _ Hne).
    rewrite count_matches_counts. fold m. fold n.
    pose proof (phrases_matched_bounds keywords post_text) as Hm. fold m n in Hm.
    assert (Hpos : 0 < n).
    { unfold n. destruct keywords; [congruence | cbn [length]; lia]. }
    destruct (percent_trunc m n ltac:(lia) ltac:(lia)) as [Hb Hx].
    assert (Hq : 100 * m / n <= 100).
    { apply Z.div_le_upper_bound; lia. }
    subst floored. rewrite (Z.min_r 100 (100 * m / n)) by lia.
    split.
    + lia.
    + intros Hr. rewrite (Hx Hr). lia.
Qed.

(** The theorem at a list of three keywords of which two occur. *)
Lemma keyword_match_truncated_witness :
  Z.of_nat (length ["a"; "b"; "c"]) < 2 ^ 45
  /\ _calculate_keyword_match "ab" ["a"; "b"; "c"] = 66.
Proof.
  split; [vm_compute; reflexivity|].
  pose proof (keyword_match_truncated "ab" ["a"; "b"; "c"] ltac:(vm_compute; reflexivity))
    as [_ H].
  destruct (H ltac:(discriminate)) as [_ Hx].
  rewrite Hx; [vm_compute; reflexivity | vm_compute; discriminate].
Defined.

(** C2 as stated fails on both counts.  Two keywords out of three give 66
    where rounding gives 67; and a keyword supplied twice is counted twice:
    the text "a" with the list ["a"; "a"; "b"] scores 66, where one distinct
    keyword out of three gives 33. *)
Lemma keyword_match_not_rounded_not_distinct :
  (_calculate_keyword_match "ab" ["a"; "b"; "c"] = 66
   /\ Spec.keyword_match_rounded "ab" ["a"; "b"; "c"] = 67)
  /\ (_calculate_keyword_match "a" ["a"; "a"; "b"] = 66
      /\ Spec.keyword_match_rounded "a" ["a"; "a"; "b"] = 33).
Proof. repeat split; vm_compute; reflexivity. Qed.

(** The case "one less": 29 keywords found out of 100 score 28, because
    the double nearest to 29/100, multiplied by 100, is just below 29. *)
Lemma keyword_match_29_of_100 :
  _calculate_keyword_match "a" (repeat "a" 29 ++ repeat "b" 71) = 28.
Proof. vm_compute. reflexivity. Qed.

End KeywordMatch.

(** ** C3: the improved business relevance *)

Section BusinessRelevance.

Import Spec.

Local Open Scope Z_scope.

Lemma dict_get_In {A : Type} (d : list (string * A)) key v :
  dict_get d key = Some v -> In v (map snd d).
Proof.
  induction d as [|[k x] d IH]; cbn [dict_get map snd]; [discriminate|].
  destruct (String.eqb k key); [intros [= ->]; left; reflexivity | right; auto].
Qed.

Lemma dict_get_mem {A : Type} (d : list (string * A)) key v :
  dict_get d key = Some v -> existsb (String.eqb key) (dict_keys d) = true.
Proof.
  unfold dict_keys.
  induction d as [|[k x] d IH]; cbn [dict_get map fst existsb]; [discriminate|].
  rewrite (String.eqb_sym key k).
  destruct (String.eqb k key); [reflexivity | cbn [orb]; auto].
Qed.

(** Every keyword list of the two catalogs has between 1 and 20 entries. *)
Lemma catalog_lengths :
  Forall (fun kws : list string => (1 <= length kws <= 20)%nat)
         (map snd (BUSINESS_KEYWORDS ++ INDUSTRY_KEYWORDS)).
Proof. repeat constructor. Qed.

(** Every category name of the two catalogs is a non-empty string. *)
Lemma catalog_names_truthy :
  Forall (fun name => truthy name = true)
         (dict_keys BUSINESS_KEYWORDS ++ dict_keys INDUSTRY_KEYWORDS).
Proof. repeat constructor. Qed.

Lemma selection_length business industry :
  get_keywords_for_selection business industry <> [] ->
  (1 <= length (get_keywords_for_selection business industry) <= 20)%nat.
Proof.
  intros Hne. pose proof catalog_lengths as HF. rewrite List.Forall_forall in HF.
  apply HF. rewrite List.map_app, List.in_app_iff. revert Hne.
  unfold get_keywords_for_selection, get_keywords_for_business, get_keywords_for_industry.
  destruct (otruthy business).
  - destruct (dict_get BUSINESS_KEYWORDS (oget business)) eqn:E; [|congruence].
    intros _. left. eapply dict_get_In; eauto.
  - destruct (otruthy industry); [|congruence].
    destruct (dict_get INDUSTRY_KEYWORDS (oget industry)) eqn:E; [|congruence].
    intros _. right. eapply dict_get_In; eauto.
Qed.

(** A selection with keywords names a category of the catalog in use. *)
Lemma selection_in_catalog business industry :
  get_keywords_for_selection business industry <> [] ->
  existsb (String.eqb (target business industry)) (dict_keys (catalog business)) = true
  /\ por business industry = Some (target business industry).
Proof.
  unfold get_keywords_for_selection, get_keywords_for_business, get_keywords_for_industry,
    target, catalog, por.
  destruct (otruthy business) eqn:Tb.
  - destruct (dict_get BUSINESS_KEYWORDS (oget business)) eqn:E; [|congruence].
    intros _. split; [eapply dict_get_mem; eauto|].
    destruct business; [reflexivity | discriminate].
  - destruct (otruthy industry) eqn:Ti; [|congruence].
    destruct (dict_get INDUSTRY_KEYWORDS (oget industry)) eqn:E; [|congruence].
    intros _. split; [eapply dict_get_mem; eauto|].
    destruct industry; [reflexivity | discriminate].
Qed.

Lemma percentage_exact (m n : Z) :
  1 <= n <= 20 -> 0 <= m <= n ->
  boosted_percentage m n = 100 * m / n + bonus m.
Proof.
  intros Hn Hm.
  assert (C : percentage_exact_upto 20 = true) by (vm_compute; reflexivity).
  unfold percentage_exact_upto in C. rewrite List.forallb_forall in C.
  specialize (C (Z.to_nat n)). rewrite List.in_seq in C.
  specialize (C ltac:(lia)). rewrite List.forallb_forall in C.
  specialize (C (Z.to_nat m)). rewrite List.in_seq in C.
  specialize (C ltac:(lia)). rewrite !Z2Nat.id in C by lia.
  apply Z.eqb_eq in C. exact C.
Qed.

Lemma relevance_score_nonempty (post_text : string) (kws : list string) :
  kws <> [] ->
  calculate_business_relevance_score post_text kws
  = Z.min 100 (boosted_percentage (count_matches kws (lower post_text))
                                  (Z.of_nat (length kws))).
Proof. destruct kws; [congruence | reflexivity]. Qed.

Lemma In_firstn {A : Type} (n : nat) (l : list A) (x : A) :
  In x (firstn n l) -> In x l.
Proof.
  revert n. induction l as [|y l IH]; intros [|n]; cbn [firstn In]; try tauto.
  intros [->|H]; [left; reflexivity | right; eauto].
Qed.

Lemma In_firstn_filter {A : Type} (p : A -> bool) (n : nat) (l : list A) (x : A) :
  In x (firstn n (List.filter p l)) -> In x l.
Proof.
  intros H. apply In_firstn in H. apply List.filter_In in H. tauto.
Qed.

Lemma fold_left_ext_In {A B : Type} (f g : A -> B -> A) (l : list B) (a : A) :
  (forall x acc, In x l -> f acc x = g acc x) ->
  fold_left f l a = fold_left g l a.
Proof.
  revert a. induction l as [|y l IH]; intros a H; cbn [fold_left]; [reflexivity|].
  rewrite (H y a) by (left; reflexivity).
  apply IH. intros x acc Hx. apply H. right. exact Hx.
Qed.

(** The penalty loop adds 15 once per conflicting rival. *)
Lemma penalty_loop_counts (keywords_for : string -> list string) text names penalty :
  fold_left
    (fun penalty other_business =>
       if 2 <=? count_matches (keywords_for other_business) text
       then penalty + 15 else penalty)
    names penalty
  = penalty
    + 15 * Z.of_nat (length (List.filter
                               (fun name => 2 <=? phrases_matched (keywords_for name) text)
                               names)).
Proof.
  revert penalty. induction names as [|x names IH]; intros penalty; cbn [fold_left List.filter].
  - cbn. lia.
  - rewrite IH, count_matches_counts.
    destruct (2 <=? phrases_matched (keywords_for x) text); cbn [length]; lia.
Qed.

Lemma conflict_penalty_counts text business industry :
  get_keywords_for_selection business industry <> [] ->
  _calculate_business_conflict_penalty text business industry
  = 15 * conflicts text business industry.
Proof.
  intros Hne. destruct (selection_in_catalog _ _ Hne) as [Hmem Hpor].
  unfold _calculate_business_conflict_penalty. rewrite Hpor.
  unfold catalog in Hmem. unfold conflicts, rivals, catalog, keywords_of.
  pose proof catalog_names_truthy as HT. rewrite List.Forall_forall in HT.
  destruct (otruthy business) eqn:Tb; rewrite Hmem.
  - rewrite (fold_left_ext_In _
               (fun penalty other_business =>
                  if 2 <=? count_matches (get_keywords_for_business other_business) text
                  then penalty + 15 else penalty)).
    + rewrite penalty_loop_counts. apply Z.add_0_l.
    + intros other pen Hin. apply In_firstn_filter in Hin.
      unfold get_keywords_for_selection. cbn [otruthy oget].
      rewrite (HT other) by (apply List.in_app_iff; left; exact Hin). reflexivity.
  - rewrite (fold_left_ext_In _
               (fun penalty other_business =>
                  if 2 <=? count_matches (get_keywords_for_industry other_business) text
                  then penalty + 15 else penalty)).
    + rewrite penalty_loop_counts. apply Z.add_0_l.
    + intros other pen Hin. apply In_firstn_filter in Hin.
      unfold get_keywords_for_selection. cbn [otruthy oget].
      rewrite (HT other) by (apply List.in_app_iff; right; exact Hin). reflexivity.
Qed.

(** C3, amended.  In the improved mode the business relevance of every
    post text is 0 when no category is given or the category has no catalog
    keywords; otherwise it is [min(100, max(0, B - P))], where
    [B = min(100, floor(100*matches/len) + bonus)] is truncated to an
    integer and capped at 100 before the penalty is subtracted, the bonus
    is 20 for three or more matches and 10 for exactly two, and [P] is 15
    for each of the first three other catalog categories with two or more
    of their keywords in the text. *)
Theorem business_relevance_two_clamps_correct
    (post_text : string) (business_type industry_type : option string) :
  _calculate_business_relevance true post_text business_type industry_type
  = business_relevance_two_clamps post_text business_type industry_type.
Proof.
  unfold _calculate_business_relevance, business_relevance_two_clamps. cbn [negb].
  destruct (negb (otruthy business_type) && negb (otruthy industry_type)); [reflexivity|].
  destruct (get_keywords_for_selection business_type industry_type) as [|k0 ks] eqn:E;
    [reflexivity|].
  assert (Hne : get_keywords_for_selection business_type industry_type <> [])
    by (rewrite E; discriminate).
  rewrite <- E. rewrite (relevance_score_nonempty _ _ Hne).
  rewrite (conflict_penalty_counts _ _ _ Hne), count_matches_counts.
  pose proof (selection_length _ _ Hne) as Hlen.
  pose proof (phrases_matched_bounds
                (get_keywords_for_selection business_type industry_type)
                (lower post_text)) as Hm.
  rewrite percentage_exact by lia. reflexivity.
Qed.

Local Open Scope Q_scope.

(** C3 as stated fails.  One match out of fifteen gives 6, not 20/3: the
    percentage is truncated.  And a text with all fifteen keywords of the
    target and two keywords of a rival gives 85: the percentage with its
    bonus is capped at 100 first and the penalty of 15 is subtracted from
    that, where a single clamp of 100 + 20 - 15 gives 100. *)
Lemma business_relevance_not_one_clamp :
  (_calculate_business_relevance true "gym" (Some "Gyms / Fitness Studios"%string) None
   = 6%Z
   /\ business_relevance_one_clamp "gym" (Some "Gyms / Fitness Studios"%string) None
      == 20 # 3)
  /\ let text :=
       (join " " (get_keywords_for_business "Gyms / Fitness Studios")
        +:+ " saas software")%string in
     _calculate_business_relevance true text (Some "Gyms / Fitness Studios"%string) None
     = 85%Z
     /\ business_relevance_one_clamp text (Some "Gyms / Fitness Studios"%string) None
        == 100.
Proof. repeat split; vm_compute; reflexivity. Qed.

End BusinessRelevance.

(** ** C9: every score lies in [0,100] *)

Section Bounds.

Local Open Scope Q_scope.

Lemma trunc_nonneg x : 0 <= x -> (0 <= PyFloat.trunc x)%Z.
Proof.
  intros H. rewrite trunc_floor by exact H.
  change 0%Z with (Qfloor 0). apply Qfloor_resp_le. exact H.
Qed.

Lemma trunc_below x (n : Z) : 0 <= x -> x < inject_Z n + 1 -> (PyFloat.trunc x <= n)%Z.
Proof.
  intros H0 H. rewrite trunc_floor by exact H0.
  pose proof (Qfloor_le x) as F.
  assert (inject_Z (Qfloor x) < inject_Z (n + 1)) as L.
  { rewrite inject_Z_plus. change (inject_Z 1) with 1. lra. }
  rewrite <- Zlt_Qlt in L. lia.
Qed.

Lemma literal_3_10 : literal 3 10 = 5404319552844595 # 18014398509481984.
Proof. vm_compute. reflexivity. Qed.

Lemma literal_6_10 : literal 6 10 = 5404319552844595 # 9007199254740992.
Proof. vm_compute. reflexivity. Qed.

Lemma literal_1_10 : literal 1 10 = 3602879701896397 # 36028797018963968.
Proof. vm_compute. reflexivity. Qed.

Lemma literal_4_10 : literal 4 10 = 3602879701896397 # 9007199254740992.
Proof. vm_compute. reflexivity. Qed.

Lemma literal_2_10 : literal 2 10 = 3602879701896397 # 18014398509481984.
Proof. vm_compute. reflexivity. Qed.

(** The error of one rounding, with the unit roundoff as a numeral. *)
Lemma round64_within x :
  0 <= x ->
  0 <= round64 x
  /\ round64 x <= x + x * (1 # 9007199254740992) + (1 # 1152921504606846976).
Proof.
  intros H. destruct (round64_err x H) as [H0 [_ H2]].
  rewrite ulp_rel_val in H2. pose proof eta_small. split; lra.
Qed.

Lemma weighted_sum_bounds (a b c : Q) (k s r : Z) :
  0 <= a -> 0 <= b -> 0 <= c -> a + b + c <= 1 + (1 # 1000000) ->
  (0 <= k <= 100)%Z -> (0 <= s <= 100)%Z -> (0 <= r <= 100)%Z ->
  (0 <= PyFloat.trunc
          (fadd (fadd (fmul (of_int k) a) (fmul (of_int s) b)) (fmul (of_int r) c))
     <= 100)%Z.
Proof.
  intros Ha Hb Hc Hsum Hk Hs Hr. unfold fadd, fmul, of_int.
  assert (Ik : 0 <= inject_Z k <= 100).
  { change 0 with (inject_Z 0). change 100 with (inject_Z 100). rewrite <- !Zle_Qle. lia. }
  assert (Is : 0 <= inject_Z s <= 100).
  { change 0 with (inject_Z 0). change 100 with (inject_Z 100). rewrite <- !Zle_Qle. lia. }
  assert (Ir : 0 <= inject_Z r <= 100).
  { change 0 with (inject_Z 0). change 100 with (inject_Z 100). rewrite <- !Zle_Qle. lia. }
  destruct (round64_within (inject_Z k) ltac:(lra)) as [K0 K1].
  destruct (round64_within (inject_Z s) ltac:(lra)) as [S0 S1].
  destruct (round64_within (inject_Z r) ltac:(lra)) as [R0 R1].
  set (K := round64 (inject_Z k)) in *.
  set (S := round64 (inject_Z s)) in *.
  set (R := round64 (inject_Z r)) in *.
  assert (K2 : K <= 101) by lra. assert (S2 : S <= 101) by lra. assert (R2 : R <= 101) by lra.
  assert (PK : 0 <= K * a) by nra. assert (PS : 0 <= S * b) by nra.
  assert (PR : 0 <= R * c) by nra.
  destruct (round64_within (K * a) PK) as [KA0 KA1].
  destruct (round64_within (S * b) PS) as [SB0 SB1].
  destruct (round64_within (R * c) PR) as [RC0 RC1].
  set (KA := round64 (K * a)) in *.
  set (SB := round64 (S * b)) in *.
  set (RC := round64 (R * c)) in *.
  destruct (round64_within (KA + SB) ltac:(lra)) as [T0 T1].
  set (T := round64 (KA + SB)) in *.
  destruct (round64_within (T + RC) ltac:(lra)) as [V0 V1].
  set (V := round64 (T + RC)) in *.
  split; [apply trunc_nonneg; exact V0|]. apply trunc_below; [exact V0|].
  change (inject_Z 100) with 100.
  (* the exact products are bounded by the exact weights *)
  assert (EK : K * a <= (100 + (1 # 1000000)) * a) by nra.
  assert (ES : S * b <= (100 + (1 # 1000000)) * b) by nra.
  assert (ER : R * c <= (100 + (1 # 1000000)) * c) by nra.
  assert (W : (100 + (1 # 1000000)) * a + (100 + (1 # 1000000)) * b
              + (100 + (1 # 1000000)) * c <= 100 + (1 # 1000)) by nra.
  lra.
Qed.

Lemma blend_bounds (improved : bool) (k s r : Z) :
  (0 <= k <= 100)%Z -> (0 <= s <= 100)%Z -> (0 <= r <= 100)%Z ->
  (0 <= blend improved k s r <= 100)%Z.
Proof.
  intros Hk Hs Hr. unfold blend. destruct improved.
  - rewrite literal_3_10, literal_6_10, literal_1_10.
    apply weighted_sum_bounds; try assumption; try (vm_compute; discriminate).
  - rewrite literal_4_10, literal_2_10.
    apply weighted_sum_bounds; try assumption; try (vm_compute; discriminate).
Qed.

Local Open Scope Z_scope.

Lemma keyword_match_bounds post_text keywords :
  0 <= _calculate_keyword_match post_text keywords <= 100.
Proof.
  unfold _calculate_keyword_match. destruct keywords as [|k0 ks]; [lia|].
  set (kws := k0 :: ks).
  pose proof (phrases_matched_bounds kws post_text) as Hm.
  rewrite count_matches_counts.
  assert (0 <= PyFloat.trunc
                 (fmul (int_div (Spec.phrases_matched kws post_text)
                                (Z.of_nat (length kws))) (of_int 100))); [|lia].
  apply trunc_nonneg. rewrite of_int_100. unfold fmul, int_div.
  apply round64_within.
  assert (0 <= round64 (inject_Z (Spec.phrases_matched kws post_text)
                        / inject_Z (Z.of_nat (length kws))))%Q; [|lra].
  apply round64_within. apply Qle_shift_div_l.
  - change 0%Q with (inject_Z 0). rewrite <- Zlt_Qlt. unfold kws. cbn [length]. lia.
  - rewrite Qmult_0_l. change 0%Q with (inject_Z 0). rewrite <- Zle_Qle. lia.
Qed.

Lemma struggle_detection_bounds improved post_text :
  0 <= _calculate_struggle_detection improved post_text <= 100.
Proof.
  unfold _calculate_struggle_detection. destruct improved; cbn [negb]; [lia|].
  rewrite !scan_counts.
  pose proof (phrases_matched_bounds (indicators "high_urgency") post_text).
  pose proof (phrases_matched_bounds (indicators "medium_urgency") post_text).
  destruct (str_in "?" post_text); lia.
Qed.

Lemma business_relevance_bounds improved post_text business_type industry_type :
  0 <= _calculate_business_relevance improved post_text business_type industry_type <= 100.
Proof.
  unfold _calculate_business_relevance. destruct improved; cbn [negb].
  - destruct (negb (otruthy business_type) && negb (otruthy industry_type)); [lia|].
    destruct (get_keywords_for_selection business_type industry_type); lia.
  - rewrite scan_counts.
    pose proof (phrases_matched_bounds (indicators "business_keywords") post_text). lia.
Qed.

(** C9.  In both scoring modes, for every post, keyword list and category
    selection, the four scores of the returned [RelevanceScore] -
    keyword match, struggle detection, business relevance and overall -
    lie in [0,100]. *)
Theorem relevance_score_bounds
    (use_improved_scoring : bool) (float_repr : Q -> string) (post : Post)
    (keywords : list string) (business_type industry_type : option string) :
  let r := analyze_post_relevance use_improved_scoring float_repr post keywords
             business_type industry_type in
  0 <= keyword_match r <= 100
  /\ 0 <= struggle_detection r <= 100
  /\ 0 <= business_relevance r <= 100
  /\ 0 <= overall_score r <= 100.
Proof.
  cbn zeta. unfold analyze_post_relevance.
  cbn [keyword_match struggle_detection business_relevance overall_score].
  set (post_text := lower _).
  pose proof (keyword_match_bounds post_text keywords) as Hk.
  pose proof (struggle_detection_bounds use_improved_scoring post_text) as Hs.
  pose proof (business_relevance_bounds use_improved_scoring post_text
                business_type industry_type) as Hb.
  repeat split; try lia; apply blend_bounds; assumption.
Qed.

End Bounds.

(** ** C4: the quota check *)

Section Quota.

Import CostCalculator.

Local Open Scope Z_scope.

(** C4.  For every account state and requested count, the quota check
    rejects the request exactly when [results_used + requested > 150] or
    [posts_analyzed + requested * 15 > 2250]; on rejection the remaining
    figures it reports are [150 - results_used] and [2250 - posts_analyzed];
    and an account with 145 results used that requests 10 is rejected with
    5 results remaining. *)
Theorem quota_check_rejects_exactly
    (user_results_used user_posts_analyzed requested_results : Z) :
  let '(is_valid, error_message, posts_needed, remaining_results, remaining_posts) :=
    validate_user_limits user_results_used user_posts_analyzed requested_results in
  (is_valid = false <->
     user_results_used + requested_results > 150
     \/ user_posts_analyzed + requested_results * 15 > 2250)
  /\ (is_valid = false ->
      remaining_results = 150 - user_results_used
      /\ remaining_posts = 2250 - user_posts_analyzed)
  /\ posts_needed = requested_results * 15
  /\ validate_user_limits 145 user_posts_analyzed 10
     = (false,
        "Request would exceed beta limit. You have 5 results remaining, but requested 10",
        150, 5, 2250 - user_posts_analyzed).
Proof.
  unfold validate_user_limits, get_posts_to_scrape.
  destruct (150 <? user_results_used + requested_results) eqn:E1;
    [|destruct (2250 <? user_posts_analyzed + requested_results * 15) eqn:E2];
    rewrite ?Z.ltb_lt, ?Z.ltb_ge in *;
    (split; [split; [intros; lia | intros; first [reflexivity | lia]]|]);
    (split; [intros; first [split; reflexivity | discriminate]|]);
    (split; [reflexivity|]); reflexivity.
Qed.

End Quota.

(** ** C6 and C10: the result cache *)

Section CacheFacts.

Import ResultCache.

Context {Payload : Type}.

Lemma gtb_true x y : gtb x y = true <-> (y < x)%Q.
Proof.
  unfold gtb. rewrite negb_true_iff. split.
  - intros H. apply Qnot_le_lt. intros C. apply Qle_bool_iff in C. congruence.
  - intros H. destruct (Qle_bool x y) eqn:E; [|reflexivity].
    apply Qle_bool_iff in E. exfalso. apply (Qlt_not_le _ _ H). exact E.
Qed.

Lemma gtb_false x y : gtb x y = false <-> (x <= y)%Q.
Proof.
  unfold gtb. rewrite negb_false_iff. apply Qle_bool_iff.
Qed.

(** The lookup of a key that is present. *)
Lemma get_cached_results_present
    (cache : gmap string (Q * Payload)) (now : Q)
    (query business_type time_range user_id : string) (result_count : option Z)
    (timestamp : Q) (results : Payload) :
  let key := _generate_cache_key query business_type time_range user_id result_count in
  cache !! key = Some (timestamp, results) ->
  get_cached_results Payload cache now query business_type time_range user_id result_count
  = if gtb (age_hours_at now timestamp) 24
    then (None, delete key cache)
    else (Some (results, age_hours_at now timestamp), cache).
Proof.
  cbn zeta. intros E. unfold get_cached_results. rewrite E. reflexivity.
Qed.

Lemma of_int_3600 : of_int 3600 = 3600%Q.
Proof. vm_compute. reflexivity. Qed.

(** A binary64 number of at least [2^30] is a multiple of [2^-22]. *)
Lemma binary64_on_clock_grid (x : Q) :
  (pow2 30 <= x)%Q -> CacheSpec.on_clock_grid (round64 x).
Proof.
  intros H. pose proof (pow2_pos 30) as P. assert (Hx : (0 < x)%Q) by lra.
  destruct (ilog2_spec x Hx) as [_ U].
  assert (L : (30 <= ilog2 x)%Z).
  { assert (I : (30 < ilog2 x + 1)%Z) by (apply pow2_lt_inv; lra). lia. }
  unfold round64. destruct (Qcompare_spec x 0) as [E|E|E]; [lra|lra|].
  unfold round_pos, emin. cbv zeta. rewrite Z.max_l by lia.
  set (n := rne (x * pow2 (52 - ilog2 x))).
  exists (n * 2 ^ (ilog2 x - 30))%Z. rewrite Qred_correct.
  replace (- (52 - ilog2 x))%Z with ((ilog2 x - 30) + -22)%Z by lia.
  rewrite pow2_add, (pow2_inject (ilog2 x - 30)) by lia.
  rewrite inject_Z_mult. change (pow2 (-22)) with (1 # 4194304)%Q. ring.
Qed.

(** An age of at most 24 hours is computed as at most 24 hours. *)
Lemma age_hours_fresh (now timestamp : Q) :
  (timestamp <= now)%Q -> ((now - timestamp) / 3600 <= 24)%Q ->
  (0 <= age_hours_at now timestamp <= 24)%Q.
Proof.
  intros H A. unfold age_hours_at, fdiv, fsub. rewrite of_int_3600.
  unfold Qdiv in *. change (/ 3600)%Q with (1 # 3600)%Q in *.
  assert (D : (now - timestamp <= 86400)%Q) by lra.
  assert (D0 : (0 <= now - timestamp)%Q) by lra.
  pose proof (round64_mono _ _ D0 D) as M.
  assert (R : round64 86400 = 86400%Q) by (vm_compute; reflexivity).
  rewrite R in M.
  destruct (round64_err _ D0) as [N _].
  set (d := round64 (now - timestamp)%Q) in *.
  assert (Q0 : (0 <= d * (1 # 3600))%Q) by lra.
  assert (Q1 : (d * (1 # 3600) <= 24)%Q) by lra.
  pose proof (round64_mono _ _ Q0 Q1) as M'.
  assert (R' : round64 24 = 24%Q) by (vm_compute; reflexivity).
  rewrite R' in M'.
  destruct (round64_err _ Q0) as [N' _]. split; assumption.
Qed.

(** An age of more than 24 hours between two readings on the grid of the
    clock is computed as more than 24 hours: the readings are then at
    least [2^-22] seconds more than a day apart, far more than the
    roundings can absorb. *)
Lemma age_hours_expired (now timestamp : Q) :
  CacheSpec.on_clock_grid now -> CacheSpec.on_clock_grid timestamp ->
  (24 < (now - timestamp) / 3600)%Q ->
  (24 < age_hours_at now timestamp)%Q.
Proof.
  intros [m Hm] [k Hk] A. unfold age_hours_at, fdiv, fsub. rewrite of_int_3600.
  unfold Qdiv in *. change (/ 3600)%Q with (1 # 3600)%Q in *.
  assert (G : (now - timestamp == inject_Z (m - k) * (1 # 4194304))%Q).
  { rewrite Hm, Hk. unfold Z.sub. rewrite inject_Z_plus, inject_Z_opp. ring. }
  assert (Z0 : (362387865600 < m - k)%Z).
  { rewrite Zlt_Qlt. change (inject_Z 362387865600) with (362387865600 # 1)%Q. lra. }
  assert (Z1 : (inject_Z 362387865601 <= inject_Z (m - k))%Q)
    by (rewrite <- Zle_Qle; lia).
  change (inject_Z 362387865601) with (362387865601 # 1)%Q in Z1.
  assert (D : ((362387865601 # 4194304) <= now - timestamp)%Q) by lra.
  assert (P : (0 <= 362387865601 # 4194304)%Q) by lra.
  pose proof (round64_mono _ _ P D) as M.
  assert (R : round64 (362387865601 # 4194304) = (362387865601 # 4194304)%Q)
    by (vm_compute; reflexivity).
  rewrite R in M.
  set (d := round64 (now - timestamp)%Q) in *.
  assert (Q1 : ((362387865601 # 4194304) * (1 # 3600) <= d * (1 # 3600))%Q) by lra.
  assert (P0 : (0 <= (362387865601 # 4194304) * (1 # 3600))%Q) by lra.
  pose proof (round64_mono _ _ P0 Q1) as M'.
  assert (R' : (24 < round64 ((362387865601 # 4194304) * (1 # 3600)))%Q)
    by (vm_compute; reflexivity).
  lra.
Qed.

(** The computed age is the exact one up to the two roundings. *)
Lemma age_hours_close (now timestamp : Q) :
  (timestamp <= now)%Q ->
  (- ((now - timestamp) / 3600 * (1 # 2251799813685248) + 2 * eta)
   <= age_hours_at now timestamp - (now - timestamp) / 3600
   <= (now - timestamp) / 3600 * (1 # 2251799813685248) + 2 * eta)%Q.
Proof.
  intros H. unfold age_hours_at, fdiv, fsub. rewrite of_int_3600.
  unfold Qdiv. change (/ 3600)%Q with (1 # 3600)%Q.
  destruct (round64_err (now - timestamp)%Q ltac:(lra)) as [D0 [D1 D2]].
  set (d := round64 (now - timestamp)%Q) in *.
  assert (Q0 : (0 <= d * (1 # 3600))%Q) by lra.
  destruct (round64_err (d * (1 # 3600))%Q Q0) as [A0 [A1 A2]].
  set (a := round64 (d * (1 # 3600))%Q) in *.
  rewrite ulp_rel_val in *. pose proof (pow2_pos (-1075)) as He. fold eta in He.
  split; lra.
Qed.

(** C6.  A lookup for a key that was never stored is a miss and leaves the
    cache as it is.  For a stored entry, with the age
    [(now - timestamp) / 3600] in hours taken as a rational number: a
    lookup at an age above 24 hours, both instants being readings of the
    clock, is a miss and leaves the cache without the entry; a lookup at
    an age of at most 24 hours, the entry being stored no later than the
    lookup, leaves the cache as it is and returns the stored payload with
    an age between 0 and 24 that differs from the exact age by the two
    binary64 roundings at most - a relative error of [2^-51]. *)
Theorem cache_lookup_ttl
    (cache : gmap string (Q * Payload)) (now : Q)
    (query business_type time_range user_id : string) (result_count : option Z) :
  let key := _generate_cache_key query business_type time_range user_id result_count in
  let lookup :=
    get_cached_results Payload cache now query business_type time_range user_id
      result_count in
  match cache !! key with
  | None => lookup = (None, cache)
  | Some (timestamp, results) =>
      let exact := ((now - timestamp) / 3600)%Q in
      (CacheSpec.on_clock_grid now -> CacheSpec.on_clock_grid timestamp ->
       (24 < exact)%Q ->
         lookup = (None, delete key cache) /\ delete key cache !! key = None)
      /\ ((timestamp <= now)%Q -> (exact <= 24)%Q ->
          exists age,
            lookup = (Some (results, age), cache)
            /\ (0 <= age <= 24)%Q
            /\ (- (exact * (1 # 2251799813685248) + 2 * eta)
                <= age - exact
                <= exact * (1 # 2251799813685248) + 2 * eta)%Q)
  end.
Proof.
  cbn zeta.
  destruct (cache !! _generate_cache_key query business_type time_range user_id result_count)
    as [[timestamp results]|] eqn:E.
  - rewrite (get_cached_results_present _ _ _ _ _ _ _ _ _ E). split.
    + intros Gn Gt A. pose proof (age_hours_expired now timestamp Gn Gt A) as X.
      apply gtb_true in X. rewrite X. split; [reflexivity | apply lookup_delete_eq].
    + intros H A. destruct (age_hours_fresh now timestamp H A) as [F0 F1].
      pose proof F1 as X. apply gtb_false in X. rewrite X.
      exists (age_hours_at now timestamp). split; [reflexivity|].
      split; [split; assumption | apply age_hours_close; exact H].
  - unfold get_cached_results. rewrite E. reflexivity.
Qed.

(** X14.  An entry put in the cache by [cache_results] at the instant
    [stored_at] and looked up with the same arguments: the lookup returns
    the stored results with their age when the age it computes is at most
    24 hours, and returns [None] and deletes the entry when it is more. *)
Lemma stored_entry_lookup
    (cache : gmap string (Q * Payload)) (stored_at now : Q)
    (query business_type time_range user_id : string) (result_count : option Z)
    (results : Payload) (age : Q) :
  let key := _generate_cache_key query business_type time_range user_id result_count in
  let stored :=
    cache_results Payload cache stored_at query business_type time_range user_id
      (results, age) result_count in
  let lookup :=
    get_cached_results Payload stored now query business_type time_range user_id
      result_count in
  ((24 < age_hours_at now stored_at)%Q -> lookup = (None, delete key stored))
  /\ ((age_hours_at now stored_at <= 24)%Q ->
      lookup = (Some (results, age_hours_at now stored_at), stored)).
Proof.
  cbn zeta.
  assert (E : cache_results Payload cache stored_at query business_type time_range user_id
                (results, age) result_count
              !! _generate_cache_key query business_type time_range user_id result_count
              = Some (stored_at, results)).
  { unfold cache_results. apply lookup_insert_eq. }
  rewrite (get_cached_results_present _ _ _ _ _ _ _ _ _ E). split.
  - intros H. apply gtb_true in H. rewrite H. reflexivity.
  - intros H. apply gtb_false in H. rewrite H. reflexivity.
Qed.

(** X15.  The age returned for an entry that is not younger than zero is
    the exact age in hours up to two roundings: a relative error of at
    most [2^-51]. *)
Lemma age_hours_accurate (now timestamp : Q) :
  (timestamp <= now)%Q ->
  let exact := ((now - timestamp) / 3600)%Q in
  (0 <= age_hours_at now timestamp
   /\ - (exact * (1 # 2251799813685248) + 2 * eta)
      <= age_hours_at now timestamp - exact
      <= exact * (1 # 2251799813685248) + 2 * eta)%Q.
Proof.
  intros H. cbn zeta. unfold age_hours_at, fdiv, fsub. rewrite of_int_3600.
  unfold Qdiv. change (/ 3600)%Q with (1 # 3600)%Q.
  destruct (round64_err (now - timestamp)%Q ltac:(lra)) as [D0 [D1 D2]].
  set (d := round64 (now - timestamp)%Q) in *.
  assert (Q0 : (0 <= d * (1 # 3600))%Q) by lra.
  destruct (round64_err (d * (1 # 3600))%Q Q0) as [A0 [A1 A2]].
  set (a := round64 (d * (1 # 3600))%Q) in *.
  rewrite ulp_rel_val in *. pose proof (pow2_pos (-1075)) as He. fold eta in He.
  repeat split; lra.
Qed.

(** An entry is found again, at age zero, when it is looked up at the
    instant it was stored. *)
Lemma cache_store_then_lookup
    (cache : gmap string (Q * Payload)) (now : Q)
    (query business_type time_range user_id : string) (result_count : option Z)
    (results : Payload) (age : Q) :
  age_hours_at now now = 0%Q ->
  fst (get_cached_results Payload
         (cache_results Payload cache now query business_type time_range user_id
            (results, age) result_count)
         now query business_type time_range user_id result_count)
  = Some (results, 0%Q).
Proof.
  intros Hage. unfold get_cached_results, cache_results.
  rewrite lookup_insert_eq. rewrite Hage. reflexivity.
Qed.

(** C10.  The cache key is not injective.  The arguments
    [("a_b", "c", "all_time", "7", 5)] and [("a", "b_c", "all_time", "7", 5)]
    differ and have the same key, and so do
    [("q", "SaaS Companies", "all_time", "5_all_time_6", 10)] and
    [("q", "SaaS Companies_all_time_5", "all_time", "6", 10)], which differ
    in the caller; a payload stored under the first of each pair is
    returned by a lookup with the second. *)
Theorem cache_key_not_injective (cache : gmap string (Q * Payload)) (results : Payload) :
  (("a_b", "c") <> ("a", "b_c")
   /\ _generate_cache_key "a_b" "c" "all_time" "7" (Some 5)
      = _generate_cache_key "a" "b_c" "all_time" "7" (Some 5)
   /\ fst (get_cached_results Payload
             (cache_results Payload cache 0 "a_b" "c" "all_time" "7" (results, 0%Q) (Some 5))
             0 "a" "b_c" "all_time" "7" (Some 5))
      = Some (results, 0%Q))
  /\ ("5_all_time_6" <> "6"
      /\ _generate_cache_key "q" "SaaS Companies" "all_time" "5_all_time_6" (Some 10)
         = _generate_cache_key "q" "SaaS Companies_all_time_5" "all_time" "6" (Some 10)
      /\ fst (get_cached_results Payload
                (cache_results Payload cache 0 "q" "SaaS Companies" "all_time"
                   "5_all_time_6" (results, 0%Q) (Some 10))
                0 "q" "SaaS Companies_all_time_5" "all_time" "6" (Some 10))
         = Some (results, 0%Q)).
Proof.
  assert (K1 : _generate_cache_key "a_b" "c" "all_time" "7" (Some 5)
               = _generate_cache_key "a" "b_c" "all_time" "7" (Some 5))
    by (vm_compute; reflexivity).
  assert (K2 : _generate_cache_key "q" "SaaS Companies" "all_time" "5_all_time_6" (Some 10)
               = _generate_cache_key "q" "SaaS Companies_all_time_5" "all_time" "6" (Some 10))
    by (vm_compute; reflexivity).
  assert (A0 : age_hours_at 0 0 = 0%Q) by (vm_compute; reflexivity).
  split; (split; [discriminate|]); (split; [assumption|]).
  - unfold get_cached_results, cache_results. rewrite <- K1, lookup_insert_eq, A0. reflexivity.
  - unfold get_cached_results, cache_results. rewrite <- K2, lookup_insert_eq, A0. reflexivity.
Qed.

End CacheFacts.


(** The grid is needed: two binary64 instants off it, a rounding error
    more than a day apart, give a computed age of exactly 24 hours.  No
    reading of the clock since 2004 is off the grid. *)
Lemma age_hours_off_grid_edge :
  (24 < (86401 - (9007199254740991 # 9007199254740992)) / 3600)%Q
  /\ round64 (9007199254740991 # 9007199254740992)
     = (9007199254740991 # 9007199254740992)%Q
  /\ ResultCache.age_hours_at 86401 (9007199254740991 # 9007199254740992) = 24%Q.
Proof. repeat split; vm_compute; reflexivity. Qed.

(** C6 at an entry stored at 1700000000 seconds and looked up one hour
    and twenty-five hours later. *)
Lemma cache_lookup_ttl_witness :
  let cache : gmap string (Q * nat) := {[ "q_b_all_time_7_10" := (1700000000%Q, 5%nat) ]} in
  ResultCache.get_cached_results nat cache 1700090000 "q" "b" "all_time" "7" (Some 10)
  = (None, delete "q_b_all_time_7_10" cache)
  /\ exists age,
       ResultCache.get_cached_results nat cache 1700003600 "q" "b" "all_time" "7" (Some 10)
       = (Some (5%nat, age), cache)
       /\ (0 <= age <= 24)%Q.
Proof.
  intros cache.
  assert (K : ResultCache._generate_cache_key "q" "b" "all_time" "7" (Some 10)
              = "q_b_all_time_7_10") by (vm_compute; reflexivity).
  assert (G : forall n : Z, CacheSpec.on_clock_grid (inject_Z n)).
  { intros n. exists (n * 4194304)%Z. rewrite inject_Z_mult.
    change (inject_Z 4194304) with (4194304 # 1)%Q. field. }
  split.
  - pose proof (@cache_lookup_ttl nat cache 1700090000 "q" "b" "all_time" "7" (Some 10))
      as H.
    cbv zeta in H. rewrite K in H. unfold cache in H at 1.
    rewrite lookup_singleton_eq in H. destruct H as [H _].
    exact (proj1 (H (G 1700090000%Z) (G 1700000000%Z) ltac:(vm_compute; reflexivity))).
  - pose proof (@cache_lookup_ttl nat cache 1700003600 "q" "b" "all_time" "7" (Some 10))
      as H.
    cbv zeta in H. rewrite K in H. unfold cache in H at 1.
    rewrite lookup_singleton_eq in H. destruct H as [_ H].
    destruct (H ltac:(vm_compute; discriminate) ltac:(vm_compute; discriminate))
      as (age & L & B & _).
    exists age. split; [exact L | exact B].
Defined.
(** ** C7: a post that cannot be scored *)

Section Batch.

Import FastLeadFilter Scenario.

(** C7 fails on the code.  The post [help_post] alone passes the
    threshold and yields one lead.  In a batch with a second post whose content is [None]
    the scoring loop raises [AttributeError]; the loop has no handler, the
    handler of [filter_posts] takes over and the batch yields no lead at
    all. *)
Theorem scoring_exception_empties_batch
    (smart_summary : Lead -> string -> string)
    (str_to_int : string -> option Z) (str_to_float : string -> option Q) :
  length (fst (filter_posts default_ai_config smart_summary str_to_int str_to_float
                 [help_post] "getting clients" "SaaS Companies" None)) = 1%nat
  /\ _rule_based_filter default_ai_config [help_post; null_content_post]
       "getting clients" "SaaS Companies" None = Raise AttributeError
  /\ fst (filter_posts default_ai_config smart_summary str_to_int str_to_float
            [help_post; null_content_post] "getting clients" "SaaS Companies" None) = [].
Proof. repeat split; vm_compute; reflexivity. Qed.

(** The same happens, earlier, with a [None] title among the first five
    posts: the loop that logs the titles raises [TypeError]. *)
Lemma null_title_empties_batch
    (smart_summary : Lead -> string -> string)
    (str_to_int : string -> option Z) (str_to_float : string -> option Q) :
  _rule_based_filter default_ai_config [help_post; null_title_post]
    "getting clients" "SaaS Companies" None = Raise TypeError
  /\ fst (filter_posts default_ai_config smart_summary str_to_int str_to_float
            [help_post; null_title_post] "getting clients" "SaaS Companies" None) = [].
Proof. repeat split; vm_compute; reflexivity. Qed.

(** The stage that builds the leads does skip a post it cannot handle. *)
Lemma create_leads_skips_bad_post
    (str_to_int : string -> option Z) (str_to_float : string -> option Q) :
  length (_create_leads_from_posts str_to_int str_to_float
            [null_content_post; help_post] "getting clients" "SaaS Companies") = 1%nat.
Proof. vm_compute. reflexivity. Qed.

End Batch.

(** ** C8: validation comes first *)

Section Validation.

Import Leads Scenario.

Variable fetch_posts_from_multiple_subreddits :
  list string -> string -> Z -> string -> res (list Post).
Variable smart_summary : Lead -> string -> string.
Variable str_to_int : string -> option Z.
Variable str_to_float : string -> option Q.
Variable exn_text : exn -> string.

Lemma lstrip_all_space s : Spec.all_space s = true -> lstrip s = EmptyString.
Proof.
  induction s as [|c s IH]; cbn [Spec.all_space lstrip]; [reflexivity|].
  destruct (isspace c); cbn [andb]; [exact IH | discriminate].
Qed.

Lemma strip_all_space s : Spec.all_space s = true -> strip s = EmptyString.
Proof. intros H. unfold strip. rewrite (lstrip_all_space s H). reflexivity. Qed.

(** C8.  A request whose count is outside [1,150], or whose problem text
    is empty or whitespace, or that names neither a business nor an
    industry, is rejected with status 400 and the world is left exactly as
    it was: no user is queried, the cache is neither read nor written,
    nothing is fetched, the clock is not read. *)
Theorem validation_precedes_effects (request : LeadSearchRequest) (w : World) :
  result_count request < 1
  \/ 150 < result_count request
  \/ Spec.all_space (problem_description request) = true
  \/ (otruthy (business request) = false /\ otruthy (industry request) = false) ->
  exists detail,
    search_leads fetch_posts_from_multiple_subreddits smart_summary str_to_int
      str_to_float exn_text request w
    = (Raise (HTTPException 400 detail), w).
Proof.
  intros H. unfold search_leads.
  destruct (otruthy (business request)) eqn:B, (otruthy (industry request)) eqn:I;
    cbn [negb andb]; try (eexists; reflexivity).
  - destruct (truthy (strip (problem_description request))) eqn:P; cbn [negb];
      [|eexists; reflexivity].
    destruct ((result_count request <? 1) || (150 <? result_count request)) eqn:C;
      [eexists; reflexivity|].
    exfalso. apply orb_false_elim in C. destruct C as [C1 C2].
    apply Z.ltb_ge in C1, C2.
    destruct H as [H|[H|[H|[H1 H2]]]]; try lia; try congruence.
    rewrite (strip_all_space _ H) in P. discriminate.
  - destruct (truthy (strip (problem_description request))) eqn:P; cbn [negb];
      [|eexists; reflexivity].
    destruct ((result_count request <? 1) || (150 <? result_count request)) eqn:C;
      [eexists; reflexivity|].
    exfalso. apply orb_false_elim in C. destruct C as [C1 C2].
    apply Z.ltb_ge in C1, C2.
    destruct H as [H|[H|[H|[H1 H2]]]]; try lia; try congruence.
    rewrite (strip_all_space _ H) in P. discriminate.
Qed.

End Validation.

(** The theorem at a request for 200 results by a known account: it is
    rejected and the account, the cache and the trace are untouched. *)
Lemma validation_precedes_effects_witness :
  150 < Leads.result_count Scenario.request_200
  /\ exists detail,
       Scenario.run Scenario.request_200 Scenario.world0
       = (Raise (HTTPException 400 detail), Scenario.world0).
Proof.
  split; [vm_compute; reflexivity|].
  apply (validation_precedes_effects Scenario.fetch_one Scenario.plain_summary
           Scenario.no_int Scenario.no_float Scenario.exn_name
           Scenario.request_200 Scenario.world0).
  right. left. vm_compute. reflexivity.
Defined.

(** ** C5: what a completed request adds to the account *)

Section Commit.

Import Leads CostCalculator Scenario.

Variable fetch_posts_from_multiple_subreddits :
  list string -> string -> Z -> string -> res (list Post).
Variable smart_summary : Lead -> string -> string.
Variable str_to_int : string -> option Z.
Variable str_to_float : string -> option Q.
Variable exn_text : exn -> string.

Lemma bind_Ok {A B : Type} (c : M A) (k : A -> M B) (w w' : World) (b : B) :
  bind c k w = (Ok b, w') ->
  exists a w1, c w = (Ok a, w1) /\ k a w1 = (Ok b, w').
Proof.
  unfold bind. destruct (c w) as [[a|e] w1]; intros H; [eauto | discriminate].
Qed.

Lemma cache_lookup_users query business_type time_range caller count w r w' :
  cache_lookup query business_type time_range caller count w = (r, w') ->
  users w' = users w.
Proof.
  unfold cache_lookup. cbn zeta.
  destruct (cache (log_event w _) !! _) as [entry|].
  - destruct (ResultCache.get_cached_results _ _ _ _ _ _ _ _) as [found cache'].
    intros [= _ <-]. reflexivity.
  - intros [= _ <-]. reflexivity.
Qed.

Lemma cached_or_fresh_users request business_type subreddits posts_needed ai_config
    w r w' :
  cached_or_fresh fetch_posts_from_multiple_subreddits smart_summary str_to_int
    str_to_float request business_type subreddits posts_needed ai_config w = (r, w') ->
  users w' = users w.
Proof.
  unfold cached_or_fresh, mbind, M_bind, bind.
  destruct (cache_lookup _ _ _ _ _ w) as [[cached|e] w1] eqn:L;
    pose proof (cache_lookup_users _ _ _ _ _ _ _ _ L) as U1.
  - destruct cached as [[leads age]|].
    + intros [= _ <-]. exact U1.
    + destruct subreddits as [|s0 ss]; [intros [= _ <-]; exact U1|].
      unfold fetch.
      destruct (fetch_posts_from_multiple_subreddits _ _ _ _) as [posts|e].
      * destruct (FastLeadFilter.filter_posts _ _ _ _ _ _ _ _) as [leads fm].
        unfold cache_store, ret. intros [= _ <-]. exact U1.
      * intros [= _ <-]. exact U1.
  - intros [= _ <-]. exact U1.
Qed.

Lemma record_search_metrics_users request business_type a b c d cost model_used ms
    w r w' :
  record_search_metrics request business_type a b c d cost model_used ms w = (r, w') ->
  users w' = users w.
Proof.
  unfold record_search_metrics, add_search_metrics, ret. cbv zeta.
  destruct (otruthy (user_id request) && str_isdigit (oget (user_id request))).
  - destruct (py_int (oget (user_id request))); cbn [option_map];
      intros [= _ <-]; reflexivity.
  - intros [= _ <-]. reflexivity.
Qed.

(** The usage update of an identified caller. *)
Lemma commit_usage_identified request posts_needed remaining w id u :
  otruthy (user_id request) = true ->
  py_int (oget (user_id request)) = Some id ->
  users w !! id = Some u ->
  exists out w',
    commit_usage request posts_needed remaining w = (Ok out, w')
    /\ users w' !! id
       = Some {| User.results_used := User.results_used u + result_count request;
                 User.posts_analyzed := User.posts_analyzed u + posts_needed;
                 User.total_tokens_used := User.total_tokens_used u + 0;
                 User.total_cost := fadd (User.total_cost u) 0 |}.
Proof.
  intros T P L. unfold commit_usage. rewrite T, P.
  unfold mbind, M_bind, bind, query_user. cbn [users log_event with_events].
  rewrite L. unfold commit_user, ret.
  eexists _, _. split; [reflexivity|].
  cbn [users with_users]. apply lookup_insert_eq.
Qed.

(** C5.  When a request of an identified account completes, its count lies
    in [1,150], and the account's [results_used] has grown by the requested
    count and its [posts_analyzed] by fifteen times the requested count -
    whatever the number of leads returned, on a cache hit and on a cache
    miss alike. *)
Theorem commit_adds_requested_count
    (request : LeadSearchRequest) (w w' : World) (response : LeadSearchResponse)
    (id : Z) (u : User.t) :
  search_leads fetch_posts_from_multiple_subreddits smart_summary str_to_int
    str_to_float exn_text request w = (Ok response, w') ->
  otruthy (user_id request) = true ->
  py_int (oget (user_id request)) = Some id ->
  users w !! id = Some u ->
  1 <= result_count request <= 150
  /\ exists u',
       users w' !! id = Some u'
       /\ User.results_used u' = User.results_used u + result_count request
       /\ User.posts_analyzed u' = User.posts_analyzed u + result_count request * 15.
Proof.
  intros Run T P L. unfold search_leads in Run.
  destruct (negb (otruthy (business request)) && negb (otruthy (industry request)));
    [discriminate|].
  destruct (otruthy (business request) && otruthy (industry request)); [discriminate|].
  destruct (negb (truthy (strip (problem_description request)))); [discriminate|].
  destruct ((result_count request <? 1) || (150 <? result_count request)) eqn:C;
    [discriminate|].
  apply orb_false_elim in C. destruct C as [C1 C2]. apply Z.ltb_ge in C1, C2.
  split; [lia|].
  unfold mbind, M_bind in Run. apply bind_Ok in Run.
  destruct Run as (remaining & w1 & Chk & Run).
  assert (U1 : users w1 = users w).
  { revert Chk. unfold check_usage. rewrite T, P.
    unfold mbind, M_bind, bind, query_user. cbn [users log_event with_events].
    rewrite L.
    destruct (validate_user_limits _ _ _) as [[[[valid msg] pn] rr] rp].
    destruct valid; [intros [= _ <-]; reflexivity | discriminate]. }
  unfold internal_error_on_raise in Run.
  destruct (search_body _ _ _ _ _ _ _ w1) as [[resp|e] w2] eqn:Body; [|discriminate].
  injection Run as -> ->.
  unfold search_body, mbind, M_bind in Body.
  apply bind_Ok in Body. destruct Body as (cfg & wa & Ha & Body).
  unfold get_config in Ha. injection Ha as <- <-.
  apply bind_Ok in Body. destruct Body as (found & wb & Hb & Body).
  apply cached_or_fresh_users in Hb.
  destruct found as [[[leads age] [[[tokens cost] model] analyzed]] scraped].
  apply bind_Ok in Body. destruct Body as (t0 & wc & Hc & Body).
  unfold time_time in Hc. injection Hc as <- <-.
  apply bind_Ok in Body. destruct Body as ([rr rp] & wd & Hd & Body).
  destruct (commit_usage_identified request (get_posts_to_scrape (result_count request))
              remaining (with_ticks wb (S (ticks wb))) id u T P)
    as (out & wd' & Hd' & Hu).
  { cbn [users with_ticks]. rewrite Hb, U1. exact L. }
  rewrite Hd' in Hd. injection Hd as _ <-.
  apply bind_Ok in Body. destruct Body as (t1 & we & He & Body).
  unfold time_time in He. injection He as <- <-.
  apply bind_Ok in Body. destruct Body as (tt' & wf & Hf & Body).
  apply record_search_metrics_users in Hf.
  apply bind_Ok in Body. destruct Body as (t2 & wg & Hg & Body).
  unfold time_time in Hg. injection Hg as <- <-.
  unfold ret in Body. injection Body as _ <-.
  eexists. split.
  - cbn [users with_ticks]. rewrite Hf. cbn [users with_ticks]. exact Hu.
  - cbn [User.results_used User.posts_analyzed]. unfold get_posts_to_scrape. split; reflexivity.
Qed.

End Commit.

(** The theorem at two successive requests for 10 results by account 7,
    each of which returns a single lead: the first misses the cache and
    takes the account from 20 to 30 results, the second hits it and takes
    the account from 30 to 40. *)
Lemma commit_adds_requested_count_witness :
  (exists u',
     Leads.users Scenario.world1 !! 7 = Some u'
     /\ User.results_used u' = 20 + 10 /\ User.posts_analyzed u' = 300 + 10 * 15)
  /\ (exists u',
        Leads.users (snd (Scenario.run Scenario.request_10 Scenario.world1)) !! 7 = Some u'
        /\ User.results_used u' = 30 + 10 /\ User.posts_analyzed u' = 450 + 10 * 15).
Proof.
  split.
  - destruct (Scenario.run Scenario.request_10 Scenario.world0) as [[resp|e] w1] eqn:R.
    + replace Scenario.world1 with w1 by (unfold Scenario.world1; rewrite R; reflexivity).
      exact (proj2 (commit_adds_requested_count Scenario.fetch_one Scenario.plain_summary
                      Scenario.no_int Scenario.no_float Scenario.exn_name
                      Scenario.request_10 Scenario.world0 w1 resp 7
                      {| User.results_used := 20; User.posts_analyzed := 300;
                         User.total_tokens_used := 0; User.total_cost := 0 |}
                      R ltac:(vm_compute; reflexivity) ltac:(vm_compute; reflexivity)
                      ltac:(vm_compute; reflexivity))).
    + exfalso.
      assert (H : match fst (Scenario.run Scenario.request_10 Scenario.world0) with
                  | Ok _ => True
                  | Raise _ => False
                  end) by (vm_compute; exact I).
      rewrite R in H. exact H.
  - destruct (Scenario.run Scenario.request_10 Scenario.world1) as [[resp|e] w2] eqn:R.
    + exact (proj2 (commit_adds_requested_count Scenario.fetch_one Scenario.plain_summary
                      Scenario.no_int Scenario.no_float Scenario.exn_name
                      Scenario.request_10 Scenario.world1 w2 resp 7
                      {| User.results_used := 30; User.posts_analyzed := 450;
                         User.total_tokens_used := 0; User.total_cost := 0 |}
                      R ltac:(vm_compute; reflexivity) ltac:(vm_compute; reflexivity)
                      ltac:(vm_compute; reflexivity))).
    + exfalso.
      assert (H : match fst (Scenario.run Scenario.request_10 Scenario.world1) with
                  | Ok _ => True
                  | Raise _ => False
                  end) by (vm_compute; exact I).
      rewrite R in H. exact H.
Defined.

(** Both requests return one lead; the second is served from the cache,
    without a fetch. *)
Lemma witness_runs_return_one_lead :
  (match fst (Scenario.run Scenario.request_10 Scenario.world0) with
   | Ok r => length (Leads.leads r) = 1%nat
   | Raise _ => False
   end)
  /\ (match Scenario.run Scenario.request_10 Scenario.world1 with
      | (Ok r, w) =>
          length (Leads.leads r) = 1%nat
          /\ Leads.model_used (Leads.search_metrics r) = "cached"
          /\ Leads.events w
             = Leads.events Scenario.world1
               ++ [Leads.QueryUser 7;
                   Leads.CacheLookup "getting clients_SaaS Companies_all_time_7_10";
                   Leads.QueryUser 7; Leads.CommitUser 7; Leads.AddSearchMetrics]
      | (Raise _, _) => False
      end).
Proof. split; vm_compute; repeat split; reflexivity. Qed.
(** ** Substrings *)

Section Substrings.

(** [+:+] is kept folded by [simpl]; its two equations are stated here. *)
Lemma append_nil_l (b : string) : EmptyString +:+ b = b.
Proof. reflexivity. Qed.

Lemma append_cons (x : ascii) (a b : string) : String x a +:+ b = String x (a +:+ b).
Proof. reflexivity. Qed.

Lemma append_assoc (a b c : string) : (a +:+ b) +:+ c = a +:+ (b +:+ c).
Proof.
  induction a as [|x a IH]; [reflexivity|]. rewrite !append_cons, IH. reflexivity.
Qed.

Lemma append_nil_r (a : string) : a +:+ EmptyString = a.
Proof.
  induction a as [|x a IH]; [reflexivity|]. rewrite append_cons, IH. reflexivity.
Qed.

Lemma length_append (a b : string) :
  String.length (a +:+ b) = (String.length a + String.length b)%nat.
Proof.
  induction a as [|x a IH]; [reflexivity|].
  rewrite append_cons. cbn [String.length]. rewrite IH. reflexivity.
Qed.

Lemma startswith_iff (p s : string) :
  startswith p s = true <-> exists b, s = p +:+ b.
Proof.
  revert s. induction p as [|x p IH]; intros s; cbn [startswith].
  - split; [intros _; exists s; reflexivity | reflexivity].
  - destruct s as [|y s]; [split; [discriminate | intros [b Hb]; discriminate]|].
    rewrite andb_true_iff, Ascii.eqb_eq, IH. split.
    + intros [-> [b ->]]. exists b. reflexivity.
    + intros [b Hb]. rewrite append_cons in Hb. injection Hb as -> ->.
      split; [reflexivity | eauto].
Qed.

(** [p in s] holds exactly when [s] is [a + p + b] for some [a] and [b]. *)
Lemma str_in_iff (p s : string) :
  str_in p s = true <-> exists a b, s = a +:+ (p +:+ b).
Proof.
  induction s as [|y s IH]; cbn [str_in]; rewrite orb_true_iff, startswith_iff.
  - split.
    + intros [[b Hb]|H]; [exists EmptyString, b; exact Hb | discriminate].
    + intros [a [b H]]. left. destruct a; [exists b; exact H | discriminate].
  - rewrite IH. split.
    + intros [[b Hb]|[a [b H]]].
      * exists EmptyString, b. exact Hb.
      * exists (String y a), b. rewrite append_cons, H. reflexivity.
    + intros [a [b H]]. destruct a as [|x a].
      * left. exists b. exact H.
      * right. rewrite append_cons in H. injection H as _ ->. eauto.
Qed.

Lemma str_in_embed (p pre s post : string) :
  str_in p s = true -> str_in p (pre +:+ (s +:+ post)) = true.
Proof.
  rewrite !str_in_iff. intros [a [b ->]].
  exists (pre +:+ a), (b +:+ post). rewrite !append_assoc. reflexivity.
Qed.

Lemma str_in_trans (p q s : string) :
  str_in p q = true -> str_in q s = true -> str_in p s = true.
Proof.
  rewrite (str_in_iff q s). intros H [a [b ->]]. apply str_in_embed. exact H.
Qed.

Lemma str_in_refl (s : string) : str_in s s = true.
Proof.
  apply str_in_iff. exists EmptyString, EmptyString.
  rewrite append_nil_l, append_nil_r. reflexivity.
Qed.

End Substrings.

(** ** More on the keyword-match score *)

Section KeywordMatchMore.

Import Spec.

Local Open Scope Z_scope.

Lemma phrases_matched_mono (phrases : list string) (t t' : string) :
  (forall p, In p phrases -> str_in p t = true -> str_in p t' = true) ->
  phrases_matched phrases t <= phrases_matched phrases t'.
Proof.
  induction phrases as [|p phrases IH]; intros H; [reflexivity|].
  rewrite !phrases_matched_cons.
  assert (IH' : phrases_matched phrases t <= phrases_matched phrases t').
  { apply IH. intros q Hq. apply H. right. exact Hq. }
  specialize (H p (or_introl eq_refl)). unfold flag.
  destruct (str_in p t); [rewrite (H eq_refl)|destruct (str_in p t')]; lia.
Qed.

(** The score as a function of the number of keywords found. *)
Lemma percent_mono (m m' n : Z) :
  0 <= m <= m' -> 0 < n ->
  PyFloat.trunc (fmul (int_div m n) (of_int 100))
  <= PyFloat.trunc (fmul (int_div m' n) (of_int 100)).
Proof.
  intros Hm Hn. rewrite of_int_100. unfold fmul, int_div.
  assert (Nq : (0 < inject_Z n)%Q) by (change 0%Q with (inject_Z 0); rewrite <- Zlt_Qlt; lia).
  assert (Mq : (0 <= inject_Z m)%Q) by (change 0%Q with (inject_Z 0); rewrite <- Zle_Qle; lia).
  assert (MM : (inject_Z m <= inject_Z m')%Q) by (rewrite <- Zle_Qle; lia).
  assert (X0 : (0 <= inject_Z m / inject_Z n)%Q).
  { apply Qle_shift_div_l; [exact Nq | lra]. }
  assert (XX : (inject_Z m / inject_Z n <= inject_Z m' / inject_Z n)%Q).
  { apply Qle_shift_div_l; [exact Nq|]. unfold Qdiv. rewrite <- Qmult_assoc.
    rewrite (Qmult_comm (/ inject_Z n)), Qmult_inv_r by lra. lra. }
  pose proof (round64_mono _ _ X0 XX) as A.
  destruct (round64_err _ X0) as [A0 _].
  apply trunc_mono.
  - apply round64_err. lra.
  - apply round64_mono; lra.
Qed.

(** X1.  Embedding the post text in a longer text - adding words before or
    after it - never lowers the keyword-match score. *)
Theorem keyword_match_monotone (pre post_text post : string) (keywords : list string) :
  _calculate_keyword_match post_text keywords
  <= _calculate_keyword_match (pre +:+ (post_text +:+ post)) keywords.
Proof.
  destruct keywords as [|k0 ks] eqn:E; [reflexivity|]. rewrite <- E.
  assert (Hne : keywords <> []) by (rewrite E; discriminate).
  rewrite !(keyword_match_nonempty _ _ Hne), !count_matches_counts.
  apply Z.min_le_compat_l. apply percent_mono.
  - split; [apply phrases_matched_bounds|].
    apply phrases_matched_mono. intros p _. apply str_in_embed.
  - rewrite E. cbn [length]. lia.
Qed.

(** A text that contains every supplied keyword scores 100. *)
Lemma keyword_match_all_found (post_text : string) (keywords : list string) :
  keywords <> [] ->
  (forall k, In k keywords -> str_in k post_text = true) ->
  _calculate_keyword_match post_text keywords = 100.
Proof.
  intros Hne Hall. rewrite (keyword_match_nonempty _ _ Hne), count_matches_counts.
  assert (M : phrases_matched keywords post_text = Z.of_nat (length keywords)).
  { unfold phrases_matched. f_equal. f_equal.
    clear Hne. induction keywords as [|k ks IH]; [reflexivity|]. cbn [List.filter].
    rewrite (Hall k (or_introl eq_refl)). f_equal. apply IH.
    intros q Hq. apply Hall. right. exact Hq. }
  rewrite M. set (n := Z.of_nat (length keywords)).
  assert (Hn : 0 < n) by (unfold n; destruct keywords; [congruence | cbn [length]; lia]).
  assert (D : int_div n n = 1%Q).
  { unfold int_div.
    assert (E : (inject_Z n / inject_Z n == 1)%Q).
    { apply Qmult_inv_r. change 0%Q with (inject_Z 0). rewrite inject_Z_injective. lia. }
    rewrite (round64_Qeq _ 1%Q); [vm_compute; reflexivity | lra | exact E]. }
  rewrite D. vm_compute. reflexivity.
Qed.

End KeywordMatchMore.

(** ** The keywords extracted from a problem description *)

Section ExtractKeywords.

Local Open Scope Z_scope.

Lemma lower_append (a b : string) : lower (a +:+ b) = lower a +:+ lower b.
Proof.
  induction a as [|x a IH]; [reflexivity|].
  rewrite append_cons. cbn [lower]. rewrite IH, append_cons. reflexivity.
Qed.

Lemma lower_char_idempotent (c : ascii) : lower_char (lower_char c) = lower_char c.
Proof. destruct c as [[] [] [] [] [] [] [] []]; vm_compute; reflexivity. Qed.

Lemma lower_idempotent (s : string) : lower (lower s) = lower s.
Proof.
  induction s as [|c s IH]; [reflexivity|].
  cbn [lower]. rewrite lower_char_idempotent, IH. reflexivity.
Qed.

Lemma append_inv_lower (a b c : string) :
  lower c = a +:+ b -> lower a = a /\ lower b = b.
Proof.
  revert c. induction a as [|x a IH]; intros c H.
  - rewrite append_nil_l in H. subst b. split; [reflexivity | apply lower_idempotent].
  - rewrite append_cons in H. destruct c as [|y c]; [discriminate|].
    cbn [lower] in H. injection H as Hx H. destruct (IH _ H) as [Ha Hb].
    split; [|exact Hb]. cbn [lower]. rewrite Ha, <- Hx, lower_char_idempotent. reflexivity.
Qed.

(** A part of a lower-cased text is lower-cased. *)
Lemma lower_substring (k s : string) : str_in k (lower s) = true -> lower k = k.
Proof.
  rewrite str_in_iff. intros [a [b H]].
  apply append_inv_lower in H. destruct H as [_ H].
  assert (H' : lower (k +:+ b) = k +:+ b) by exact H.
  rewrite lower_append in H'.
  clear H. revert H'. generalize (lower b). intros lb H.
  revert lb b H. induction k as [|x k IH]; intros lb b H; [reflexivity|].
  cbn [lower] in *. rewrite !append_cons in H. injection H as Hx H.
  rewrite Hx. f_equal. eapply IH. exact H.
Qed.

(** Every run produced by the scanner is a part of the scanned text. *)
Lemma runs_aux_substring (keep : ascii -> bool) (s cur w : string) :
  In w (runs_aux keep cur s) -> exists pre post, cur +:+ s = pre +:+ (w +:+ post).
Proof.
  revert cur. induction s as [|c s IH]; intros cur H; cbn [runs_aux] in H.
  - destruct cur as [|x cur]; [contradiction|].
    destruct H as [<-|[]]. exists EmptyString, EmptyString.
    rewrite append_nil_l. reflexivity.
  - destruct (keep c).
    + destruct (IH _ H) as (pre & post & E). exists pre, post.
      rewrite <- E, append_assoc. reflexivity.
    + assert (T : In w (runs_aux keep EmptyString s) ->
                  exists pre post, cur +:+ String c s = pre +:+ (w +:+ post)).
      { intros Hw. destruct (IH _ Hw) as (pre & post & E).
        rewrite append_nil_l in E.
        exists (cur +:+ String c pre), post.
        rewrite append_assoc, append_cons, E. reflexivity. }
      destruct cur as [|x cur]; [exact (T H)|].
      destruct H as [<-|H]; [|exact (T H)].
      exists EmptyString, (String c s). rewrite append_nil_l. reflexivity.
Qed.

Lemma findall_words_substring (s w : string) :
  In w (findall_words s) -> str_in w s = true.
Proof.
  intros H. apply runs_aux_substring in H. rewrite append_nil_l in H.
  apply str_in_iff. exact H.
Qed.

Lemma In_dedup (l : list string) (x : string) : In x (dedup l) <-> In x l.
Proof.
  induction l as [|y l IH]; [reflexivity|]. cbn [dedup In].
  rewrite List.filter_In, IH, negb_true_iff, String.eqb_neq.
  destruct (String.eqb_spec y x) as [E|N]; [tauto|]. tauto.
Qed.

Lemma NoDup_dedup (l : list string) : List.NoDup (dedup l).
Proof.
  induction l as [|y l IH]; cbn [dedup]; constructor.
  - rewrite List.filter_In, negb_true_iff, String.eqb_neq. tauto.
  - apply List.NoDup_filter. exact IH.
Qed.

Lemma extracted_keyword_facts (text k : string) :
  In k (_extract_keywords text) ->
  2 < len k
  /\ existsb (String.eqb k) stopwords = false
  /\ lower k = k
  /\ str_in k (lower text) = true.
Proof.
  unfold _extract_keywords.
  intros Hk. apply (proj1 (In_dedup _ _)) in Hk. apply List.filter_In in Hk.
  destruct Hk as [Hw Hc]. apply andb_true_iff in Hc. destruct Hc as [Hs Hl].
  apply negb_true_iff in Hs. apply Z.ltb_lt in Hl.
  pose proof (findall_words_substring _ _ Hw) as Hin.
  repeat split; try assumption. eapply lower_substring. exact Hin.
Qed.

(** X2.  The keywords extracted from a text are pairwise distinct; each of them
    is longer than two characters, is not a stop word, is lower-cased and
    occurs in the lower-cased text. *)
Theorem extracted_keywords_invariant (text : string) :
  List.NoDup (_extract_keywords text)
  /\ Forall (fun k =>
               2 < len k
               /\ existsb (String.eqb k) stopwords = false
               /\ lower k = k
               /\ str_in k (lower text) = true)
       (_extract_keywords text).
Proof.
  split; [unfold _extract_keywords; apply NoDup_dedup|].
  apply List.Forall_forall. intros k Hk. apply extracted_keyword_facts. exact Hk.
Qed.

(** X3.  A post text that contains the lower-cased problem description scores
    100 against the keywords extracted from that description. *)
Theorem own_keywords_score_100 (problem post_text : string) :
  _extract_keywords problem <> [] ->
  str_in (lower problem) post_text = true ->
  _calculate_keyword_match post_text (_extract_keywords problem) = 100.
Proof.
  intros Hne Hin. apply keyword_match_all_found; [exact Hne|].
  intros k Hk. destruct (extracted_keyword_facts problem k Hk) as (_ & _ & _ & Hs).
  eapply str_in_trans; eauto.
Qed.

Lemma own_keywords_score_100_witness :
  _extract_keywords "Getting clients" <> []
  /\ str_in (lower "Getting clients") "help with getting clients please" = true
  /\ _calculate_keyword_match "help with getting clients please"
       (_extract_keywords "Getting clients") = 100.
Proof.
  assert (H1 : _extract_keywords "Getting clients" <> []) by (vm_compute; discriminate).
  assert (H2 : str_in (lower "Getting clients") "help with getting clients please" = true)
    by (vm_compute; reflexivity).
  split; [exact H1|]. split; [exact H2|].
  exact (own_keywords_score_100 "Getting clients" "help with getting clients please" H1 H2).
Defined.

End ExtractKeywords.

(** ** The legacy mode and the urgency level *)

Section LegacyScores.

Import Spec.

Local Open Scope Z_scope.

(** X4.  In the legacy mode the struggle score is
    [min(100, 20*H + 10*M + 15*q)] for [H] high-urgency and [M]
    medium-urgency indicators found and [q] the presence of a question
    mark, and the business relevance is [min(100, 5*B)] for [B] generic
    business keywords found, whatever category is selected. *)
Theorem legacy_scores_closed_form
    (post_text : string) (business_type industry_type : option string) :
  _calculate_struggle_detection false post_text
  = Z.min 100 (20 * phrases_matched (indicators "high_urgency") post_text
               + 10 * phrases_matched (indicators "medium_urgency") post_text
               + 15 * flag (str_in "?" post_text))
  /\ _calculate_business_relevance false post_text business_type industry_type
     = Z.min 100 (5 * phrases_matched (indicators "business_keywords") post_text).
Proof.
  unfold _calculate_struggle_detection, _calculate_business_relevance. cbn [negb].
  rewrite !scan_counts. unfold flag.
  split; [destruct (str_in "?" post_text)|]; f_equal; lia.
Qed.

(** X5.  The urgency level and the legacy struggle score agree: a post of high
    urgency scores at least 40, one of medium urgency at least 20, one of
    low urgency at most 25. *)
Theorem urgency_bounds_legacy_struggle (post_text : string) :
  match _determine_urgency_level post_text with
  | High => 40 <= _calculate_struggle_detection false post_text
  | Medium => 20 <= _calculate_struggle_detection false post_text
  | Low => _calculate_struggle_detection false post_text <= 25
  end.
Proof.
  unfold _determine_urgency_level, _calculate_struggle_detection. cbn [negb].
  rewrite !scan_counts, !count_matches_counts.
  pose proof (phrases_matched_bounds (indicators "high_urgency") post_text) as [H0 _].
  pose proof (phrases_matched_bounds (indicators "medium_urgency") post_text) as [M0 _].
  destruct (2 <=? phrases_matched (indicators "high_urgency") post_text) eqn:E2.
  - apply Z.leb_le in E2. destruct (str_in "?" post_text); lia.
  - apply Z.leb_gt in E2.
    destruct ((1 <=? phrases_matched (indicators "high_urgency") post_text)
              || (2 <=? phrases_matched (indicators "medium_urgency") post_text)) eqn:E1.
    + apply orb_true_iff in E1. rewrite !Z.leb_le in E1.
      destruct (str_in "?" post_text); lia.
    + apply orb_false_iff in E1. rewrite !Z.leb_gt in E1.
      destruct (str_in "?" post_text); lia.
Qed.

End LegacyScores.

(** ** A post without title and text *)

Section EmptyPost.

Import Spec.

Local Open Scope Z_scope.

Lemma phrases_matched_none (phrases : list string) (text : string) :
  (forall k, In k phrases -> str_in k text = false) -> phrases_matched phrases text = 0.
Proof.
  induction phrases as [|p phrases IH]; intros H; [reflexivity|].
  rewrite phrases_matched_cons, (H p (or_introl eq_refl)), IH; [reflexivity|].
  intros k Hk. apply H. right. exact Hk.
Qed.

Lemma percent_of_zero (n : Z) :
  0 < n -> PyFloat.trunc (fmul (int_div 0 n) (of_int 100)) = 0.
Proof.
  intros Hn. unfold int_div. rewrite (round64_zero (inject_Z 0 / inject_Z n)).
  - vm_compute. reflexivity.
  - unfold Qdiv. change (inject_Z 0) with 0%Q. ring.
Qed.

(** No catalog keyword occurs in a single blank, and the conflict penalty
    is never negative; so the relevance of the blank text is 0 for every
    selection. *)
Lemma blank_text_relevance_scores :
  Forall (fun kws => calculate_business_relevance_score " " kws = 0)
         (map snd (BUSINESS_KEYWORDS ++ INDUSTRY_KEYWORDS)).
Proof. repeat constructor. Qed.

Lemma blank_text_business_relevance improved business_type industry_type :
  _calculate_business_relevance improved " " business_type industry_type = 0.
Proof.
  destruct improved; [|vm_compute; reflexivity].
  unfold _calculate_business_relevance. cbn [negb].
  destruct (negb (otruthy business_type) && negb (otruthy industry_type)); [reflexivity|].
  destruct (get_keywords_for_selection business_type industry_type) as [|k0 ks] eqn:E;
    [reflexivity|].
  assert (Hne : get_keywords_for_selection business_type industry_type <> [])
    by (rewrite E; discriminate).
  rewrite <- E, (conflict_penalty_counts _ _ _ Hne).
  assert (S0 : calculate_business_relevance_score
                 " " (get_keywords_for_selection business_type industry_type) = 0).
  { pose proof blank_text_relevance_scores as F. rewrite List.Forall_forall in F.
    apply F. rewrite List.map_app, List.in_app_iff. revert Hne.
    unfold get_keywords_for_selection, get_keywords_for_business,
      get_keywords_for_industry.
    destruct (otruthy business_type).
    - destruct (dict_get BUSINESS_KEYWORDS (oget business_type)) eqn:G; [|congruence].
      intros _. left. eapply dict_get_In; eauto.
    - destruct (otruthy industry_type); [|congruence].
      destruct (dict_get INDUSTRY_KEYWORDS (oget industry_type)) eqn:G; [|congruence].
      intros _. right. eapply dict_get_In; eauto. }
  rewrite S0. unfold conflicts. lia.
Qed.

(** X6.  A post whose ["title"] and ["text"] are each absent or empty
    gets the all-zero breakdown with urgency [Low], in both modes and for
    every category, as long as no supplied keyword occurs in a single
    blank (the text built from the two fields).  The other fields of the
    post play no part: the function reads ["text"], so a post that
    carries its body under ["content"] is scored as empty. *)
Theorem empty_post_scores_zero
    (use_improved_scoring : bool) (float_repr : Q -> string) (post : Post)
    (keywords : list string) (business_type industry_type : option string) :
  post_get post "title" (PyStr "") = PyStr "" ->
  post_get post "text" (PyStr "") = PyStr "" ->
  (forall k, In k keywords -> str_in k " " = false) ->
  analyze_post_relevance use_improved_scoring float_repr post keywords
    business_type industry_type
  = {| overall_score := 0; keyword_match := 0; struggle_detection := 0;
       business_relevance := 0; AIEnhancer.urgency_level := Low |}.
Proof.
  intros Ht Hx H. unfold analyze_post_relevance. rewrite Ht, Hx.
  change (lower (format_value float_repr (PyStr "")
                 +:+ " " +:+ format_value float_repr (PyStr "")))
    with " ".
  rewrite blank_text_business_relevance.
  assert (K : _calculate_keyword_match " " keywords = 0).
  { destruct keywords as [|k0 ks] eqn:E; [reflexivity|]. rewrite <- E in *.
    assert (Hne : keywords <> []) by (rewrite E; discriminate).
    rewrite (keyword_match_nonempty _ _ Hne), count_matches_counts.
    rewrite (phrases_matched_none _ _ H), percent_of_zero; [reflexivity|].
    rewrite E. cbn [length]. lia. }
  rewrite K.
  assert (S0 : _calculate_struggle_detection use_improved_scoring " " = 0)
    by (destruct use_improved_scoring; vm_compute; reflexivity).
  rewrite S0.
  assert (B0 : blend use_improved_scoring 0 0 0 = 0)
    by (destruct use_improved_scoring; vm_compute; reflexivity).
  rewrite B0. f_equal.
Qed.

(** A post asking for help under ["content"], with an empty title. *)
Lemma empty_post_scores_zero_witness :
  (forall k, In k ["customer"; "acquisition"] -> str_in k " " = false)
  /\ analyze_post_relevance true (fun _ => EmptyString)
       [("title", PyStr ""); ("content", PyStr "i need help with customer acquisition?")]
       ["customer"; "acquisition"] (Some "SaaS Companies") None
     = {| overall_score := 0; keyword_match := 0; struggle_detection := 0;
          business_relevance := 0; AIEnhancer.urgency_level := Low |}.
Proof.
  assert (H : forall k, In k ["customer"; "acquisition"] -> str_in k " " = false).
  { intros k [<-|[<-|[]]]; vm_compute; reflexivity. }
  split; [exact H|].
  exact (empty_post_scores_zero true (fun _ => EmptyString)
           [("title", PyStr ""); ("content", PyStr "i need help with customer acquisition?")]
           ["customer"; "acquisition"] (Some "SaaS Companies") None
           eq_refl eq_refl H).
Defined.

End EmptyPost.

(** ** More on the quota check *)

Section QuotaMore.

Import CostCalculator CostEstimate.

Local Open Scope Z_scope.

(** X7.  An accepted request leaves room: the figures reported are the caps
    minus the usage after the request, neither of them negative, and the
    posts needed are fifteen times the requested results. *)
Theorem accepted_request_fits
    (user_results_used user_posts_analyzed requested_results : Z) :
  let '(is_valid, error_message, posts_needed, remaining_results, remaining_posts) :=
    validate_user_limits user_results_used user_posts_analyzed requested_results in
  is_valid = true ->
  error_message = "Valid request"
  /\ remaining_results = 150 - (user_results_used + requested_results)
  /\ remaining_posts = 2250 - (user_posts_analyzed + posts_needed)
  /\ posts_needed = 15 * requested_results
  /\ 0 <= remaining_results
  /\ 0 <= remaining_posts.
Proof.
  unfold validate_user_limits, get_posts_to_scrape.
  destruct (150 <? user_results_used + requested_results) eqn:E1; [discriminate|].
  destruct (2250 <? user_posts_analyzed + requested_results * 15) eqn:E2; [discriminate|].
  apply Z.ltb_ge in E1, E2. intros _. repeat split; lia.
Qed.

(** X8.  For an account whose posts analyzed are fifteen times its results
    used - the ratio every commit of the search route keeps - the check on
    posts never decides: a request is refused exactly when the results
    would exceed 150, always with the message of the results limit, and
    the posts reported remaining are fifteen times the results remaining. *)
Theorem ratio_makes_posts_check_redundant (user_results_used requested_results : Z) :
  let '(is_valid, error_message, posts_needed, remaining_results, remaining_posts) :=
    validate_user_limits user_results_used (15 * user_results_used) requested_results in
  (is_valid = false <-> 150 < user_results_used + requested_results)
  /\ (is_valid = false ->
      error_message
      = "Request would exceed beta limit. You have "
          +:+ str_of_int (150 - user_results_used)
          +:+ " results remaining, but requested " +:+ str_of_int requested_results)
  /\ remaining_posts = 15 * remaining_results.
Proof.
  unfold validate_user_limits, get_posts_to_scrape.
  destruct (150 <? user_results_used + requested_results) eqn:E1.
  - apply Z.ltb_lt in E1. repeat split; intros; try lia; reflexivity.
  - apply Z.ltb_ge in E1.
    destruct (2250 <? 15 * user_results_used + requested_results * 15) eqn:E2.
    + apply Z.ltb_lt in E2. lia.
    + repeat split; intros; try discriminate; try lia.
Qed.

Lemma literal_2_1000 : literal 2 1000 = 1152921504606847 # 576460752303423488.
Proof. vm_compute. reflexivity. Qed.

(** X9.  The estimated cost grows with the number of results and, within the
    quota of 150 results, lies between 0 and 4.5 dollars. *)
Theorem estimated_cost_bounds (r r' : Z) :
  0 <= r <= r' -> r' <= 150 ->
  (0 <= get_estimated_cost r
   /\ get_estimated_cost r <= get_estimated_cost r'
   /\ get_estimated_cost r' <= 9 # 2)%Q.
Proof.
  intros H H'. unfold get_estimated_cost, get_posts_to_scrape, fmul, of_int.
  rewrite literal_2_1000.
  assert (I0 : (0 <= inject_Z (r * 15))%Q)
    by (change 0%Q with (inject_Z 0); rewrite <- Zle_Qle; lia).
  assert (I1 : (inject_Z (r * 15) <= inject_Z (r' * 15))%Q) by (rewrite <- Zle_Qle; lia).
  assert (I2 : (inject_Z (r' * 15) <= inject_Z (150 * 15))%Q) by (rewrite <- Zle_Qle; lia).
  pose proof (round64_mono _ _ I0 I1) as M1.
  assert (I0' : (0 <= inject_Z (r' * 15))%Q) by lra.
  pose proof (round64_mono _ _ I0' I2) as M2.
  destruct (round64_err _ I0) as [N0 _].
  assert (T : round64 (round64 (inject_Z (150 * 15))
                       * (1152921504606847 # 576460752303423488)) = (9 # 2)%Q)
    by (vm_compute; reflexivity).
  rewrite <- T. repeat split.
  - apply round64_err. nra.
  - apply round64_mono; nra.
  - apply round64_mono; nra.
Qed.

Lemma estimated_cost_bounds_witness :
  (0 <= 20 <= 50 /\ 50 <= 150)
  /\ (0 <= get_estimated_cost 20
      /\ get_estimated_cost 20 <= get_estimated_cost 50
      /\ get_estimated_cost 50 <= 9 # 2)%Q.
Proof.
  split; [lia|]. apply (estimated_cost_bounds 20 50); lia.
Defined.

End QuotaMore.

(** ** The per-user request counters *)

Section Counters.

Import RequestCounts.

Local Open Scope Z_scope.

(** X10.  Incrementing a counter returns the previous count plus one, which is
    what the counter then reads; resetting it makes it read 0; and neither
    operation changes what another user's counter reads. *)
Theorem request_counter_round_trip (counts : gmap string Z) (user_id other : string) :
  let '(n, counts') := increment_user_request_count counts user_id in
  n = get_user_request_count counts user_id + 1
  /\ get_user_request_count counts' user_id = n
  /\ get_user_request_count (reset_user_request_count counts' user_id) user_id = 0
  /\ (other <> user_id ->
      get_user_request_count counts' other = get_user_request_count counts other
      /\ get_user_request_count (reset_user_request_count counts user_id) other
         = get_user_request_count counts other).
Proof.
  unfold increment_user_request_count, reset_user_request_count, get_user_request_count.
  rewrite !lookup_insert_eq. repeat split.
  - rewrite lookup_delete_eq. reflexivity.
  - rewrite lookup_insert_ne by congruence. reflexivity.
  - destruct (counts !! user_id); [|reflexivity].
    rewrite lookup_delete_ne by congruence. reflexivity.
Qed.

End Counters.

(** ** More on the result cache *)

Section DecimalStrings.

Import RouteSpec.

Local Open Scope Z_scope.

Lemma digits_value_append (a b : string) (acc : Z) :
  digits_value (a +:+ b) acc = digits_value b (digits_value a acc).
Proof.
  revert acc. induction a as [|c a IH]; intros acc; [reflexivity|].
  rewrite append_cons. cbn [digits_value]. apply IH.
Qed.

Lemma digit_code (k : Z) :
  0 <= k < 10 -> Z.of_N (code (ascii_of_N (48 + Z.to_N k))) - 48 = k.
Proof.
  intros H. unfold code. rewrite N_ascii_embedding by lia. lia.
Qed.

Lemma digit_not_minus (k : Z) (s : string) :
  0 <= k < 10 -> decimal_value (String (ascii_of_N (48 + Z.to_N k)) s)
                 = digits_value (String (ascii_of_N (48 + Z.to_N k)) s) 0.
Proof.
  intros H. unfold decimal_value.
  assert (K : k = 0 \/ k = 1 \/ k = 2 \/ k = 3 \/ k = 4 \/ k = 5 \/ k = 6 \/ k = 7
              \/ k = 8 \/ k = 9) by lia.
  destruct K as [->|[->|[->|[->|[->|[->|[->|[->|[->| ->]]]]]]]]]; reflexivity.
Qed.

(** The digits written for [n] are a non-empty string in front of the
    accumulator, which starts with a digit and reads back as [n]. *)
Lemma digits_aux_reads_back (fuel : nat) (n : Z) (acc : string) :
  0 <= n < 2 ^ Z.of_nat fuel -> (1 <= fuel)%nat ->
  exists k ds,
    0 <= k < 10
    /\ digits_aux fuel n acc = String (ascii_of_N (48 + Z.to_N k)) ds +:+ acc
    /\ digits_value (String (ascii_of_N (48 + Z.to_N k)) ds) 0 = n.
Proof.
  revert n acc. induction fuel as [|fuel IH]; intros n acc Hn Hf; [lia|].
  cbn [digits_aux].
  pose proof (Z.mod_pos_bound n 10 ltac:(lia)) as Hm.
  destruct (n <? 10) eqn:E.
  - apply Z.ltb_lt in E. exists n, EmptyString. rewrite Z.mod_small by lia.
    repeat split; try lia. cbn [digits_value]. rewrite digit_code by lia. lia.
  - apply Z.ltb_ge in E.
    assert (Hd : 0 <= n / 10 < 2 ^ Z.of_nat fuel).
    { split; [apply Z.div_pos; lia|].
      apply Z.div_lt_upper_bound; [lia|].
      rewrite Nat2Z.inj_succ, Z.pow_succ_r in Hn by lia. lia. }
    assert (Hf' : (1 <= fuel)%nat).
    { destruct fuel; [|lia]. cbn in Hn. lia. }
    destruct (IH (n / 10) (String (ascii_of_N (48 + Z.to_N (n mod 10))) acc) Hd Hf')
      as (k & ds & Hk & E1 & E2).
    exists k, (ds +:+ String (ascii_of_N (48 + Z.to_N (n mod 10))) EmptyString).
    split; [exact Hk|]. split.
    + rewrite E1. rewrite !append_cons. f_equal.
      rewrite append_assoc, append_cons, append_nil_l. reflexivity.
    + rewrite <- append_cons, digits_value_append, E2. cbn [digits_value].
      rewrite digit_code by lia. pose proof (Z.div_mod n 10 ltac:(lia)). lia.
Qed.

Lemma log2_fuel (n : Z) : 0 <= n -> n < 2 ^ Z.of_nat (S (Z.to_nat (Z.log2 n))).
Proof.
  intros H. rewrite Nat2Z.inj_succ, Z2Nat.id by apply Z.log2_nonneg.
  destruct (Z.eq_dec n 0) as [->|N]; [reflexivity|].
  apply Z.log2_spec. lia.
Qed.

(** [str(n)] reads back as [n]. *)
Lemma str_of_int_reads_back (n : Z) : decimal_value (str_of_int n) = n.
Proof.
  unfold str_of_int. destruct (n <? 0) eqn:E.
  - apply Z.ltb_lt in E.
    destruct (digits_aux_reads_back (S (Z.to_nat (Z.log2 (- n)))) (- n) EmptyString)
      as (k & ds & Hk & E1 & E2); [split; [lia | apply log2_fuel; lia] | lia |].
    rewrite E1, append_nil_r. unfold decimal_value. rewrite E2. lia.
  - apply Z.ltb_ge in E.
    destruct (digits_aux_reads_back (S (Z.to_nat (Z.log2 n))) n EmptyString)
      as (k & ds & Hk & E1 & E2); [split; [lia | apply log2_fuel; lia] | lia |].
    rewrite E1, append_nil_r, digit_not_minus by exact Hk. exact E2.
Qed.

Lemma str_of_int_injective (n m : Z) : str_of_int n = str_of_int m -> n = m.
Proof.
  intros H. rewrite <- (str_of_int_reads_back n), <- (str_of_int_reads_back m), H.
  reflexivity.
Qed.

End DecimalStrings.

Section CacheMore.

Import ResultCache.

Context {Payload : Type}.

Local Open Scope Z_scope.

(** X11.  Two lookups that differ only in the requested count use different
    keys, and a key with a count differs from the key without one. *)
Theorem cache_key_depends_on_count
    (query business_type time_range user_id : string) (n m : Z) :
  (n <> m ->
   _generate_cache_key query business_type time_range user_id (Some n)
   <> _generate_cache_key query business_type time_range user_id (Some m))
  /\ _generate_cache_key query business_type time_range user_id (Some n)
     <> _generate_cache_key query business_type time_range user_id None.
Proof.
  unfold _generate_cache_key. split.
  - intros N H. apply N. apply str_of_int_injective.
    repeat (apply String.app_inj in H). exact H.
  - intros H. repeat (apply String.app_inj in H).
    assert (L : String.length (user_id +:+ "_" +:+ str_of_int n) = String.length user_id)
      by (rewrite H; reflexivity).
    rewrite length_append in L. rewrite append_cons in L. cbn [String.length] in L. lia.
Qed.

(** X12.  Storing under one key and looking up under another do not interfere:
    a store leaves the outcome of a lookup under a different key as it
    was, and a lookup - even one that purges its own stale entry - leaves
    the entries of all other keys in place. *)
Theorem cache_keys_are_independent
    (cache : gmap string (Q * Payload)) (stored_at now : Q)
    (q b t u : string) (c : option Z) (q' b' t' u' : string) (c' : option Z)
    (payload : Payload * Q) :
  _generate_cache_key q' b' t' u' c' <> _generate_cache_key q b t u c ->
  fst (get_cached_results Payload (cache_results Payload cache stored_at q b t u payload c)
         now q' b' t' u' c')
  = fst (get_cached_results Payload cache now q' b' t' u' c')
  /\ snd (get_cached_results Payload cache now q b t u c)
       !! _generate_cache_key q' b' t' u' c'
     = cache !! _generate_cache_key q' b' t' u' c'.
Proof.
  intros N. split.
  - unfold get_cached_results, cache_results. destruct payload as [results age].
    rewrite lookup_insert_ne by congruence.
    destruct (cache !! _generate_cache_key q' b' t' u' c') as [[ts r]|]; [|reflexivity].
    destruct (gtb _ _); reflexivity.
  - unfold get_cached_results.
    destruct (cache !! _generate_cache_key q b t u c) as [[ts r]|]; [|reflexivity].
    destruct (gtb _ _); cbn [snd]; [|reflexivity].
    apply lookup_delete_ne. congruence.
Qed.

(** X13.  [should_refresh] says to refresh exactly when a lookup at the same
    instant is a miss. *)
Theorem should_refresh_iff_miss
    (cache : gmap string (Q * Payload)) (now : Q)
    (query business_type time_range user_id : string) (result_count : option Z) :
  should_refresh Payload cache now query business_type time_range user_id result_count
  = true
  <-> fst (get_cached_results Payload cache now query business_type time_range user_id
             result_count) = None.
Proof.
  unfold should_refresh, get_cached_results.
  destruct (cache !! _) as [[ts r]|]; [|tauto].
  destruct (gtb _ _); cbn [fst]; split; intros; congruence.
Qed.

End CacheMore.

Lemma cache_keys_are_independent_witness :
  ResultCache._generate_cache_key "q" "SaaS Companies" "all_time" "7" (Some 20)
  <> ResultCache._generate_cache_key "q" "SaaS Companies" "all_time" "7" (Some 10)
  /\ fst (ResultCache.get_cached_results (list nat)
            (ResultCache.cache_results (list nat) ∅ 100 "q" "SaaS Companies" "all_time" "7"
               ([1%nat], 0%Q) (Some 10))
            200 "q" "SaaS Companies" "all_time" "7" (Some 20))
     = None.
Proof.
  assert (N : ResultCache._generate_cache_key "q" "SaaS Companies" "all_time" "7" (Some 20)
              <> ResultCache._generate_cache_key "q" "SaaS Companies" "all_time" "7" (Some 10))
    by (vm_compute; discriminate).
  split; [exact N|].
  rewrite (proj1 (@cache_keys_are_independent (list nat) ∅ 100 200
                    "q" "SaaS Companies" "all_time" "7" (Some 10)
                    "q" "SaaS Companies" "all_time" "7" (Some 20) ([1%nat], 0%Q) N)).
  reflexivity.
Defined.

(** The age reported one hour after an entry was stored. *)
Lemma age_hours_accurate_witness :
  (1700000000 <= 1700003600)%Q
  /\ (0 <= ResultCache.age_hours_at 1700003600 1700000000
      /\ - (((1700003600 - 1700000000) / 3600) * (1 # 2251799813685248) + 2 * eta)
         <= ResultCache.age_hours_at 1700003600 1700000000
            - (1700003600 - 1700000000) / 3600
         <= ((1700003600 - 1700000000) / 3600) * (1 # 2251799813685248) + 2 * eta)%Q.
Proof.
  assert (H : (1700000000 <= 1700003600)%Q) by (vm_compute; discriminate).
  split; [exact H|]. exact (age_hours_accurate 1700003600 1700000000 H).
Defined.

(** ** The fast filter: which posts come back, and in which order *)

Section SortDesc.

Import PyData FastLeadFilter FilterSpec.

Local Open Scope Z_scope.

Lemma insert_desc_perm (x : Post) (l : list Post) :
  Permutation (x :: l) (insert_desc x l).
Proof.
  induction l as [|y l IH]; cbn [insert_desc]; [reflexivity|].
  destruct (relevance_key y <? relevance_key x); [reflexivity|].
  rewrite perm_swap. apply perm_skip. exact IH.
Qed.

Lemma insert_desc_sorted (x : Post) (l : list Post) :
  StronglySorted ranked l -> StronglySorted ranked (insert_desc x l).
Proof.
  induction l as [|y l IH]; intros S; cbn [insert_desc].
  - constructor; [constructor | constructor].
  - apply StronglySorted_inv in S. destruct S as [S F].
    destruct (relevance_key y <? relevance_key x) eqn:E.
    + apply Z.ltb_lt in E. constructor; [constructor; assumption|].
      constructor; [unfold ranked; lia|].
      eapply List.Forall_impl; [|exact F]. unfold ranked. intros z Hz. lia.
    + apply Z.ltb_ge in E. constructor; [apply IH; exact S|].
      rewrite List.Forall_forall in *. intros z Hz.
      apply (Permutation_in _ (Permutation_sym (insert_desc_perm x l))) in Hz.
      destruct Hz as [<-|Hz]; [exact E | apply F; exact Hz].
Qed.

Lemma with_score_below (k : Z) (l : list Post) :
  Forall (fun z => relevance_key z < k) l -> with_score k l = [].
Proof.
  induction 1 as [|z l Hz _ IH]; [reflexivity|].
  unfold with_score in *. cbn [List.filter].
  destruct (relevance_key z =? k) eqn:E; [apply Z.eqb_eq in E; lia | exact IH].
Qed.

Lemma with_score_cons (k : Z) (y : Post) (l : list Post) :
  with_score k (y :: l)
  = if relevance_key y =? k then y :: with_score k l else with_score k l.
Proof. reflexivity. Qed.

Lemma insert_desc_with_score (k : Z) (x : Post) (l : list Post) :
  StronglySorted ranked l ->
  with_score k (insert_desc x l) = with_score k l ++ with_score k [x].
Proof.
  induction l as [|y l IH]; intros S; cbn [insert_desc]; [reflexivity|].
  apply StronglySorted_inv in S. destruct S as [S F].
  destruct (relevance_key y <? relevance_key x) eqn:E.
  - apply Z.ltb_lt in E.
    rewrite (with_score_cons k x (y :: l)), (with_score_cons k x []).
    destruct (relevance_key x =? k) eqn:K.
    + apply Z.eqb_eq in K.
      rewrite (with_score_below k (y :: l)); [reflexivity|].
      constructor; [lia|].
      eapply List.Forall_impl; [|exact F]. unfold ranked. intros z Hz. lia.
    + change (with_score k []) with (@nil Post). rewrite app_nil_r. reflexivity.
  - rewrite (with_score_cons k y (insert_desc x l)), (with_score_cons k y l), (IH S).
    destruct (relevance_key y =? k); reflexivity.
Qed.

Lemma with_score_app (k : Z) (a b : list Post) :
  with_score k (a ++ b) = with_score k a ++ with_score k b.
Proof. unfold with_score. apply List.filter_app. Qed.

Lemma fold_insert_desc (l acc : list Post) :
  StronglySorted ranked acc ->
  StronglySorted ranked (fold_left (fun a x => insert_desc x a) l acc)
  /\ Permutation (fold_left (fun a x => insert_desc x a) l acc) (acc ++ l)
  /\ forall k,
       with_score k (fold_left (fun a x => insert_desc x a) l acc)
       = with_score k acc ++ with_score k l.
Proof.
  revert acc. induction l as [|x l IH]; intros acc S; cbn [fold_left].
  - rewrite app_nil_r. repeat split; [exact S | reflexivity |].
    intros k. rewrite app_nil_r. reflexivity.
  - destruct (IH (insert_desc x acc) (insert_desc_sorted x acc S)) as (S' & P' & K').
    repeat split; [exact S' | |].
    + rewrite P'. rewrite <- (insert_desc_perm x acc).
      cbn [app]. apply Permutation_middle.
    + intros k. rewrite K', (insert_desc_with_score k x acc S).
      rewrite <- app_assoc, <- (with_score_app k [x] l). reflexivity.
Qed.

(** [sort_desc] is a stable sort, highest score first. *)
Lemma sort_desc_stable (l : list Post) :
  StronglySorted ranked (sort_desc l)
  /\ Permutation (sort_desc l) l
  /\ forall k, with_score k (sort_desc l) = with_score k l.
Proof.
  unfold sort_desc. apply (fold_insert_desc l []). constructor.
Qed.

End SortDesc.

Section FilterFacts.

Import PyStr PyData BusinessMapping Models FastLeadFilter FilterSpec.

Local Open Scope Z_scope.

Variable ai_config : AIConfig.
Variable smart_summary : Lead -> string -> string.
Variable str_to_int : string -> option Z.
Variable str_to_float : string -> option Q.

Lemma dict_get_post_set (post : Post) (key : string) (v : pyval) :
  dict_get (post_set post key v) key = Some v.
Proof.
  induction post as [|[k x] post IH]; cbn [post_set dict_get].
  - rewrite String.eqb_refl. reflexivity.
  - destruct (String.eqb k key) eqn:E; cbn [dict_get]; rewrite E; [reflexivity | exact IH].
Qed.

Lemma relevance_key_scored (post : Post) (n : Z) :
  relevance_key (post_set post "relevance_score" (PyInt n)) = n.
Proof. unfold relevance_key, post_get. rewrite dict_get_post_set. reflexivity. Qed.

Lemma log_first_titles_spec (posts : list Post) :
  log_first_titles posts
  = if forallb title_ok posts then Ok tt else Raise TypeError.
Proof.
  induction posts as [|post posts IH]; [reflexivity|].
  cbn [log_first_titles forallb]. unfold title_ok at 1.
  destruct (post_get post "title" (PyStr "")); cbn [value_take is_str andb];
    try reflexivity.
  exact IH.
Qed.

(** The scoring loop, as a whole: it keeps the scored posts that reach
    the threshold, in order, or raises at the first post whose title or
    content has no [lower]. *)
Lemma score_posts_spec (problem_description business_type : string)
    (industry_type : option string) (posts filtered_posts : list Post) :
  score_posts ai_config
    (category_keywords business_type industry_type
       ++ AIEnhancer._extract_keywords problem_description)
    (AIEnhancer._extract_keywords problem_description)
    problem_description posts filtered_posts
  = if forallb text_ok posts
    then Ok (filtered_posts
             ++ kept ai_config problem_description business_type industry_type posts)
    else Raise AttributeError.
Proof.
  revert filtered_posts. induction posts as [|post posts IH]; intros filtered_posts.
  - cbn [score_posts forallb]. unfold kept. cbn [map List.filter].
    rewrite app_nil_r. reflexivity.
  - cbn [score_posts forallb]. unfold text_ok at 1, title_ok at 1.
    destruct (post_get post "title" (PyStr "")) as [| t | |] eqn:T;
      cbn [value_lower is_str andb]; try reflexivity.
    destruct (post_get post "content" (PyStr "")) as [| c | |] eqn:C;
      cbn [value_lower is_str andb]; try reflexivity.
    cbv zeta. rewrite IH.
    destruct (forallb text_ok posts); [|reflexivity].
    f_equal. unfold kept. cbn [map List.filter].
    assert (P : relevance_points
                  (category_keywords business_type industry_type
                     ++ AIEnhancer._extract_keywords problem_description)
                  (AIEnhancer._extract_keywords problem_description) problem_description
                  (lower t +:+ " " +:+ lower c)
                = points problem_description business_type industry_type post).
    { unfold points, post_text. rewrite T, C. reflexivity. }
    rewrite P. unfold scored at 2 3. rewrite relevance_key_scored.
    destruct (threshold ai_config
              <=? points problem_description business_type industry_type post).
    + rewrite <- app_assoc. reflexivity.
    + reflexivity.
Qed.

Lemma rule_based_filter_spec (posts : list Post)
    (problem_description business_type : string) (industry_type : option string) :
  _rule_based_filter ai_config posts problem_description business_type industry_type
  = if forallb title_ok (firstn 5 posts)
    then if forallb text_ok posts
         then Ok (sort_desc
                    (kept ai_config problem_description business_type industry_type posts))
         else Raise AttributeError
    else Raise TypeError.
Proof.
  unfold _rule_based_filter. cbv zeta.
  rewrite log_first_titles_spec.
  destruct (forallb title_ok (firstn 5 posts)); [|reflexivity].
  change (AIEnhancer.keywords (AIEnhancer.enhance_query problem_description business_type))
    with (AIEnhancer._extract_keywords problem_description).
  fold (category_keywords business_type industry_type).
  rewrite score_posts_spec.
  destruct (forallb text_ok posts); reflexivity.
Qed.

Lemma text_ok_titles (posts : list Post) (n : nat) :
  forallb text_ok posts = true -> forallb title_ok (firstn n posts) = true.
Proof.
  revert n. induction posts as [|p posts IH]; intros [|n] H; try reflexivity.
  cbn [firstn forallb] in *. apply andb_prop in H. destruct H as [H1 H2].
  unfold text_ok in H1. apply andb_prop in H1. destruct H1 as [H1 _].
  rewrite H1, (IH n H2). reflexivity.
Qed.

(** X16.  For a batch in which every title and content is a [str] or absent,
    the rule-based filter returns; what it returns is the scored posts
    that reach the threshold, highest score first, posts of equal score in
    the order in which they were fetched. *)
Theorem rule_based_filter_ranks_kept_posts (posts : list Post)
    (problem_description business_type : string) (industry_type : option string) :
  forallb text_ok posts = true ->
  exists out,
    _rule_based_filter ai_config posts problem_description business_type industry_type
    = Ok out
    /\ StronglySorted ranked out
    /\ Permutation out
         (kept ai_config problem_description business_type industry_type posts)
    /\ (forall k,
          with_score k out
          = with_score k
              (kept ai_config problem_description business_type industry_type posts))
    /\ (length out <= length posts)%nat.
Proof.
  intros H. rewrite rule_based_filter_spec, (text_ok_titles posts 5 H), H.
  eexists. split; [reflexivity|].
  destruct (sort_desc_stable
              (kept ai_config problem_description business_type industry_type posts))
    as (S & P & K).
  repeat split; try assumption.
  rewrite (Permutation_length P). unfold kept.
  etransitivity; [apply List.filter_length_le|]. rewrite length_map. reflexivity.
Qed.

(** X17.  One post whose title or content is present and not a [str] - a JSON
    [null], say - anywhere in the batch makes the rule-based filter raise,
    and [filter_posts] then returns no lead at all, with the metrics as
    they were reset on entry. *)
Theorem ill_typed_post_empties_batch (posts : list Post)
    (problem_description business_type : string) (industry_type : option string) :
  forallb text_ok posts = false ->
  (_rule_based_filter ai_config posts problem_description business_type industry_type
   = Raise TypeError
   \/ _rule_based_filter ai_config posts problem_description business_type industry_type
      = Raise AttributeError)
  /\ filter_posts ai_config smart_summary str_to_int str_to_float posts
       problem_description business_type industry_type
     = ([], reset_metrics posts).
Proof.
  intros H.
  assert (R : _rule_based_filter ai_config posts problem_description business_type
                industry_type = Raise TypeError
              \/ _rule_based_filter ai_config posts problem_description business_type
                   industry_type = Raise AttributeError).
  { rewrite rule_based_filter_spec, H.
    destruct (forallb title_ok (firstn 5 posts)); [right | left]; reflexivity. }
  split; [exact R|].
  unfold filter_posts. cbv zeta.
  destruct R as [R|R]; rewrite R; reflexivity.
Qed.

Lemma take_length (n : nat) (s : string) : (String.length (take n s) <= n)%nat.
Proof.
  revert s. induction n as [|n IH]; intros [|c s]; cbn [take String.length]; try lia.
  specialize (IH s). lia.
Qed.

(** What a lead built from a post holds. *)
Lemma make_lead_fields (post : Post) (business_type : string) (lead : Lead) :
  make_lead str_to_int str_to_float post business_type = Ok lead ->
  len (snippet lead) <= 203
  /\ Models.business_context lead = Some business_type
  /\ matched_keywords lead = []
  /\ forall n,
       dict_get post "relevance_score" = Some (PyInt n) ->
       ai_relevance_score lead = Some n.
Proof.
  unfold make_lead. cbv zeta.
  destruct (post_get post "content" (PyStr "")) as [| c | |] eqn:C;
    cbn [value_len]; try discriminate.
  assert (L : forall v : pyval,
            (if 200 <? len c
             then match value_take 200 (PyStr c) with
                  | Ok s => Ok (PyStr (s +:+ "..."))
                  | Raise e => Raise e
                  end
             else Ok (PyStr c)) = Ok v ->
            exists s, v = PyStr s /\ len s <= 203).
  { intros v. unfold value_take.
    pose proof (take_length 200 c) as TL. remember (take 200 c) as prefix.
    destruct (200 <? len c) eqn:E.
    - intros [= <-]. eexists. split; [reflexivity|].
      unfold len. rewrite length_append.
      change (String.length "...") with 3%nat. lia.
    - apply Z.ltb_ge in E. intros [= <-]. eexists. split; [reflexivity|]. lia. }
  destruct (if 200 <? len c then _ else _) as [v|e]; [|discriminate].
  destruct (L v eq_refl) as (s & -> & Hs). clear L.
  destruct (as_str (post_get post "title" (PyStr ""))) as [t|]; [|discriminate].
  destruct (as_str (post_get post "subreddit" (PyStr ""))) as [sr|]; [|discriminate].
  cbn [as_str].
  destruct (as_str (post_get post "permalink" (PyStr ""))) as [pl|]; [|discriminate].
  destruct (as_str (post_get post "author" (PyStr ""))) as [au|]; [|discriminate].
  destruct (as_float str_to_float (post_get post "created_utc" (PyInt 0))) as [cu|];
    [|discriminate].
  destruct (as_int str_to_int (post_get post "score" (PyInt 0))) as [sc|]; [|discriminate].
  destruct (as_int str_to_int (post_get post "relevance_score" (PyInt 0))) as [rs|] eqn:RS;
    [|discriminate].
  intros [= <-]. cbn [snippet Models.business_context matched_keywords ai_relevance_score].
  repeat split; try assumption.
  intros n G. unfold post_get in RS. rewrite G in RS. cbn [as_int] in RS. congruence.
Qed.

(** The leads built from a list of posts, related to the posts they come
    from. *)
Lemma create_leads_from (posts : list Post) (problem_description business_type : string)
    (lead : Lead) :
  In lead (_create_leads_from_posts str_to_int str_to_float posts problem_description
             business_type) ->
  exists post,
    In post posts /\ make_lead str_to_int str_to_float post business_type = Ok lead.
Proof.
  induction posts as [|p posts IH]; cbn [_create_leads_from_posts]; [intros []|].
  destruct (make_lead str_to_int str_to_float p business_type) as [l|e] eqn:E.
  - intros [<-|H]; [exists p; split; [left; reflexivity | exact E]|].
    destruct (IH H) as (q & Hq & Eq). exists q. split; [right; exact Hq | exact Eq].
  - intros H. destruct (IH H) as (q & Hq & Eq). exists q. split; [right; exact Hq | exact Eq].
Qed.

Lemma create_leads_length (posts : list Post) (problem_description business_type : string) :
  (length (_create_leads_from_posts str_to_int str_to_float posts problem_description
             business_type) <= length posts)%nat.
Proof.
  induction posts as [|p posts IH]; cbn [_create_leads_from_posts length]; [lia|].
  destruct (make_lead str_to_int str_to_float p business_type); cbn [length]; lia.
Qed.

(** X18.  Whatever the posts hold, every lead built from them has a snippet of
    at most 203 characters, the category it was searched for and no
    matched keyword, and no more leads are built than there are posts. *)
Theorem created_leads_bounded (posts : list Post)
    (problem_description business_type : string) :
  Forall (fun lead =>
            len (snippet lead) <= 203
            /\ Models.business_context lead = Some business_type
            /\ matched_keywords lead = [])
    (_create_leads_from_posts str_to_int str_to_float posts problem_description
       business_type)
  /\ (length (_create_leads_from_posts str_to_int str_to_float posts problem_description
                business_type) <= length posts)%nat.
Proof.
  split; [|apply create_leads_length].
  apply List.Forall_forall. intros lead H.
  destruct (create_leads_from _ _ _ _ H) as (post & _ & E).
  destruct (make_lead_fields _ _ _ E) as (A & B & C & _). auto.
Qed.

Lemma create_leads_ranked (posts : list Post) (problem_description business_type : string) :
  StronglySorted ranked posts ->
  Forall (fun post => exists n, dict_get post "relevance_score" = Some (PyInt n)) posts ->
  StronglySorted leads_ranked
    (_create_leads_from_posts str_to_int str_to_float posts problem_description
       business_type).
Proof.
  induction posts as [|p posts IH]; intros S F; cbn [_create_leads_from_posts];
    [constructor|].
  apply StronglySorted_inv in S. destruct S as [S R].
  apply List.Forall_cons_iff in F. destruct F as [[n Hn] F].
  destruct (make_lead str_to_int str_to_float p business_type) as [l|e] eqn:E;
    [|apply IH; assumption].
  constructor; [apply IH; assumption|].
  apply List.Forall_forall. intros l' H'.
  destruct (create_leads_from _ _ _ _ H') as (q & Hq & Eq).
  rewrite List.Forall_forall in R, F.
  destruct (F q Hq) as [m Hm].
  pose proof (proj2 (proj2 (proj2 (make_lead_fields _ _ _ E))) n Hn) as A.
  pose proof (proj2 (proj2 (proj2 (make_lead_fields _ _ _ Eq))) m Hm) as B.
  specialize (R q Hq). unfold ranked, relevance_key, post_get in R.
  rewrite Hn, Hm in R. unfold leads_ranked, lead_score. rewrite A, B. exact R.
Qed.

Lemma kept_posts_scored (problem_description business_type : string)
    (industry_type : option string) (posts : list Post) (post : Post) :
  In post (kept ai_config problem_description business_type industry_type posts) ->
  exists n,
    dict_get post "relevance_score" = Some (PyInt n) /\ threshold ai_config <= n.
Proof.
  unfold kept. intros H. apply List.filter_In in H. destruct H as [H T].
  apply List.in_map_iff in H. destruct H as (q & <- & _).
  unfold scored in *. rewrite relevance_key_scored in T. apply Z.leb_le in T.
  eexists. split; [apply dict_get_post_set | exact T].
Qed.

Lemma add_summaries_ranked (leads : list Lead) (problem_description : string) :
  StronglySorted leads_ranked leads ->
  StronglySorted leads_ranked (_add_simple_summaries smart_summary leads problem_description).
Proof.
  unfold _add_simple_summaries.
  induction 1 as [|l leads S IH F]; cbn [map]; [constructor|].
  constructor; [exact IH|].
  apply List.Forall_forall. intros l' H'. apply List.in_map_iff in H'.
  destruct H' as (l0 & <- & H0). rewrite List.Forall_forall in F.
  exact (F l0 H0).
Qed.

(** X19.  The leads [filter_posts] returns are in the order of their stored
    score, highest first, each score is at least the threshold, and the
    counts of the metrics go down from the posts received to the posts
    kept to the leads returned. *)
Theorem filter_posts_leads_ranked (posts : list Post)
    (problem_description business_type : string) (industry_type : option string) :
  let result :=
    filter_posts ai_config smart_summary str_to_int str_to_float posts
      problem_description business_type industry_type in
  StronglySorted leads_ranked (fst result)
  /\ Forall (fun lead =>
               exists n, ai_relevance_score lead = Some n /\ threshold ai_config <= n)
       (fst result)
  /\ posts_analyzed (snd result) = Z.of_nat (length posts)
  /\ 0 <= posts_filtered (snd result) <= posts_analyzed (snd result)
  /\ Z.of_nat (length (fst result)) <= posts_filtered (snd result)
  /\ (results_returned (snd result) = Some (Z.of_nat (length (fst result)))
      \/ results_returned (snd result) = None /\ fst result = []).
Proof.
  cbv zeta. unfold filter_posts. cbv zeta.
  rewrite rule_based_filter_spec.
  assert (Failed : forall m,
            m = reset_metrics posts ->
            StronglySorted leads_ranked []
            /\ Forall (fun lead =>
                         exists n, ai_relevance_score lead = Some n
                                   /\ threshold ai_config <= n) []
            /\ posts_analyzed m = Z.of_nat (length posts)
            /\ 0 <= posts_filtered m <= posts_analyzed m
            /\ Z.of_nat (@length Lead []) <= posts_filtered m
            /\ (results_returned m = Some (Z.of_nat (@length Lead []))
                \/ results_returned m = None /\ @nil Lead = [])).
  { intros m ->. cbn [reset_metrics posts_analyzed posts_filtered results_returned length].
    split; [constructor|]. split; [constructor|]. split; [reflexivity|].
    split; [lia|]. split; [lia|]. right. split; reflexivity. }
  destruct (forallb title_ok (firstn 5 posts)); [|apply Failed; reflexivity].
  destruct (forallb text_ok posts); [|apply Failed; reflexivity].
  clear Failed.
  destruct (sort_desc_stable
              (kept ai_config problem_description business_type industry_type posts))
    as (S & P & _).
  set (out := sort_desc _) in *.
  assert (F : Forall (fun post =>
                        exists n, dict_get post "relevance_score" = Some (PyInt n)
                                  /\ threshold ai_config <= n) out).
  { apply List.Forall_forall. intros p Hp.
    apply (kept_posts_scored problem_description business_type industry_type posts).
    exact (Permutation_in _ P Hp). }
  set (made := _create_leads_from_posts str_to_int str_to_float out problem_description
                 business_type).
  assert (S1 : StronglySorted leads_ranked made).
  { apply create_leads_ranked; [exact S|].
    eapply List.Forall_impl; [|exact F]. intros p (n & Hn & _). exists n. exact Hn. }
  assert (F1 : Forall (fun lead =>
                         exists n, ai_relevance_score lead = Some n
                                   /\ threshold ai_config <= n) made).
  { apply List.Forall_forall. intros l Hl.
    destruct (create_leads_from _ _ _ _ Hl) as (q & Hq & Eq).
    rewrite List.Forall_forall in F. destruct (F q Hq) as (n & Hn & Tn).
    exists n. split; [|exact Tn].
    exact (proj2 (proj2 (proj2 (make_lead_fields _ _ _ Eq))) n Hn). }
  assert (L1 : (length made <= length out)%nat) by apply create_leads_length.
  assert (L2 : (length out <= length posts)%nat).
  { rewrite (Permutation_length P). unfold kept.
    etransitivity; [apply List.filter_length_le|]. rewrite length_map. reflexivity. }
  assert (S2 : StronglySorted leads_ranked
                 (match made with
                  | [] => made
                  | _ => _add_simple_summaries smart_summary made problem_description
                  end)).
  { destruct made; [constructor | apply add_summaries_ranked; exact S1]. }
  assert (F2 : Forall (fun lead =>
                         exists n, ai_relevance_score lead = Some n
                                   /\ threshold ai_config <= n)
                 (match made with
                  | [] => made
                  | _ => _add_simple_summaries smart_summary made problem_description
                  end)).
  { destruct made as [|l0 made0] eqn:M; [constructor|]. rewrite <- M in *.
    unfold _add_simple_summaries. apply List.Forall_forall. intros l Hl.
    apply List.in_map_iff in Hl. destruct Hl as (l1 & <- & H1).
    rewrite List.Forall_forall in F1. exact (F1 l1 H1). }
  assert (L3 : length (match made with
                       | [] => made
                       | _ => _add_simple_summaries smart_summary made problem_description
                       end) = length made).
  { destruct made; [reflexivity|]. unfold _add_simple_summaries. apply length_map. }
  cbn [fst snd posts_analyzed posts_filtered results_returned].
  repeat split; try assumption; try lia.
  left. reflexivity.
Qed.

Lemma bump_fold_ge (d : Z) (test : string -> bool) (l : list string) (init : Z) :
  0 <= d ->
  init <= fold_left (fun sc x => if test x then sc + d else sc) l init.
Proof.
  intros D. revert init. induction l as [|x l IH]; intros init; cbn [fold_left]; [lia|].
  etransitivity; [|apply IH]. destruct (test x); lia.
Qed.

Lemma bump_fold_hit (d : Z) (test : string -> bool) (l : list string) (init : Z)
    (x : string) :
  0 <= d -> In x l -> test x = true ->
  init + d <= fold_left (fun sc x => if test x then sc + d else sc) l init.
Proof.
  intros D. revert init. induction l as [|y l IH]; intros init; [intros []|].
  cbn [fold_left]. intros [->|H] T.
  - rewrite T. apply bump_fold_ge. exact D.
  - etransitivity; [|apply (IH _ H T)]. destruct (test y); lia.
Qed.

(** A hit on a keyword of the problem is worth seven points. *)
Lemma relevance_points_keyword_hit (category_words enhanced : list string)
    (problem_description text keyword : string) :
  In keyword enhanced -> str_in (lower keyword) text = true ->
  7 <= relevance_points (category_words ++ enhanced) enhanced problem_description text.
Proof.
  intros H T. unfold relevance_points. cbv zeta.
  pose proof (bump_fold_hit 3 (fun k => str_in (lower k) text) (category_words ++ enhanced)
                0 keyword ltac:(lia) ltac:(apply List.in_or_app; right; exact H) T) as A.
  set (a := fold_left _ (category_words ++ enhanced) 0) in *.
  pose proof (bump_fold_ge 2 (fun i => str_in i text) struggle_indicators a ltac:(lia)) as B.
  set (b := fold_left _ struggle_indicators a) in *.
  pose proof (bump_fold_hit 4 (fun k => str_in (lower k) text) enhanced b keyword
                ltac:(lia) H T) as C.
  set (c := fold_left _ enhanced b) in *.
  pose proof (bump_fold_ge 1 (fun w => (3 <? len w) && str_in w text)
                (split (lower problem_description)) c ltac:(lia)) as E.
  cbv beta in E. clearbody a b c. lia.
Qed.

(** X20.  A post whose title or content contains one of the keywords extracted
    from the problem description scores at least 7, so with a threshold
    of at most 7 - the configured one is 5 - it is among the posts
    returned. *)
Theorem keyword_hit_is_returned (posts : list Post)
    (problem_description business_type : string) (industry_type : option string)
    (post : Post) (keyword : string) :
  forallb text_ok posts = true ->
  threshold ai_config <= 7 ->
  In post posts ->
  In keyword (AIEnhancer._extract_keywords problem_description) ->
  str_in keyword (post_text post) = true ->
  exists out,
    _rule_based_filter ai_config posts problem_description business_type industry_type
    = Ok out
    /\ In (scored problem_description business_type industry_type post) out
    /\ 7 <= relevance_key (scored problem_description business_type industry_type post).
Proof.
  intros H T Hp Hk Hit.
  rewrite rule_based_filter_spec, (text_ok_titles posts 5 H), H.
  eexists. split; [reflexivity|].
  assert (K : lower keyword = keyword).
  { destruct (extracted_keyword_facts problem_description keyword Hk) as (_ & _ & L & _).
    exact L. }
  assert (P7 : 7 <= points problem_description business_type industry_type post).
  { unfold points. apply (relevance_points_keyword_hit _ _ _ _ keyword Hk).
    rewrite K. exact Hit. }
  unfold scored at 2. rewrite relevance_key_scored. split; [|exact P7].
  destruct (sort_desc_stable
              (kept ai_config problem_description business_type industry_type posts))
    as (_ & P & _).
  apply (Permutation_in _ (Permutation_sym P)).
  unfold kept. apply List.filter_In. split.
  - apply List.in_map. exact Hp.
  - unfold scored. rewrite relevance_key_scored. apply Z.leb_le. lia.
Qed.

End FilterFacts.
(** ** The search route as a whole *)

Section RouteFacts.

Import PyStr PyFloat PyData Models CostCalculator TieredSubredditMapping Leads RouteSpec.

Local Open Scope Z_scope.

Variable fetch_posts_from_multiple_subreddits :
  list string -> string -> Z -> string -> res (list Post).
Variable smart_summary : Lead -> string -> string.
Variable str_to_int : string -> option Z.
Variable str_to_float : string -> option Q.
Variable exn_text : exn -> string.

(** The four checks at the head of the route. *)
Lemma search_leads_cases (request : LeadSearchRequest) (w : World) :
  (well_formed request
   /\ search_leads fetch_posts_from_multiple_subreddits smart_summary str_to_int
        str_to_float exn_text request w
      = bind (check_usage request)
          (fun remaining =>
             internal_error_on_raise exn_text
               (search_body fetch_posts_from_multiple_subreddits smart_summary str_to_int
                  str_to_float request (get_posts_to_scrape (result_count request)) remaining))
          w)
  \/ (~ well_formed request
      /\ exists detail,
          search_leads fetch_posts_from_multiple_subreddits smart_summary str_to_int
            str_to_float exn_text request w = (Raise (HTTPException 400 detail), w)).
Proof.
  unfold search_leads, well_formed.
  destruct (otruthy (business request)), (otruthy (industry request));
    cbn [negb andb xorb];
    try (right; split; [intros [? _]; discriminate | eexists; reflexivity]).
  all: destruct (truthy (strip (problem_description request))); cbn [negb];
    [|right; split; [intros (_ & ? & _); discriminate | eexists; reflexivity]].
  all: destruct ((result_count request <? 1) || (150 <? result_count request)) eqn:C;
    [right; split; [|eexists; reflexivity];
     intros (_ & _ & ?); apply orb_true_iff in C; rewrite !Z.ltb_lt in C; lia
    |left; apply orb_false_elim in C; destruct C as [C1 C2]; apply Z.ltb_ge in C1, C2;
     split; [repeat split; lia | reflexivity]].
Qed.

Lemma account_Some (request : LeadSearchRequest) (w : World) (id : Z) (u : User.t) :
  account request w = Some (id, u)
  <-> otruthy (user_id request) = true
      /\ py_int (oget (user_id request)) = Some id
      /\ users w !! id = Some u.
Proof.
  unfold account.
  destruct (otruthy (user_id request));
    [|split; [discriminate | intros [? _]; discriminate]].
  destruct (py_int (oget (user_id request))) as [i|];
    [|split; [discriminate | intros (_ & ? & _); discriminate]].
  destruct (users w !! i) as [v|] eqn:L.
  - split; [intros [= <- <-]; auto | intros (_ & [= <-] & E)].
    rewrite L in E. injection E as <-. reflexivity.
  - split; [discriminate | intros (_ & [= <-] & E)]. rewrite L in E. discriminate.
Qed.

Lemma account_users (request : LeadSearchRequest) (w w' : World) :
  users w' = users w -> account request w' = account request w.
Proof. intros E. unfold account. rewrite E. reflexivity. Qed.

Lemma account_queried (request : LeadSearchRequest) (w : World) (id : Z) (u : User.t) :
  account request w = Some (id, u) -> queried request w = log_event w (QueryUser id).
Proof.
  intros H. apply account_Some in H. destruct H as (T & P & _).
  unfold queried. rewrite T, P. reflexivity.
Qed.

(** The usage check: its outcome, and the world it leaves. *)
Lemma check_usage_cases (request : LeadSearchRequest) (w : World) :
  check_usage request w
  = (match account request w with
     | Some (_, u) =>
         let '(is_valid, error_msg, _, remaining_results, remaining_posts) :=
           validate_user_limits (User.results_used u) (User.posts_analyzed u)
             (result_count request) in
         if is_valid then Ok (remaining_results, remaining_posts)
         else Raise (HTTPException 400 error_msg)
     | None => Ok (150, 2250)
     end,
     queried request w).
Proof.
  unfold check_usage, account, queried.
  destruct (otruthy (user_id request)); [|reflexivity].
  destruct (py_int (oget (user_id request))) as [id|]; [|reflexivity].
  unfold mbind, M_bind, bind, query_user. cbn [users log_event with_events].
  destruct (users w !! id) as [u|]; [|reflexivity].
  destruct (validate_user_limits _ _ _) as [[[[valid msg] pn] rr] rp].
  destruct valid; reflexivity.
Qed.

(** The usage update: its outcome, and the world it leaves. *)
Lemma commit_usage_cases (request : LeadSearchRequest) (posts_needed : Z)
    (remaining : Z * Z) (w : World) :
  commit_usage request posts_needed remaining w
  = match account request w with
    | Some (id, u) =>
        (Ok (150 - (User.results_used u + result_count request),
             2250 - (User.posts_analyzed u + posts_needed)),
         with_users (log_event (log_event w (QueryUser id)) (CommitUser id))
           (<[id := charged u (result_count request) posts_needed]> (users w)))
    | None =>
        (Ok (if otruthy (user_id request) then (150, 2250) else remaining),
         queried request w)
    end.
Proof.
  unfold commit_usage, account, queried.
  destruct (otruthy (user_id request)); [|reflexivity].
  destruct (py_int (oget (user_id request))) as [id|]; [|reflexivity].
  unfold mbind, M_bind, bind, query_user. cbn [users log_event with_events].
  destruct (users w !! id) as [u|]; reflexivity.
Qed.

Lemma queried_frame (request : LeadSearchRequest) (w : World) :
  users (queried request w) = users w
  /\ cache (queried request w) = cache w
  /\ clock (queried request w) = clock w
  /\ ticks (queried request w) = ticks w
  /\ config (queried request w) = config w
  /\ exists evs,
       events (queried request w) = events w ++ evs
       /\ forallb is_bookkeeping evs = true.
Proof.
  unfold queried. destruct (otruthy (user_id request));
    [destruct (py_int (oget (user_id request))) as [id|]|].
  - repeat split; try reflexivity. exists [QueryUser id]. split; reflexivity.
  - repeat split; try reflexivity. exists []. rewrite app_nil_r. split; reflexivity.
  - repeat split; try reflexivity. exists []. rewrite app_nil_r. split; reflexivity.
Qed.

(** The usage update never fails and touches the user table at the
    caller's row only. *)
Lemma commit_usage_frame (request : LeadSearchRequest) (posts_needed : Z)
    (remaining : Z * Z) (w : World) :
  exists out w',
    commit_usage request posts_needed remaining w = (Ok out, w')
    /\ cache w' = cache w
    /\ clock w' = clock w
    /\ ticks w' = ticks w
    /\ (exists evs, events w' = events w ++ evs /\ forallb is_bookkeeping evs = true)
    /\ match account request w with
       | Some (id, u) =>
           users w' = <[id := charged u (result_count request) posts_needed]> (users w)
           /\ out = (150 - (User.results_used u + result_count request),
                     2250 - (User.posts_analyzed u + posts_needed))
       | None =>
           users w' = users w
           /\ out = (if otruthy (user_id request) then (150, 2250) else remaining)
       end.
Proof.
  rewrite commit_usage_cases. destruct (account request w) as [[id u]|].
  - eexists _, _. split; [reflexivity|]. repeat split; try reflexivity.
    exists [QueryUser id; CommitUser id]. split; [|reflexivity].
    cbn [events with_users log_event with_events]. rewrite <- app_assoc. reflexivity.
  - destruct (queried_frame request w) as (U & C & K & T & _ & E).
    eexists _, _. split; [reflexivity|]. repeat split; assumption.
Qed.

(** Recording the metrics never fails and leaves the users, the cache and
    the clock alone. *)
Lemma record_search_metrics_frame request business_type a b c d cost model_used ms
    (w : World) :
  exists w',
    record_search_metrics request business_type a b c d cost model_used ms w = (Ok tt, w')
    /\ users w' = users w
    /\ cache w' = cache w
    /\ clock w' = clock w
    /\ ticks w' = ticks w
    /\ exists evs, events w' = events w ++ evs /\ forallb is_bookkeeping evs = true.
Proof.
  unfold record_search_metrics, add_search_metrics, ret. cbv zeta.
  destruct (otruthy (user_id request) && str_isdigit (oget (user_id request)));
    [destruct (py_int (oget (user_id request))); cbn [option_map]|].
  - eexists. split; [reflexivity|]. repeat split.
    exists [AddSearchMetrics]. split; reflexivity.
  - eexists. split; [reflexivity|]. repeat split.
    exists []. rewrite app_nil_r. split; reflexivity.
  - eexists. split; [reflexivity|]. repeat split.
    exists [AddSearchMetrics]. split; reflexivity.
Qed.

(** The cache lookup of a request: what it finds and the world it leaves. *)
Lemma cache_lookup_frame (request : LeadSearchRequest) (w : World) :
  exists w',
    cache_lookup (problem_description request) (category request) "all_time"
      (caller request) (Some (result_count request)) w
    = (Ok (cached request w), w')
    /\ users w' = users w
    /\ clock w' = clock w
    /\ events w' = events w ++ [CacheLookup (cache_key request)]
    /\ (cached request w = None -> cache w' !! cache_key request = None)
    /\ (cached request w <> None -> cache w' = cache w /\ ticks w' = S (ticks w)).
Proof.
  unfold cache_lookup, cached, ResultCache.get_cached_results. cbv zeta.
  fold (cache_key request). cbn [cache log_event with_events].
  destruct (cache w !! cache_key request) as [[ts stored]|] eqn:L.
  - cbn [clock ticks log_event with_events].
    destruct (gtb _ _); cbn [fst].
    + eexists. split; [reflexivity|]. repeat split; try congruence.
      intros _. cbn [cache with_ticks with_cache]. apply lookup_delete_eq.
    + eexists. split; [reflexivity|]. repeat split; try congruence; discriminate.
  - cbn [fst]. eexists. split; [reflexivity|]. repeat split; try congruence.
    intros _. exact L.
Qed.

(** A hit: the stored leads come back and nothing is fetched or stored. *)
Lemma cached_or_fresh_hit (request : LeadSearchRequest) (subreddits : list string)
    (posts_needed : Z) (ai_config : AIConfig) (w : World)
    (stored : list Lead) (age : Q) :
  cached request w = Some (stored, age) ->
  exists w',
    cached_or_fresh fetch_posts_from_multiple_subreddits smart_summary str_to_int
      str_to_float request (category request) subreddits posts_needed ai_config w
    = (Ok (stored, age, (0, 0%Q, "cached", 0), None), w')
    /\ users w' = users w
    /\ cache w' = cache w
    /\ clock w' = clock w
    /\ events w' = events w ++ [CacheLookup (cache_key request)].
Proof.
  intros H. unfold cached_or_fresh, mbind, M_bind, bind. fold (caller request).
  destruct (cache_lookup_frame request w) as (w' & E & U & K & V & _ & C).
  rewrite E, H. unfold ret. eexists. split; [reflexivity|].
  destruct C as [C _]; [rewrite H; discriminate|]. auto.
Qed.

(** A miss: the posts are fetched once, filtered, cut to the requested
    count and stored; an empty list of subreddits or a failing fetch ends
    the request before anything is stored. *)
Lemma cached_or_fresh_miss (request : LeadSearchRequest) (subreddits : list string)
    (posts_needed : Z) (ai_config : AIConfig) (w : World) :
  cached request w = None ->
  let limit := Z.max 1 (posts_needed / Z.of_nat (length subreddits)) in
  exists w',
    users w' = users w
    /\ clock w' = clock w
    /\ match subreddits with
       | [] =>
           cached_or_fresh fetch_posts_from_multiple_subreddits smart_summary str_to_int
             str_to_float request (category request) subreddits posts_needed ai_config w
           = (Raise ZeroDivisionError, w')
           /\ events w' = events w ++ [CacheLookup (cache_key request)]
       | _ =>
           match fetch_posts_from_multiple_subreddits subreddits
                   (problem_description request) limit "all_time" with
           | Raise e =>
               cached_or_fresh fetch_posts_from_multiple_subreddits smart_summary str_to_int
                 str_to_float request (category request) subreddits posts_needed
                 ai_config w
               = (Raise e, w')
               /\ events w'
                  = events w ++ [CacheLookup (cache_key request);
                                 Fetch subreddits (problem_description request) limit]
           | Ok posts =>
               let filtered :=
                 FastLeadFilter.filter_posts ai_config smart_summary str_to_int
                   str_to_float posts (problem_description request) (category request)
                   None in
               let target_leads :=
                 firstn (Z.to_nat (result_count request)) (fst filtered) in
               cached_or_fresh fetch_posts_from_multiple_subreddits smart_summary str_to_int
                 str_to_float request (category request) subreddits posts_needed
                 ai_config w
               = (Ok (target_leads, 0%Q,
                      (FastLeadFilter.tokens_used (snd filtered),
                       FastLeadFilter.cost (snd filtered), "unknown",
                       FastLeadFilter.posts_analyzed (snd filtered)),
                      Some (Z.of_nat (length posts))), w')
               /\ events w'
                  = events w ++ [CacheLookup (cache_key request);
                                 Fetch subreddits (problem_description request) limit;
                                 CacheStore (cache_key request)]
               /\ exists stored_at,
                    cache w' !! cache_key request = Some (stored_at, target_leads)
           end
       end.
Proof.
  intros H. cbv zeta. unfold cached_or_fresh, mbind, M_bind, bind. fold (caller request).
  destruct (cache_lookup_frame request w) as (w1 & E & U & K & V & _ & _).
  rewrite E, H.
  destruct subreddits as [|s0 ss].
  - exists w1. unfold raise. auto.
  - set (subs := s0 :: ss). unfold fetch.
    destruct (fetch_posts_from_multiple_subreddits subs (problem_description request) _ _)
      as [posts|e].
    + destruct (FastLeadFilter.filter_posts _ _ _ _ _ _ _ _) as [leads fm].
      unfold cache_store, ret. cbv zeta. fold (cache_key request).
      eexists. split; [|split; [|split; [reflexivity|split]]].
      * cbn [users with_ticks with_cache log_event with_events]. exact U.
      * cbn [clock with_ticks with_cache log_event with_events]. exact K.
      * cbn [events with_ticks with_cache log_event with_events]. rewrite V.
        rewrite <- !app_assoc. reflexivity.
      * eexists. cbn [cache with_ticks with_cache fst].
        unfold ResultCache.cache_results. fold (cache_key request).
        apply lookup_insert_eq.
    + eexists. split; [|split; [|split; [reflexivity|]]].
      * cbn [users log_event with_events]. exact U.
      * cbn [clock log_event with_events]. exact K.
      * cbn [events log_event with_events]. rewrite V, <- app_assoc. reflexivity.
Qed.

(** The body of the route, stage by stage: a failure can come from the
    lookup-or-fetch stage only; after it the usage is committed, the
    metrics are recorded and the response is built from what the stages
    returned. *)
Lemma search_body_runs (request : LeadSearchRequest) (posts_needed : Z)
    (remaining : Z * Z) (w : World) :
  exists found wc,
    cached_or_fresh fetch_posts_from_multiple_subreddits smart_summary str_to_int
      str_to_float request (category request)
      (subreddits (get_beta_info (category request))) posts_needed (config w) w
    = (found, wc)
    /\ match found with
       | Raise e =>
           search_body fetch_posts_from_multiple_subreddits smart_summary str_to_int
             str_to_float request posts_needed remaining w = (Raise e, wc)
       | Ok (leads, age, (tokens, cost, model, analyzed), scraped) =>
           exists out wd resp w',
             commit_usage request posts_needed remaining (with_ticks wc (S (ticks wc)))
             = (Ok out, wd)
             /\ search_body fetch_posts_from_multiple_subreddits smart_summary str_to_int
                  str_to_float request posts_needed remaining w = (Ok resp, w')
             /\ Leads.leads resp = leads
             /\ total_found resp = Z.of_nat (length leads)
             /\ result_age_hours resp = age
             /\ results_remaining resp = fst out
             /\ posts_remaining resp = snd out
             /\ model_used (search_metrics resp) = model
             /\ tier_info resp = get_beta_info (category request)
             /\ users w' = users wd
             /\ cache w' = cache wc
             /\ exists evs,
                  events w' = events wc ++ evs /\ forallb is_bookkeeping evs = true
       end.
Proof.
  unfold search_body, mbind, M_bind, bind, get_config.
  change (oget (por (business request) (industry request))) with (category request).
  destruct (cached_or_fresh fetch_posts_from_multiple_subreddits smart_summary str_to_int
              str_to_float request (category request)
              (subreddits (get_beta_info (category request))) posts_needed (config w) w)
    as [[[[[leads age] [[[tokens cost] model] analyzed]] scraped]|e] wc] eqn:CF.
  - eexists _, _. split; [reflexivity|].
    unfold time_time at 1.
    destruct (commit_usage_frame request posts_needed remaining
                (with_ticks wc (S (ticks wc))))
      as (out & wd & Hc & Cc & Kc & Tc & (evs1 & Ec & Bc) & _).
    rewrite Hc. destruct out as [rr rp].
    unfold time_time at 1.
    match goal with
    | |- context [record_search_metrics ?r ?b ?x1 ?x2 ?x3 ?x4 ?x5 ?x6 ?x7 ?ww] =>
        destruct (record_search_metrics_frame r b x1 x2 x3 x4 x5 x6 x7 ww)
          as (wr & Hr & Ur & Cr & Kr & Tr & (evs2 & Er & Br));
        rewrite Hr
    end.
    unfold time_time, ret.
    eexists _, _, _, _. split; [reflexivity|]. split; [reflexivity|].
    cbn [Leads.leads total_found result_age_hours results_remaining posts_remaining
         search_metrics model_used tier_info fst snd users cache events with_ticks].
    repeat split; try reflexivity.
    + rewrite Ur. reflexivity.
    + rewrite Cr. cbn [cache with_ticks]. rewrite Cc. reflexivity.
    + exists (evs1 ++ evs2). split; [|rewrite forallb_app, Bc, Br; reflexivity].
      rewrite Er. cbn [events with_ticks]. rewrite Ec. cbn [events with_ticks].
      rewrite <- app_assoc. reflexivity.
  - eexists _, _. split; reflexivity.
Qed.

(** A request that passes the four checks: the usage check, then the
    body under the handler that turns a failure into status 500. *)
Lemma search_leads_stages (request : LeadSearchRequest) (w : World) :
  well_formed request ->
  search_leads fetch_posts_from_multiple_subreddits smart_summary str_to_int
    str_to_float exn_text request w
  = match fst (check_usage request w) with
    | Raise e => (Raise e, queried request w)
    | Ok remaining =>
        match search_body fetch_posts_from_multiple_subreddits smart_summary str_to_int
                str_to_float request (get_posts_to_scrape (result_count request)) remaining
                (queried request w) with
        | (Ok resp, w') => (Ok resp, w')
        | (Raise e, w') =>
            (Raise (HTTPException 500 ("Internal server error: " +:+ exn_text e)), w')
        end
    end.
Proof.
  intros WF. destruct (search_leads_cases request w) as [[_ E]|[N _]]; [|contradiction].
  rewrite E. unfold bind. rewrite check_usage_cases. cbn [fst].
  destruct (match account request w with Some _ => _ | None => _ end); reflexivity.
Qed.

Lemma check_usage_within_quota (request : LeadSearchRequest) (w : World) :
  within_quota request w -> exists remaining, fst (check_usage request w) = Ok remaining.
Proof.
  unfold within_quota. rewrite check_usage_cases. cbn [fst].
  destruct (account request w) as [[id u]|]; [|eexists; reflexivity].
  intros [H1 H2]. unfold validate_user_limits, get_posts_to_scrape. cbv zeta.
  destruct (150 <? _) eqn:E1; [apply Z.ltb_lt in E1; lia|].
  destruct (2250 <? _) eqn:E2; [apply Z.ltb_lt in E2; lia|].
  eexists. reflexivity.
Qed.

Lemma cached_queried (request : LeadSearchRequest) (w : World) :
  cached request (queried request w) = cached request w.
Proof.
  destruct (queried_frame request w) as (_ & C & K & T & _).
  unfold cached. rewrite C, K, T. reflexivity.
Qed.

Lemma cached_Some (request : LeadSearchRequest) (w : World) (stored : list Lead) (age : Q) :
  cached request w = Some (stored, age) ->
  exists stored_at, cache w !! cache_key request = Some (stored_at, stored).
Proof.
  unfold cached, ResultCache.get_cached_results. cbv zeta. fold (cache_key request).
  destruct (cache w !! cache_key request) as [[ts r]|]; [|discriminate].
  destruct (gtb _ _); cbn [fst]; [discriminate|].
  intros [= <- _]. eexists. reflexivity.
Qed.

(** Every category offered for selection has its three subreddits, and a
    fourth as backup. *)
Lemma offered_categories_checked :
  forallb
    (fun name =>
       dict_mem SIMPLIFIED_SUBREDDIT_MAPPINGS name
       && (length (get_beta_subreddits name false) =? 3)%nat
       && (length (get_beta_subreddits name true) =? 4)%nat)
    (Options.get_business_options ++ Options.get_industry_options) = true.
Proof. vm_compute. reflexivity. Qed.

Lemma offered_category_subreddits (name : string) :
  In name (Options.get_business_options ++ Options.get_industry_options) ->
  length (subreddits (get_beta_info name)) = 3%nat.
Proof.
  intros H. pose proof offered_categories_checked as A.
  rewrite List.forallb_forall in A. specialize (A name H).
  apply andb_prop in A. destruct A as [A _]. apply andb_prop in A. destruct A as [_ A].
  apply Nat.eqb_eq in A. exact A.
Qed.

(** X21.  Every business and every industry offered for selection is a key of
    the beta table, where it has exactly three primary subreddits and,
    with the backup, four; so the fallback of [get_beta_subreddits] is
    never taken for an offered category, and the information returned for
    it announces 1500 posts. *)
Theorem offered_categories_have_three_subreddits :
  Forall
    (fun name =>
       dict_mem SIMPLIFIED_SUBREDDIT_MAPPINGS name = true
       /\ length (get_beta_subreddits name false) = 3%nat
       /\ length (get_beta_subreddits name true) = 4%nat
       /\ total_posts (get_beta_info name) = 1500)
    (Options.get_business_options ++ Options.get_industry_options).
Proof.
  apply List.Forall_forall. intros name H.
  pose proof offered_categories_checked as A.
  rewrite List.forallb_forall in A. specialize (A name H).
  apply andb_prop in A. destruct A as [A A3]. apply andb_prop in A. destruct A as [A1 A2].
  apply Nat.eqb_eq in A2, A3. repeat split; try assumption.
  unfold get_beta_info. cbn [total_posts]. rewrite A2. reflexivity.
Qed.

(** X22.  A request of an identified caller that would take the account over
    150 results or over 2250 posts is refused with status 400; the only
    effect is the query of the caller's row: nothing is charged, the cache
    is not consulted and nothing is fetched. *)
Theorem over_quota_request_is_refused (request : LeadSearchRequest) (w : World)
    (id : Z) (u : User.t) :
  well_formed request ->
  account request w = Some (id, u) ->
  150 < User.results_used u + result_count request
  \/ 2250 < User.posts_analyzed u + result_count request * 15 ->
  exists detail,
    search_leads fetch_posts_from_multiple_subreddits smart_summary str_to_int
      str_to_float exn_text request w
    = (Raise (HTTPException 400 detail), log_event w (QueryUser id)).
Proof.
  intros WF A Q. rewrite (search_leads_stages request w WF), check_usage_cases.
  rewrite (account_queried request w id u A), A. cbn [fst].
  unfold validate_user_limits, get_posts_to_scrape. cbv zeta.
  destruct (150 <? _) eqn:E1; [eexists; reflexivity|].
  destruct (2250 <? _) eqn:E2; [eexists; reflexivity|].
  apply Z.ltb_ge in E1, E2. lia.
Qed.

(** X23.  When a request of an identified caller completes, the caller's row -
    and no other - has been replaced by the charged one, which is within
    both caps, and the response reports what is left under the caps. *)
Theorem completed_request_stays_within_caps (request : LeadSearchRequest) (w w' : World)
    (resp : LeadSearchResponse) (id : Z) (u : User.t) :
  search_leads fetch_posts_from_multiple_subreddits smart_summary str_to_int
    str_to_float exn_text request w = (Ok resp, w') ->
  account request w = Some (id, u) ->
  let u' := charged u (result_count request) (result_count request * 15) in
  users w' = <[id := u']> (users w)
  /\ User.results_used u' <= 150
  /\ User.posts_analyzed u' <= 2250
  /\ results_remaining resp = 150 - User.results_used u'
  /\ posts_remaining resp = 2250 - User.posts_analyzed u'
  /\ 0 <= results_remaining resp
  /\ 0 <= posts_remaining resp.
Proof.
  intros Run A. cbv zeta.
  destruct (search_leads_cases request w) as [[WF _]|[_ [d E]]]; [|congruence].
  rewrite (search_leads_stages request w WF), check_usage_cases in Run.
  rewrite A in Run. cbn [fst] in Run.
  assert (Q : User.results_used u + result_count request <= 150
              /\ User.posts_analyzed u + result_count request * 15 <= 2250).
  { revert Run. unfold validate_user_limits, get_posts_to_scrape. cbv zeta.
    destruct (150 <? _) eqn:E1; [discriminate|].
    destruct (2250 <? _) eqn:E2; [discriminate|].
    apply Z.ltb_ge in E1, E2. intros _. lia. }
  destruct (validate_user_limits _ _ _) as [[[[valid msg] pn] rr] rp].
  destruct valid; [|discriminate].
  destruct (search_body_runs request (get_posts_to_scrape (result_count request)) (rr, rp)
              (queried request w)) as (found & wc & CF & Body).
  pose proof (cached_or_fresh_users _ _ _ _ _ _ _ _ _ _ _ _ CF) as Uc.
  destruct found as [[[[leads age] [[[tokens cost] model] analyzed]] scraped]|e].
  - destruct Body as (out & wd & resp0 & w0 & Hc & Hb & _ & _ & _ & Rr & Rp & _ & _
                      & Uw & _).
    rewrite Hb in Run. injection Run as <- <-.
    rewrite commit_usage_cases in Hc.
    assert (A' : account request (with_ticks wc (S (ticks wc))) = Some (id, u)).
    { rewrite <- A. apply account_users. cbn [users with_ticks]. rewrite Uc.
      apply queried_frame. }
    rewrite A' in Hc. injection Hc as <- <-.
    destruct WF as (_ & _ & WF).
    cbn [users with_users with_ticks log_event with_events] in Uw.
    rewrite Uw, Rr, Rp, Uc, (proj1 (queried_frame request w)).
    unfold get_posts_to_scrape, charged. cbn [fst snd User.results_used User.posts_analyzed].
    repeat split; try reflexivity; lia.
  - rewrite Body in Run. discriminate.
Qed.

(** X24.  A request that fails, at whatever stage, charges nothing: the user
    table is as it was, and the failure is reported with status 400 or
    500. *)
Theorem failed_request_charges_nothing (request : LeadSearchRequest) (w w' : World)
    (e : exn) :
  search_leads fetch_posts_from_multiple_subreddits smart_summary str_to_int
    str_to_float exn_text request w = (Raise e, w') ->
  users w' = users w
  /\ exists status detail,
       e = HTTPException status detail /\ (status = 400 \/ status = 500).
Proof.
  intros Run.
  destruct (search_leads_cases request w) as [[WF _]|[_ [d E]]].
  - rewrite (search_leads_stages request w WF), check_usage_cases in Run.
    cbn [fst] in Run.
    destruct (match account request w with Some _ => _ | None => _ end)
      as [remaining|e0] eqn:Chk.
    + destruct (search_body_runs request (get_posts_to_scrape (result_count request))
                  remaining (queried request w)) as (found & wc & CF & Body).
      pose proof (cached_or_fresh_users _ _ _ _ _ _ _ _ _ _ _ _ CF) as Uc.
      destruct found as [[[[leads age] [[[tokens cost] model] analyzed]] scraped]|e1].
      * destruct Body as (out & wd & resp0 & w0 & _ & Hb & _). rewrite Hb in Run.
        discriminate.
      * rewrite Body in Run. injection Run as <- <-.
        split; [rewrite Uc; apply queried_frame|].
        eexists _, _. split; [reflexivity | right; reflexivity].
    + injection Run as <- <-. split; [apply queried_frame|].
      destruct (account request w) as [[id u]|]; [|discriminate].
      destruct (validate_user_limits _ _ _) as [[[[valid msg] pn] rr] rp].
      destruct valid; [discriminate|]. injection Chk as <-.
      eexists _, _. split; [reflexivity | left; reflexivity].
  - rewrite E in Run. injection Run as <- <-. split; [reflexivity|].
    eexists _, _. split; [reflexivity | left; reflexivity].
Qed.

(** X25.  A request that names no account - no caller, a caller that is not a
    number, or a number without a row - never changes the user table,
    and when it completes the response reports the full quota. *)
Theorem anonymous_request_changes_no_account (request : LeadSearchRequest) (w w' : World)
    (r : res LeadSearchResponse) :
  account request w = None ->
  search_leads fetch_posts_from_multiple_subreddits smart_summary str_to_int
    str_to_float exn_text request w = (r, w') ->
  users w' = users w
  /\ forall resp,
       r = Ok resp -> results_remaining resp = 150 /\ posts_remaining resp = 2250.
Proof.
  intros A Run.
  destruct (search_leads_cases request w) as [[WF _]|[_ [d E]]].
  - rewrite (search_leads_stages request w WF), check_usage_cases in Run.
    rewrite A in Run. cbn [fst] in Run.
    destruct (search_body_runs request (get_posts_to_scrape (result_count request))
                (150, 2250) (queried request w)) as (found & wc & CF & Body).
    pose proof (cached_or_fresh_users _ _ _ _ _ _ _ _ _ _ _ _ CF) as Uc.
    destruct found as [[[[leads age] [[[tokens cost] model] analyzed]] scraped]|e1].
    + destruct Body as (out & wd & resp0 & w0 & Hc & Hb & _ & _ & _ & Rr & Rp & _ & _
                        & Uw & _).
      rewrite Hb in Run. injection Run as <- <-.
      rewrite commit_usage_cases in Hc.
      assert (A' : account request (with_ticks wc (S (ticks wc))) = None).
      { rewrite <- A. apply account_users. cbn [users with_ticks]. rewrite Uc.
        apply queried_frame. }
      rewrite A' in Hc. injection Hc as <- <-.
      split.
      * rewrite Uw, (proj1 (queried_frame request _)). cbn [users with_ticks].
        rewrite Uc. apply queried_frame.
      * intros resp [= <-]. rewrite Rr, Rp.
        destruct (otruthy (user_id request)); split; reflexivity.
    + rewrite Body in Run. injection Run as <- <-.
      split; [rewrite Uc; apply queried_frame | discriminate].
  - rewrite E in Run. injection Run as <- <-. split; [reflexivity | discriminate].
Qed.

(** X26.  A request whose key has a fresh entry in the cache is answered with
    the stored leads and their age; the cache is left as it was, and
    between the bookkeeping on the user and metrics tables the only
    effect is the cache lookup: nothing is fetched and nothing is stored. *)
Theorem cache_hit_skips_fetch (request : LeadSearchRequest) (w : World)
    (stored : list Lead) (age : Q) :
  well_formed request ->
  within_quota request w ->
  cached request w = Some (stored, age) ->
  exists resp w',
    search_leads fetch_posts_from_multiple_subreddits smart_summary str_to_int
      str_to_float exn_text request w = (Ok resp, w')
    /\ Leads.leads resp = stored
    /\ total_found resp = Z.of_nat (length stored)
    /\ result_age_hours resp = age
    /\ model_used (search_metrics resp) = "cached"
    /\ cache w' = cache w
    /\ exists before after,
         events w' = events w ++ before ++ [CacheLookup (cache_key request)] ++ after
         /\ forallb is_bookkeeping before = true
         /\ forallb is_bookkeeping after = true.
Proof.
  intros WF Q H. rewrite (search_leads_stages request w WF).
  destruct (check_usage_within_quota request w Q) as [remaining ->].
  destruct (search_body_runs request (get_posts_to_scrape (result_count request))
              remaining (queried request w)) as (found & wc & CF & Body).
  rewrite <- cached_queried in H.
  destruct (cached_or_fresh_hit request
              (subreddits (get_beta_info (category request)))
              (get_posts_to_scrape (result_count request)) (config (queried request w))
              (queried request w) stored age H) as (wc' & CF' & _ & Cc & _ & Ec).
  rewrite CF' in CF. injection CF as <- <-.
  destruct Body as (out & wd & resp & w' & _ & Hb & L & N & G & _ & _ & M & _ & _ & Cw & Ew).
  rewrite Hb. exists resp, w'. split; [reflexivity|].
  destruct (queried_frame request w) as (_ & Cq & _ & _ & _ & (before & Eq & Bq)).
  destruct Ew as (after & Ew & Ba).
  repeat split; try assumption.
  - rewrite Cw, Cc. exact Cq.
  - exists before, after. split; [|split; assumption].
    rewrite Ew, Ec, Eq. rewrite <- !app_assoc. reflexivity.
Qed.

(** X27.  A request for an offered category whose key is not in the cache:
    one fetch is made, over the three subreddits of the category with a
    limit of five posts per requested result on each; the filtered leads
    are cut to the requested count, stored under the request's key and
    returned at age zero. *)
Theorem cache_miss_fetches_and_stores (request : LeadSearchRequest) (w : World)
    (posts : list Post) :
  well_formed request ->
  within_quota request w ->
  cached request w = None ->
  In (category request) (Options.get_business_options ++ Options.get_industry_options) ->
  fetch_posts_from_multiple_subreddits (subreddits (get_beta_info (category request)))
    (problem_description request) (result_count request * 5) "all_time" = Ok posts ->
  exists resp w',
    search_leads fetch_posts_from_multiple_subreddits smart_summary str_to_int
      str_to_float exn_text request w = (Ok resp, w')
    /\ Leads.leads resp
       = firstn (Z.to_nat (result_count request))
           (fst (FastLeadFilter.filter_posts (config w) smart_summary str_to_int
                   str_to_float posts (problem_description request) (category request)
                   None))
    /\ total_found resp <= result_count request
    /\ result_age_hours resp = 0%Q
    /\ (exists stored_at,
          cache w' !! cache_key request = Some (stored_at, Leads.leads resp))
    /\ exists before after,
         events w'
         = events w ++ before
             ++ [CacheLookup (cache_key request);
                 Fetch (subreddits (get_beta_info (category request)))
                   (problem_description request) (result_count request * 5);
                 CacheStore (cache_key request)]
             ++ after
         /\ forallb is_bookkeeping before = true
         /\ forallb is_bookkeeping after = true.
Proof.
  intros WF Q H O F. rewrite (search_leads_stages request w WF).
  destruct (check_usage_within_quota request w Q) as [remaining ->].
  destruct (search_body_runs request (get_posts_to_scrape (result_count request))
              remaining (queried request w)) as (found & wc & CF & Body).
  rewrite <- cached_queried in H.
  destruct (cached_or_fresh_miss request
              (subreddits (get_beta_info (category request)))
              (get_posts_to_scrape (result_count request)) (config (queried request w))
              (queried request w) H) as (wc' & _ & _ & Miss).
  pose proof (offered_category_subreddits _ O) as L3.
  assert (Lim : Z.max 1 (get_posts_to_scrape (result_count request)
                         / Z.of_nat (length (subreddits (get_beta_info (category request)))))
                = result_count request * 5).
  { rewrite L3. unfold get_posts_to_scrape. destruct WF as (_ & _ & WF).
    replace (result_count request * 15) with (result_count request * 5 * 3) by lia.
    change (Z.of_nat 3) with 3. rewrite Z.div_mul by lia. lia. }
  rewrite Lim in Miss.
  destruct (subreddits (get_beta_info (category request))) as [|s0 ss] eqn:Subs;
    [discriminate|].
  rewrite F in Miss. cbv zeta in Miss. destruct Miss as (CF' & Ec & St).
  rewrite CF' in CF. injection CF as <- <-.
  destruct Body as (out & wd & resp & w' & _ & Hb & L & N & G & _ & _ & _ & _ & _ & Cw & Ew).
  rewrite Hb. exists resp, w'. split; [reflexivity|].
  destruct (queried_frame request w) as (_ & _ & _ & _ & Kq & (before & Eq & Bq)).
  destruct Ew as (after & Ew & Ba).
  rewrite Kq in *.
  split; [exact L|]. split; [|split; [exact G|split]].
  - rewrite N. destruct WF as (_ & _ & WF).
    pose proof (List.firstn_le_length (Z.to_nat (result_count request))
                  (fst (FastLeadFilter.filter_posts (config w) smart_summary str_to_int
                          str_to_float posts (problem_description request)
                          (category request) None))).
    lia.
  - rewrite Cw, L. exact St.
  - exists before, after. split; [|split; assumption].
    rewrite Ew, Ec, Eq. rewrite <- !app_assoc. reflexivity.
Qed.

(** X28.  A request for a category that is not in the beta table, when its
    key is not in the cache, fails with status 500 on the division by the
    number of subreddits; nothing is fetched and nothing is charged. *)
Theorem unknown_category_fails_with_500 (request : LeadSearchRequest) (w : World) :
  well_formed request ->
  within_quota request w ->
  cached request w = None ->
  dict_get SIMPLIFIED_SUBREDDIT_MAPPINGS (category request) = None ->
  exists w',
    search_leads fetch_posts_from_multiple_subreddits smart_summary str_to_int
      str_to_float exn_text request w
    = (Raise (HTTPException 500
                ("Internal server error: " +:+ exn_text ZeroDivisionError)), w')
    /\ users w' = users w
    /\ exists before,
         events w' = events w ++ before ++ [CacheLookup (cache_key request)]
         /\ forallb is_bookkeeping before = true.
Proof.
  intros WF Q H U. rewrite (search_leads_stages request w WF).
  destruct (check_usage_within_quota request w Q) as [remaining ->].
  destruct (search_body_runs request (get_posts_to_scrape (result_count request))
              remaining (queried request w)) as (found & wc & CF & Body).
  rewrite <- cached_queried in H.
  destruct (cached_or_fresh_miss request
              (subreddits (get_beta_info (category request)))
              (get_posts_to_scrape (result_count request)) (config (queried request w))
              (queried request w) H) as (wc' & Uc & _ & Miss).
  assert (Subs : subreddits (get_beta_info (category request)) = []).
  { unfold get_beta_info, get_beta_subreddits. cbn [subreddits]. rewrite U. reflexivity. }
  rewrite Subs in *. destruct Miss as [CF' Ec].
  rewrite CF' in CF. injection CF as <- <-. rewrite Body.
  eexists. split; [reflexivity|].
  destruct (queried_frame request w) as (Uq & _ & _ & _ & _ & (before & Eq & Bq)).
  split; [rewrite Uc; exact Uq|].
  exists before. split; [|exact Bq]. rewrite Ec, Eq, <- app_assoc. reflexivity.
Qed.

(** X29.  After a request has completed, on a hit and on a miss alike, the
    cache holds the leads of the response under the request's key. *)
Theorem completed_request_is_cached (request : LeadSearchRequest) (w w' : World)
    (resp : LeadSearchResponse) :
  search_leads fetch_posts_from_multiple_subreddits smart_summary str_to_int
    str_to_float exn_text request w = (Ok resp, w') ->
  exists stored_at, cache w' !! cache_key request = Some (stored_at, Leads.leads resp).
Proof.
  intros Run.
  destruct (search_leads_cases request w) as [[WF _]|[_ [d E]]]; [|congruence].
  rewrite (search_leads_stages request w WF) in Run.
  destruct (fst (check_usage request w)) as [remaining|e]; [|discriminate].
  destruct (search_body_runs request (get_posts_to_scrape (result_count request))
              remaining (queried request w)) as (found & wc & CF & Body).
  destruct found as [[[[leads age] [[[tokens cost] model] analyzed]] scraped]|e];
    [|rewrite Body in Run; discriminate].
  destruct Body as (out & wd & resp0 & w0 & _ & Hb & L & _ & _ & _ & _ & _ & _ & _ & Cw & _).
  rewrite Hb in Run. injection Run as <- <-. rewrite Cw, L.
  destruct (cached request (queried request w)) as [[stored age0]|] eqn:H.
  - destruct (cached_or_fresh_hit request
                (subreddits (get_beta_info (category request)))
                (get_posts_to_scrape (result_count request)) (config (queried request w))
                (queried request w) stored age0 H) as (wc' & CF' & _ & Cc & _).
    rewrite CF' in CF. injection CF as <- _ _ _ _ _ _ <-.
    rewrite Cc. exact (cached_Some _ _ _ _ H).
  - destruct (cached_or_fresh_miss request
                (subreddits (get_beta_info (category request)))
                (get_posts_to_scrape (result_count request)) (config (queried request w))
                (queried request w) H) as (wc' & _ & _ & Miss).
    destruct (subreddits (get_beta_info (category request))) as [|s0 ss].
    + destruct Miss as [CF' _]. rewrite CF' in CF. discriminate.
    + destruct (fetch_posts_from_multiple_subreddits _ _ _ _) as [posts|e].
      * cbv zeta in Miss. destruct Miss as (CF' & _ & St).
        rewrite CF' in CF. injection CF as <- _ _ _ _ _ _ <-. exact St.
      * destruct Miss as [CF' _]. rewrite CF' in CF. discriminate.
Qed.

End RouteFacts.
(** ** The theorems above at the posts, requests and worlds of [Scenario] *)

Lemma accepted_request_fits_witness :
  EmptyString +:+ "Valid request" = "Valid request"
  /\ 120 = 150 - (20 + 10)
  /\ 1800 = 2250 - (300 + 150)
  /\ 150 = 15 * 10
  /\ 0 <= 120
  /\ 0 <= 1800.
Proof. exact (accepted_request_fits 20 300 10 eq_refl). Defined.

(** A batch of two well-typed posts. *)
Lemma rule_based_filter_ranks_kept_posts_witness :
  exists out,
    FastLeadFilter._rule_based_filter default_ai_config
      [[("title", PyStr "Weekly thread")]; Scenario.help_post]
      "getting clients" "SaaS Companies" None = Ok out
    /\ StronglySorted FilterSpec.ranked out
    /\ Permutation out
         (FilterSpec.kept default_ai_config "getting clients" "SaaS Companies" None
            [[("title", PyStr "Weekly thread")]; Scenario.help_post])
    /\ (forall k,
          FilterSpec.with_score k out
          = FilterSpec.with_score k
              (FilterSpec.kept default_ai_config "getting clients" "SaaS Companies" None
                 [[("title", PyStr "Weekly thread")]; Scenario.help_post]))
    /\ (length out <= 2)%nat.
Proof.
  apply (rule_based_filter_ranks_kept_posts default_ai_config
           [[("title", PyStr "Weekly thread")]; Scenario.help_post]
           "getting clients" "SaaS Companies" None).
  vm_compute. reflexivity.
Defined.

(** A batch whose second post has a [None] content. *)
Lemma ill_typed_post_empties_batch_witness :
  forallb FilterSpec.text_ok [Scenario.help_post; Scenario.null_content_post] = false
  /\ FastLeadFilter.filter_posts default_ai_config Scenario.plain_summary Scenario.no_int
       Scenario.no_float [Scenario.help_post; Scenario.null_content_post]
       "getting clients" "SaaS Companies" None
     = ([], FilterSpec.reset_metrics [Scenario.help_post; Scenario.null_content_post]).
Proof.
  assert (H : forallb FilterSpec.text_ok [Scenario.help_post; Scenario.null_content_post]
              = false) by (vm_compute; reflexivity).
  split; [exact H|].
  exact (proj2 (ill_typed_post_empties_batch default_ai_config Scenario.plain_summary
                  Scenario.no_int Scenario.no_float
                  [Scenario.help_post; Scenario.null_content_post]
                  "getting clients" "SaaS Companies" None H)).
Defined.

(** The post asking for help contains the keyword [clients] of the
    problem. *)
Lemma keyword_hit_is_returned_witness :
  In "clients" (AIEnhancer._extract_keywords "getting clients")
  /\ exists out,
       FastLeadFilter._rule_based_filter default_ai_config [Scenario.help_post]
         "getting clients" "SaaS Companies" None = Ok out
       /\ In (FilterSpec.scored "getting clients" "SaaS Companies" None Scenario.help_post)
            out
       /\ 7 <= FastLeadFilter.relevance_key
                 (FilterSpec.scored "getting clients" "SaaS Companies" None
                    Scenario.help_post).
Proof.
  assert (K : In "clients" (AIEnhancer._extract_keywords "getting clients"))
    by (vm_compute; right; left; reflexivity).
  split; [exact K|].
  apply (keyword_hit_is_returned default_ai_config [Scenario.help_post]
           "getting clients" "SaaS Companies" None Scenario.help_post "clients").
  - vm_compute. reflexivity.
  - vm_compute. discriminate.
  - left. reflexivity.
  - exact K.
  - vm_compute. reflexivity.
Defined.

Lemma scenario_request_10 :
  RouteSpec.well_formed Scenario.request_10
  /\ RouteSpec.account Scenario.request_10 Scenario.world0
     = Some (7, {| User.results_used := 20; User.posts_analyzed := 300;
                   User.total_tokens_used := 0; User.total_cost := 0 |})
  /\ RouteSpec.within_quota Scenario.request_10 Scenario.world0
  /\ RouteSpec.within_quota Scenario.request_10 Scenario.world1.
Proof.
  assert (A : RouteSpec.account Scenario.request_10 Scenario.world0
              = Some (7, {| User.results_used := 20; User.posts_analyzed := 300;
                            User.total_tokens_used := 0; User.total_cost := 0 |}))
    by (vm_compute; reflexivity).
  assert (A1 : RouteSpec.account Scenario.request_10 Scenario.world1
               = Some (7, {| User.results_used := 30; User.posts_analyzed := 450;
                             User.total_tokens_used := 0; User.total_cost := 0 |}))
    by (vm_compute; reflexivity).
  split; [|split; [exact A|split]].
  - unfold RouteSpec.well_formed. repeat split; vm_compute; try reflexivity; discriminate.
  - unfold RouteSpec.within_quota. rewrite A. vm_compute. split; discriminate.
  - unfold RouteSpec.within_quota. rewrite A1. vm_compute. split; discriminate.
Defined.

(** Account 7 has used 20 results and asks for 140. *)
Lemma over_quota_request_is_refused_witness :
  exists detail,
    Scenario.run
      {| Leads.problem_description := "getting clients";
         Leads.business := Some "SaaS Companies";
         Leads.industry := None;
         Leads.user_id := Some "7";
         Leads.result_count := 140 |}
      Scenario.world0
    = (Raise (HTTPException 400 detail),
       Leads.log_event Scenario.world0 (Leads.QueryUser 7)).
Proof.
  apply (over_quota_request_is_refused Scenario.fetch_one Scenario.plain_summary
           Scenario.no_int Scenario.no_float Scenario.exn_name
           {| Leads.problem_description := "getting clients";
              Leads.business := Some "SaaS Companies";
              Leads.industry := None;
              Leads.user_id := Some "7";
              Leads.result_count := 140 |}
           Scenario.world0 7
           {| User.results_used := 20; User.posts_analyzed := 300;
              User.total_tokens_used := 0; User.total_cost := 0 |}).
  - unfold RouteSpec.well_formed. repeat split; vm_compute; try reflexivity; discriminate.
  - vm_compute. reflexivity.
  - left. vm_compute. reflexivity.
Defined.

(** The first request of account 7 for 10 results. *)
Lemma completed_request_stays_within_caps_witness :
  match Scenario.run Scenario.request_10 Scenario.world0 with
  | (Ok resp, w') =>
      Leads.users w' !! 7
      = Some (RouteSpec.charged
                {| User.results_used := 20; User.posts_analyzed := 300;
                   User.total_tokens_used := 0; User.total_cost := 0 |} 10 150)
      /\ Leads.results_remaining resp = 120
      /\ Leads.posts_remaining resp = 1800
  | (Raise _, _) => False
  end.
Proof.
  destruct (Scenario.run Scenario.request_10 Scenario.world0) as [[resp|e] w'] eqn:R.
  - destruct (completed_request_stays_within_caps Scenario.fetch_one Scenario.plain_summary
                Scenario.no_int Scenario.no_float Scenario.exn_name
                Scenario.request_10 Scenario.world0 w' resp 7 _ R
                (proj1 (proj2 scenario_request_10)))
      as (U & _ & _ & Rr & Rp & _).
    split; [rewrite U; apply lookup_insert_eq|]. split; [exact Rr | exact Rp].
  - assert (H : match fst (Scenario.run Scenario.request_10 Scenario.world0) with
                | Ok _ => True
                | Raise _ => False
                end) by (vm_compute; exact I).
    rewrite R in H. exact H.
Defined.

(** A request for a category outside the beta table fails and leaves the
    accounts alone. *)
Lemma failed_request_charges_nothing_witness :
  match Scenario.run
          {| Leads.problem_description := "getting clients";
             Leads.business := Some "Plumbers";
             Leads.industry := None;
             Leads.user_id := Some "7";
             Leads.result_count := 10 |}
          Scenario.world0 with
  | (Raise e, w') =>
      Leads.users w' = Leads.users Scenario.world0
      /\ exists status detail,
           e = HTTPException status detail /\ (status = 400 \/ status = 500)
  | (Ok _, _) => False
  end.
Proof.
  destruct (Scenario.run _ Scenario.world0) as [[resp|e] w'] eqn:R.
  - assert (H : match fst (Scenario.run
                             {| Leads.problem_description := "getting clients";
                                Leads.business := Some "Plumbers";
                                Leads.industry := None;
                                Leads.user_id := Some "7";
                                Leads.result_count := 10 |}
                             Scenario.world0) with
                | Ok _ => False
                | Raise _ => True
                end) by (vm_compute; exact I).
    rewrite R in H. exact H.
  - exact (failed_request_charges_nothing Scenario.fetch_one Scenario.plain_summary
             Scenario.no_int Scenario.no_float Scenario.exn_name _ _ _ _ R).
Defined.

(** A request without a caller. *)
Lemma anonymous_request_changes_no_account_witness :
  let request :=
    {| Leads.problem_description := "getting clients";
       Leads.business := Some "SaaS Companies";
       Leads.industry := None;
       Leads.user_id := None;
       Leads.result_count := 10 |} in
  RouteSpec.account request Scenario.world0 = None
  /\ Leads.users (snd (Scenario.run request Scenario.world0)) = Leads.users Scenario.world0
  /\ forall resp,
       fst (Scenario.run request Scenario.world0) = Ok resp ->
       Leads.results_remaining resp = 150 /\ Leads.posts_remaining resp = 2250.
Proof.
  intros request.
  assert (A : RouteSpec.account request Scenario.world0 = None) by reflexivity.
  split; [exact A|].
  exact (anonymous_request_changes_no_account Scenario.fetch_one Scenario.plain_summary
           Scenario.no_int Scenario.no_float Scenario.exn_name request Scenario.world0
           (snd (Scenario.run request Scenario.world0))
           (fst (Scenario.run request Scenario.world0)) A
           (surjective_pairing (Scenario.run request Scenario.world0))).
Defined.

(** The second request of account 7, in the world the first one left. *)
Lemma cache_hit_skips_fetch_witness :
  exists resp w',
    Scenario.run Scenario.request_10 Scenario.world1 = (Ok resp, w')
    /\ Leads.model_used (Leads.search_metrics resp) = "cached"
    /\ Leads.cache w' = Leads.cache Scenario.world1.
Proof.
  destruct (RouteSpec.cached Scenario.request_10 Scenario.world1) as [[stored age]|] eqn:H.
  - destruct (cache_hit_skips_fetch Scenario.fetch_one Scenario.plain_summary
                Scenario.no_int Scenario.no_float Scenario.exn_name
                Scenario.request_10 Scenario.world1 stored age
                (proj1 scenario_request_10)
                (proj2 (proj2 (proj2 scenario_request_10))) H)
      as (resp & w' & R & _ & _ & _ & M & C & _).
    exists resp, w'. split; [exact R|]. split; [exact M | exact C].
  - exfalso.
    assert (N : match RouteSpec.cached Scenario.request_10 Scenario.world1 with
                | Some _ => True
                | None => False
                end) by (vm_compute; exact I).
    rewrite H in N. exact N.
Defined.

(** The first request of account 7, with an empty cache. *)
Lemma cache_miss_fetches_and_stores_witness :
  exists resp w',
    Scenario.run Scenario.request_10 Scenario.world0 = (Ok resp, w')
    /\ Leads.total_found resp <= 10
    /\ exists stored_at,
         Leads.cache w' !! RouteSpec.cache_key Scenario.request_10
         = Some (stored_at, Leads.leads resp).
Proof.
  destruct (cache_miss_fetches_and_stores Scenario.fetch_one Scenario.plain_summary
              Scenario.no_int Scenario.no_float Scenario.exn_name
              Scenario.request_10 Scenario.world0 [Scenario.help_post]
              (proj1 scenario_request_10)
              (proj1 (proj2 (proj2 scenario_request_10)))
              ltac:(vm_compute; reflexivity)
              ltac:(vm_compute; repeat (first [left; reflexivity | right]))
              eq_refl)
    as (resp & w' & R & _ & T & _ & S & _).
  exists resp, w'. split; [exact R|]. split; [exact T | exact S].
Defined.

(** A category that is not in the beta table. *)
Lemma unknown_category_fails_with_500_witness :
  exists w',
    Scenario.run
      {| Leads.problem_description := "getting clients";
         Leads.business := Some "Plumbers";
         Leads.industry := None;
         Leads.user_id := None;
         Leads.result_count := 10 |}
      Scenario.world0
    = (Raise (HTTPException 500 "Internal server error: error"), w')
    /\ Leads.users w' = Leads.users Scenario.world0.
Proof.
  destruct (unknown_category_fails_with_500 Scenario.fetch_one Scenario.plain_summary
              Scenario.no_int Scenario.no_float Scenario.exn_name
              {| Leads.problem_description := "getting clients";
                 Leads.business := Some "Plumbers";
                 Leads.industry := None;
                 Leads.user_id := None;
                 Leads.result_count := 10 |}
              Scenario.world0)
    as (w' & R & U & _).
  - unfold RouteSpec.well_formed. repeat split; vm_compute; try reflexivity; discriminate.
  - exact I.
  - vm_compute. reflexivity.
  - vm_compute. reflexivity.
  - exists w'. split; [exact R | exact U].
Defined.

(** The leads of the first request are in the cache it leaves. *)
Lemma completed_request_is_cached_witness :
  match Scenario.run Scenario.request_10 Scenario.world0 with
  | (Ok resp, w') =>
      exists stored_at,
        Leads.cache w' !! RouteSpec.cache_key Scenario.request_10
        = Some (stored_at, Leads.leads resp)
  | (Raise _, _) => False
  end.
Proof.
  destruct (Scenario.run Scenario.request_10 Scenario.world0) as [[resp|e] w'] eqn:R.
  - exact (completed_request_is_cached Scenario.fetch_one Scenario.plain_summary
             Scenario.no_int Scenario.no_float Scenario.exn_name _ _ _ _ R).
  - assert (H : match fst (Scenario.run Scenario.request_10 Scenario.world0) with
                | Ok _ => True
                | Raise _ => False
                end) by (vm_compute; exact I).
    rewrite R in H. exact H.
Defined.

(** What identifies a caller is [int(user_id)]: blanks around the number
    are skipped and single underscores between digits accepted; the
    separators 28 to 31, which [str.strip] would remove, are not skipped,
    and a literal of more than 4300 digits is refused. *)
Lemma py_int_examples :
  py_int "7" = Some 7
  /\ py_int (" 7" +:+ String (ascii_of_N 10) EmptyString) = Some 7
  /\ py_int (String (ascii_of_N 160) "+1_0") = Some 10
  /\ py_int "-007" = Some (-7)
  /\ py_int (String (ascii_of_N 28) "7") = None
  /\ py_int ("7" +:+ String (ascii_of_N 31) EmptyString) = None
  /\ py_int "1__0" = None
  /\ py_int "+ 7" = None
  /\ py_int EmptyString = None.
Proof. repeat split; vm_compute; reflexivity. Qed.

(** A caller whose id is the number of an account behind a separator is
    not that account: a request for 140 results, which account 7 could not
    afford, completes as anonymous and leaves the account as it was. *)
Lemma separator_padded_id_is_anonymous :
  match Scenario.run
          {| Leads.problem_description := "getting clients";
             Leads.business := Some "SaaS Companies";
             Leads.industry := None;
             Leads.user_id := Some (String (ascii_of_N 28) "7");
             Leads.result_count := 140 |}
          Scenario.world0 with
  | (Ok resp, w') =>
      Leads.results_remaining resp = 150
      /\ Leads.posts_remaining resp = 2250
      /\ Leads.users w' !! 7 = Leads.users Scenario.world0 !! 7
  | (Raise _, _) => False
  end.
Proof. vm_compute. repeat split; reflexivity. Qed.
